(** * PyBridge: registry, TypeScript generator and dispatcher

    A shallow embedding of [pybridge/registry.py], [pybridge/generator.py]
  and the dispatcher and streaming endpoint of [pybridge/bridge.py],
  with the properties of the design document stated over it. *)

From Stdlib Require Import String Ascii List Bool Arith Lia.
From stdpp Require Import base option list gmap strings sorting.

Import ListNotations.
Set Warnings "-register-all,-clear-no-such-hyp".
Local Open Scope string_scope.
Local Open Scope list_scope.

(** ** Python strings

    [str] values are byte strings here; identifiers, module names and
  messages of the program are ASCII.  Bytewise lexicographic order is the
  code-point order [sorted] uses. *)

Module PyStr.

Definition nl : string := String (ascii_of_nat 10) EmptyString.
Definition dq : string := String (ascii_of_nat 34) EmptyString.

Definition is_lower (a : ascii) : bool :=
  let n := nat_of_ascii a in (97 <=? n)%nat && (n <=? 122)%nat.

Definition is_upper (a : ascii) : bool :=
  let n := nat_of_ascii a in (65 <=? n)%nat && (n <=? 90)%nat.

Definition to_upper (a : ascii) : ascii :=
  if is_lower a then ascii_of_nat (nat_of_ascii a - 32) else a.

Definition to_lower (a : ascii) : ascii :=
  if is_upper a then ascii_of_nat (nat_of_ascii a + 32) else a.

(** [str.isspace] on one ASCII character. *)
Definition is_space (a : ascii) : bool :=
  let n := nat_of_ascii a in
  ((9 <=? n)%nat && (n <=? 13)%nat) || ((28 <=? n)%nat && (n <=? 32)%nat).

(** [s.split(c)] for a one-character separator: never empty. *)
Fixpoint split (c : ascii) (s : string) : list string :=
  match s with
  | EmptyString => [EmptyString]
  | String a s' =>
      if Ascii.eqb a c then EmptyString :: split c s'
      else match split c s' with
           | x :: r => String a x :: r
           | [] => [String a EmptyString]
           end
  end.

(** [s.title()]: a cased letter is upper-cased when the previous character
    is not cased and lower-cased when it is. *)
Fixpoint title_from (prev_cased : bool) (s : string) : string :=
  match s with
  | EmptyString => EmptyString
  | String a s' =>
      if is_lower a || is_upper a
      then String (if prev_cased then to_lower a else to_upper a)
                  (title_from true s')
      else String a (title_from false s')
  end.

Definition title (s : string) : string := title_from false s.

Fixpoint lstrip (s : string) : string :=
  match s with
  | EmptyString => EmptyString
  | String a s' => if is_space a then lstrip s' else s
  end.

Fixpoint rstrip (s : string) : string :=
  match s with
  | EmptyString => EmptyString
  | String a s' =>
      match rstrip s' with
      | EmptyString => if is_space a then EmptyString else String a EmptyString
      | r => String a r
      end
  end.

Definition strip (s : string) : string := rstrip (lstrip s).

(** [sep.join(parts)]. *)
Definition join (sep : string) (parts : list string) : string :=
  String.concat sep parts.

(** Truth value of an optional string ([None] and the empty string are false). *)
Definition truthy (o : option string) : bool :=
  match o with
  | Some (String _ _) => true
  | _ => false
  end.

Definition le (a b : string) : Prop := String.leb a b = true.

#[export] Instance le_dec a b : Decision (le a b).
Proof. unfold le. apply _. Defined.

#[export] Instance le_total : Total le.
Proof. intros a b. apply String.leb_total. Qed.

End PyStr.

(** ** Python dictionaries

    A [dict] keeps its keys in insertion order, each key once. *)

Module PyDict.

Definition t (V : Type) : Type := list (string * V).

Section Ops.
Context {V : Type}.

Fixpoint get (k : string) (d : t V) : option V :=
  match d with
  | [] => None
  | (k', v) :: d' => if String.eqb k k' then Some v else get k d'
  end.

Definition mem (k : string) (d : t V) : bool :=
  match get k d with Some _ => true | None => false end.

(** [d[k] = v]: overwrite in place, or append a new key. *)
Fixpoint set (k : string) (v : V) (d : t V) : t V :=
  match d with
  | [] => [(k, v)]
  | (k', v') :: d' =>
      if String.eqb k k' then (k', v) :: d' else (k', v') :: set k v d'
  end.

Definition keys (d : t V) : list string := map fst d.
Definition values (d : t V) : list V := map snd d.
End Ops.

End PyDict.


(** ** Type hints, model classes and values *)

(** Identity of a class object; [__name__] is an attribute of the class, and
    two classes may carry the same name. *)
Definition ClassId : Type := nat.

(** A type hint as the [typing] module presents it: its origin, if any, and
    its arguments. *)
Inductive TypeHint : Type :=
| TNone                                   (* the value [None] *)
| TNoneType                               (* [type(None)] *)
| TStr | TInt | TFloat | TBool | TBytes
| TAny
| TUnion (args : list TypeHint)           (* origin [Union] *)
| TList (args : list TypeHint)            (* origin [list] *)
| TDict (args : list TypeHint)            (* origin [dict] *)
| TTuple (args : list TypeHint)           (* origin [tuple] *)
| TSet (args : list TypeHint)             (* origin [set] *)
| TGeneric (origin : string) (args : list TypeHint)
                                          (* any other subscripted generic *)
| TModel (c : ClassId)                    (* a [BaseModel] subclass *)
| TClass (name : string)                  (* any other class *)
| TOther.                                 (* anything else *)

(** One entry of [model_fields]. *)
Record FieldInfo : Type := mkField {
  annotation : TypeHint;
  is_required : bool;
  description : option string
}.

(** A [BaseModel] subclass. *)
Record ModelClass : Type := mkModel {
  cls_name : string;
  cls_doc : option string;
  model_fields : PyDict.t FieldInfo
}.

(** The class objects of the program, by identity.  An identity outside the
    heap denotes an object that is not a [BaseModel] subclass. *)
Definition Heap : Type := list ModelClass.

(** Values that cross the bridge. *)
Inductive PyValue : Type :=
| VNone
| VBool (b : bool)
| VInt (z : Z)
| VStr (s : string)
| VList (items : list PyValue)
| VDict (entries : list (string * PyValue))
| VModel (c : ClassId) (fields : list (string * PyValue)).

(** ** Exceptions *)

Inductive ExnClass : Type :=
| KTypeError
| KValueError
| KValidationError
| KCommandExecutionError
| KException (name : string)              (* any other [Exception] subclass *)
| KBaseException (name : string).         (* [BaseException] only: cancellation,
                                             interpreter exit *)

(** An exception instance; [exn_msg] is what [str(e)] returns. *)
Record PyExn : Type := mkExn { exn_class : ExnClass; exn_msg : string }.

Definition is_TypeError (e : PyExn) : bool :=
  match exn_class e with KTypeError => true | _ => false end.

(** [isinstance(e, Exception)]. *)
Definition is_Exception (e : PyExn) : bool :=
  match exn_class e with KBaseException _ => false | _ => true end.

Inductive Result (A : Type) : Type :=
| Ok (a : A)
| Raise (e : PyExn).
Arguments Ok {A} a.
Arguments Raise {A} e.

(** ** Channels *)

(** Modelled from the spec: the message unit of [pybridge/channel.py], which
    is not among the sources; a frame is [data], [error] or [close]. *)
Inductive Frame : Type :=
| FData (payload : PyValue)
| FError (message : string)
| FClose.

(** Modelled from the spec: the channel state of [pybridge/channel.py]. *)
Inductive ChannelState : Type := Open | Closed.

(** Modelled from the spec: the [Channel] object of [pybridge/channel.py],
    an identifier, a FIFO of frames and a state. *)
Record Channel : Type := mkChannel {
  chan_id : string;
  chan_queue : list Frame;
  chan_state : ChannelState
}.

(** What a producer does with its send capability. *)
Inductive ChanOp : Type :=
| OpSend (data : PyValue)
| OpSendError (message : string)
| OpClose.

(** ** Functions and commands *)

(** How a call of a function body ends. *)
Inductive Outcome : Type :=
| Returns (v : PyValue)
| Raises (e : PyExn).

(** A run of a function body: the operations it performed on the channel it
    was given, if any, and how it ended. *)
Record Run : Type := mkRun { run_ops : list ChanOp; run_end : Outcome }.

(** One parameter of a signature. *)
Record Param : Type := mkParam { param_name : string; has_default : bool }.

(** A Python function object: what [inspect.signature], [get_type_hints],
    [__name__], [__module__], [__doc__] and
    [asyncio.iscoroutinefunction] report about it, and its body.
    [get_type_hints] is called twice, and resolves the annotations against
    the names bound at the time of the call: [fn_hints] is what it gives
    the [command] decorator, [fn_hints_generate] what it gives
    [_generate_command_function] when the client is written; each is [None]
    when the call raises. *)
Record Function : Type := mkFunction {
  fn_name : string;
  fn_module : string;
  fn_doc : option string;
  fn_signature : list Param;
  fn_hints : option (PyDict.t TypeHint);
  fn_hints_generate : option (PyDict.t TypeHint);
  fn_coroutine : bool;
  fn_body : PyDict.t PyValue -> Run
}.

(** [registry.CommandInfo]. *)
Record CommandInfo : Type := mkCommandInfo {
  name : string;
  func : Function;
  params : PyDict.t TypeHint;
  return_type : TypeHint;
  is_async : bool;
  docstring : option string;
  module : string;
  has_channel : bool
}.

(** ** [registry.CommandRegistry] *)

Record CommandRegistry : Type := mkRegistry {
  _commands : PyDict.t CommandInfo;
  _models : PyDict.t ClassId
}.

Definition empty_registry : CommandRegistry :=
  {| _commands := []; _models := [] |}.

Definition name_conflict_message (cmd_name existing_module new_module : string)
  : string :=
  "Command name conflict: '" +:+ cmd_name +:+ "' is defined in both "
  +:+ "'" +:+ existing_module +:+ "' and '" +:+ new_module +:+ "'. "
  +:+ "Command names must be unique across all modules.".

(** [CommandRegistry.register]: the registry after the call, and whether the
    call returned or raised. *)
Definition register (cmd : CommandInfo) (self : CommandRegistry)
  : CommandRegistry * Result unit :=
  match PyDict.get (name cmd) (_commands self) with
  | Some existing =>
      (self,
       Raise (mkExn KValueError
                (name_conflict_message (name cmd) (module existing) (module cmd))))
  | None =>
      ({| _commands := PyDict.set (name cmd) cmd (_commands self);
          _models := _models self |},
       Ok tt)
  end.

Section WithHeap.
Variable heap : Heap.

(** [CommandRegistry.register_model]. *)
Definition register_model (model : ClassId) (self : CommandRegistry)
  : CommandRegistry :=
  match heap !! model with
  | Some cls =>
      if PyDict.mem (cls_name cls) (_models self) then self
      else {| _commands := _commands self;
              _models := PyDict.set (cls_name cls) model (_models self) |}
  | None => self
  end.

Definition get_command (cmd_name : string) (self : CommandRegistry)
  : option CommandInfo :=
  PyDict.get cmd_name (_commands self).

Definition get_all_commands (self : CommandRegistry) : PyDict.t CommandInfo :=
  _commands self.

Definition get_all_models (self : CommandRegistry) : PyDict.t ClassId :=
  _models self.

(** [for x in xs: s = f(x, s)], where a step may run out of fuel. *)
Fixpoint for_each {A S : Type} (f : A -> S -> option S) (xs : list A) (s : S)
  : option S :=
  match xs with
  | [] => Some s
  | x :: xs' =>
      match f x s with
      | Some s' => for_each f xs' s'
      | None => None
      end
  end.

(** [__args__] of a hint that has an [__origin__]. *)
Definition origin_args (type_hint : TypeHint) : option (list TypeHint) :=
  match type_hint with
  | TUnion args | TList args | TDict args | TTuple args | TSet args
  | TGeneric _ args => Some args
  | _ => None
  end.

(** [typing.get_args]. *)
Definition get_args (type_hint : TypeHint) : list TypeHint :=
  match origin_args type_hint with Some args => args | None => [] end.

Definition set_models (models : PyDict.t ClassId) (self : CommandRegistry)
  : CommandRegistry :=
  {| _commands := _commands self; _models := models |}.

(** [CommandRegistry.collect_models_from_type].  [fuel] bounds the depth of
    the recursion; [None] means the bound was too small. *)
Fixpoint collect_models_from_type (fuel : nat) (type_hint : TypeHint)
  (self : CommandRegistry) : option CommandRegistry :=
  match fuel with
  | O => None
  | S fuel' =>
      match type_hint with
      | TNone => Some self
      | TModel c =>
          match heap !! c with
          | Some cls =>
              if PyDict.mem (cls_name cls) (_models self) then Some self
              else
                for_each
                  (fun field_info =>
                     collect_models_from_type fuel' (annotation field_info))
                  (PyDict.values (model_fields cls))
                  (set_models (PyDict.set (cls_name cls) c (_models self)) self)
          | None => Some self
          end
      | _ =>
          match origin_args type_hint with
          | Some args => for_each (collect_models_from_type fuel') args self
          | None => Some self
          end
      end
  end.

(** State of the parameter loop of the [command] decorator. *)
Record DecoratorState : Type := mkDecoratorState {
  ds_params : PyDict.t TypeHint;
  ds_has_channel : bool;
  ds_registry : CommandRegistry
}.

Definition truthy_hint (h : option TypeHint) : bool :=
  match h with
  | Some TNone | None => false
  | Some _ => true
  end.

(** One iteration of [for param_name, param in sig.parameters.items()]. *)
Definition command_param (fuel : nat) (hints : PyDict.t TypeHint)
  (p : Param) (st : DecoratorState) : option DecoratorState :=
  if String.eqb (param_name p) "channel" then
    let channel_type := PyDict.get "channel" hints in
    let collected :=
      if truthy_hint channel_type then
        match get_args (default TNone channel_type) with
        | arg0 :: _ => collect_models_from_type fuel arg0 (ds_registry st)
        | [] => Some (ds_registry st)
        end
      else Some (ds_registry st) in
    match collected with
    | Some reg => Some (mkDecoratorState (ds_params st) true reg)
    | None => None
    end
  else
    let param_type := default TAny (PyDict.get (param_name p) hints) in
    match collect_models_from_type fuel param_type (ds_registry st) with
    | Some reg =>
        Some (mkDecoratorState
                (PyDict.set (param_name p) param_type (ds_params st))
                (ds_has_channel st) reg)
    | None => None
    end.

(** The [command] decorator applied to [fn], with the optional [name]
    keyword: the registry after it ran, and whether it returned or raised. *)
Definition command (fuel : nat) (fn : Function) (custom_name : option string)
  (self : CommandRegistry) : option (CommandRegistry * Result unit) :=
  let cmd_name :=
    if PyStr.truthy custom_name then default EmptyString custom_name
    else fn_name fn in
  let hints := default [] (fn_hints fn) in
  match for_each (command_param fuel hints) (fn_signature fn)
          (mkDecoratorState [] false self) with
  | None => None
  | Some st =>
      let return_type := default TNone (PyDict.get "return" hints) in
      match collect_models_from_type fuel return_type (ds_registry st) with
      | None => None
      | Some reg =>
          let cmd_info :=
            {| name := cmd_name;
               func := fn;
               params := ds_params st;
               return_type := return_type;
               is_async := fn_coroutine fn;
               docstring := fn_doc fn;
               module := fn_module fn;
               has_channel := ds_has_channel st |} in
          Some (register cmd_info reg)
      end
  end.

End WithHeap.

(** ** [generator.py] *)

(** [sorted(xs, key=key)]: a stable sort on strings in code-point order. *)
Fixpoint insert_sorted {A : Type} (key : A -> string) (x : A) (l : list A)
  : list A :=
  match l with
  | [] => [x]
  | y :: l' =>
      if String.leb (key x) (key y) then x :: y :: l'
      else y :: insert_sorted key x l'
  end.

Definition sorted {A : Type} (key : A -> string) (l : list A) : list A :=
  foldr (insert_sorted key) [] l.

Definition python_name_to_camel_case (s : string) : string :=
  match PyStr.split "_" s with
  | [] => EmptyString
  | c0 :: rest => c0 +:+ PyStr.join EmptyString (map PyStr.title rest)
  end.

Definition python_name_to_pascal_case (s : string) : string :=
  PyStr.join EmptyString (map PyStr.title (PyStr.split "_" s)).

Definition is_NoneType (t : TypeHint) : bool :=
  match t with TNoneType => true | _ => false end.

Section Generator.
Variable heap : Heap.

(** [TypeScriptGenerator._type_to_ts]: the TypeScript type, and
    [models_to_generate] after the call. *)
Fixpoint _type_to_ts (type_hint : TypeHint) (models_to_generate : gset string)
  {struct type_hint} : string * gset string :=
  let each :=
    fix each (args : list TypeHint) (m : gset string)
      : list string * gset string :=
      match args with
      | [] => ([], m)
      | a :: args' =>
          let '(s, m1) := _type_to_ts a m in
          let '(ss, m2) := each args' m1 in
          (s :: ss, m2)
      end in
  let first_non_none :=
    fix first_non_none (args : list TypeHint) (m : gset string)
      : string * gset string :=
      match args with
      | [] => ("unknown", m)
      | a :: args' =>
          if is_NoneType a then first_non_none args' m else _type_to_ts a m
      end in
  match type_hint with
  | TNone => ("void", models_to_generate)
  | TStr => ("string", models_to_generate)
  | TInt => ("number", models_to_generate)
  | TFloat => ("number", models_to_generate)
  | TBool => ("boolean", models_to_generate)
  | TBytes => ("string", models_to_generate)
  | TNoneType => ("null", models_to_generate)
  | TAny => ("unknown", models_to_generate)
  | TUnion args =>
      let non_none_args := List.filter (fun a => negb (is_NoneType a)) args in
      if (length non_none_args =? 1)%nat && existsb is_NoneType args then
        let '(inner, m) := first_non_none args models_to_generate in
        (inner +:+ " | null", m)
      else
        let '(ts_types, m) := each args models_to_generate in
        (PyStr.join " | " ts_types, m)
  | TList args =>
      match args with
      | a0 :: _ =>
          let '(inner, m) := _type_to_ts a0 models_to_generate in
          (inner +:+ "[]", m)
      | [] => ("unknown[]", models_to_generate)
      end
  | TDict args =>
      match args with
      | a0 :: a1 :: _ =>
          let '(key_type, m1) := _type_to_ts a0 models_to_generate in
          let '(value_type, m2) := _type_to_ts a1 m1 in
          let key_type :=
            if String.eqb key_type "string" || String.eqb key_type "number"
            then key_type else "string" in
          ("Record<" +:+ key_type +:+ ", " +:+ value_type +:+ ">", m2)
      | _ => ("Record<string, unknown>", models_to_generate)
      end
  | TTuple args =>
      match args with
      | _ :: _ =>
          let '(inner_types, m) := each args models_to_generate in
          ("[" +:+ PyStr.join ", " inner_types +:+ "]", m)
      | [] => ("unknown[]", models_to_generate)
      end
  | TSet args =>
      match args with
      | a0 :: _ =>
          let '(inner, m) := _type_to_ts a0 models_to_generate in
          (inner +:+ "[]", m)
      | [] => ("unknown[]", models_to_generate)
      end
  | TModel c =>
      match heap !! c with
      | Some cls => (cls_name cls, {[cls_name cls]} ∪ models_to_generate)
      | None => ("unknown", models_to_generate)
      end
  | TGeneric _ _ => ("unknown", models_to_generate)
  | TClass _ => ("unknown", models_to_generate)
  | TOther => ("unknown", models_to_generate)
  end.

(** The JSDoc block both generators emit for a docstring. *)
Definition jsdoc (doc : option string) : list string :=
  if PyStr.truthy doc then
    ["/**"]
    ++ map (fun line => " * " +:+ PyStr.strip line)
           (PyStr.split (ascii_of_nat 10) (PyStr.strip (default EmptyString doc)))
    ++ [" */"]
  else [].

Definition is_optional_union (t : TypeHint) : bool :=
  match t with
  | TUnion args => existsb is_NoneType args
  | _ => false
  end.

(** One iteration of the field loop of [_generate_model_interface]. *)
Definition interface_field (field : string * FieldInfo)
  (st : list string * gset string) : list string * gset string :=
  let '(field_name, field_info) := field in
  let '(lines, models_to_generate) := st in
  let ts_name := python_name_to_camel_case field_name in
  let '(ts_type, m) := _type_to_ts (annotation field_info) models_to_generate in
  let is_optional :=
    negb (is_required field_info) || is_optional_union (annotation field_info) in
  let optional_mark := if is_optional then "?" else EmptyString in
  let lines :=
    if PyStr.truthy (description field_info)
    then lines ++ ["    /** " +:+ default EmptyString (description field_info) +:+ " */"]
    else lines in
  (lines ++ ["    " +:+ ts_name +:+ optional_mark +:+ ": " +:+ ts_type +:+ ";"], m).

(** [TypeScriptGenerator._generate_model_interface]. *)
Definition _generate_model_interface (model : ModelClass)
  (models_to_generate : gset string) : string * gset string :=
  let lines := jsdoc (cls_doc model) in
  let lines := lines ++ ["export interface " +:+ cls_name model +:+ " {"] in
  let '(lines, m) :=
    fold_left (fun st field => interface_field field st)
      (model_fields model) (lines, models_to_generate) in
  (PyStr.join PyStr.nl (lines ++ ["}"]), m).

End Generator.

(** [TypeScriptGenerator._generate_internal_module]: the fixed text of
    [_internal.ts]. *)
Definition _generate_internal_module : string :=
  "// Internal bridge utilities - do not modify
let _baseUrl: string | null = null;

export interface BridgeError {
    code: string;
    message: string;
    details?: unknown;
}

export class BridgeRequestError extends Error {
    code: string;
    details?: unknown;

    constructor(error: BridgeError) {
        super(error.message);
        this.name = "
  +:+ PyStr.dq +:+ "BridgeRequestError"
  +:+ PyStr.dq +:+ ";
        this.code = error.code;
        this.details = error.details;
    }
}

export interface BridgeChannel<T> {
    subscribe(callback: (data: T) => void): void;
    onError(callback: (error: BridgeError) => void): void;
    onClose(callback: () => void): void;
    close(): void;
}

export function initBridge(baseUrl: string): void {
    _baseUrl = baseUrl.replace(/\/$/, "
  +:+ PyStr.dq +:+ EmptyString
  +:+ PyStr.dq +:+ ");
    console.log(`[PyBridge] Initialized with base URL: ${_baseUrl}`);
}

export function getBaseUrl(): string {
    if (!_baseUrl) {
        throw new Error(
            "
  +:+ PyStr.dq +:+ "[PyBridge] Bridge not initialized. Call initBridge(url) first."
  +:+ PyStr.dq +:+ "
        );
    }
    return _baseUrl;
}

function convertKeysToSnakeCase(obj: unknown): unknown {
    if (obj === null || obj === undefined) return obj;
    if (Array.isArray(obj)) return obj.map(convertKeysToSnakeCase);
    if (typeof obj === "
  +:+ PyStr.dq +:+ "object"
  +:+ PyStr.dq +:+ ") {
        const result: Record<string, unknown> = {};
        for (const [key, value] of Object.entries(obj as Record<string, unknown>)) {
            const snakeKey = key.replace(/[A-Z]/g, (m) => `_${m.toLowerCase()}`);
            result[snakeKey] = convertKeysToSnakeCase(value);
        }
        return result;
    }
    return obj;
}

function convertKeysToCamelCase(obj: unknown): unknown {
    if (obj === null || obj === undefined) return obj;
    if (Array.isArray(obj)) return obj.map(convertKeysToCamelCase);
    if (typeof obj === "
  +:+ PyStr.dq +:+ "object"
  +:+ PyStr.dq +:+ ") {
        const result: Record<string, unknown> = {};
        for (const [key, value] of Object.entries(obj as Record<string, unknown>)) {
            const camelKey = key.replace(/_([a-z])/g, (_, c) => c.toUpperCase());
            result[camelKey] = convertKeysToCamelCase(value);
        }
        return result;
    }
    return obj;
}

export async function request<T>(command: string, args: unknown): Promise<T> {
    const baseUrl = getBaseUrl();
    const url = `${baseUrl}/command/${command}`;

    const response = await fetch(url, {
        method: "
  +:+ PyStr.dq +:+ "POST"
  +:+ PyStr.dq +:+ ",
        headers: {
            "
  +:+ PyStr.dq +:+ "Content-Type"
  +:+ PyStr.dq +:+ ": "
  +:+ PyStr.dq +:+ "application/json"
  +:+ PyStr.dq +:+ ",
        },
        body: JSON.stringify(convertKeysToSnakeCase(args)),
    });

    const data = await response.json();

    if (!response.ok) {
        throw new BridgeRequestError({
            code: data.code || "
  +:+ PyStr.dq +:+ "UNKNOWN_ERROR"
  +:+ PyStr.dq +:+ ",
            message: data.message || "
  +:+ PyStr.dq +:+ "An unknown error occurred"
  +:+ PyStr.dq +:+ ",
            details: data.details,
        });
    }

    return convertKeysToCamelCase(data.result) as T;
}

export function createChannel<T>(command: string, args: unknown): BridgeChannel<T> {
    const baseUrl = getBaseUrl();
    const url = `${baseUrl}/channel/${command}`;

    let eventSource: EventSource | null = null;
    let messageCallback: ((data: T) => void) | null = null;
    let errorCallback: ((error: BridgeError) => void) | null = null;
    let closeCallback: (() => void) | null = null;

    // Start the SSE connection
    const startConnection = async () => {
        // First, initiate the channel via POST
        const initResponse = await fetch(url, {
            method: "
  +:+ PyStr.dq +:+ "POST"
  +:+ PyStr.dq +:+ ",
            headers: {
                "
  +:+ PyStr.dq +:+ "Content-Type"
  +:+ PyStr.dq +:+ ": "
  +:+ PyStr.dq +:+ "application/json"
  +:+ PyStr.dq +:+ ",
            },
            body: JSON.stringify(convertKeysToSnakeCase(args)),
        });

        if (!initResponse.ok) {
            const data = await initResponse.json();
            if (errorCallback) {
                errorCallback({
                    code: data.code || "
  +:+ PyStr.dq +:+ "CHANNEL_INIT_ERROR"
  +:+ PyStr.dq +:+ ",
                    message: data.message || "
  +:+ PyStr.dq +:+ "Failed to initialize channel"
  +:+ PyStr.dq +:+ ",
                    details: data.details,
                });
            }
            return;
        }

        const { channelId } = await initResponse.json();

        // Now connect to SSE endpoint
        eventSource = new EventSource(`${baseUrl}/channel/stream/${channelId}`);

        eventSource.addEventListener("
  +:+ PyStr.dq +:+ "message"
  +:+ PyStr.dq +:+ ", (event) => {
            if (messageCallback) {
                const data = JSON.parse(event.data);
                messageCallback(convertKeysToCamelCase(data) as T);
            }
        });

        eventSource.addEventListener("
  +:+ PyStr.dq +:+ "error"
  +:+ PyStr.dq +:+ ", (event) => {
            if (errorCallback) {
                errorCallback({
                    code: "
  +:+ PyStr.dq +:+ "CHANNEL_ERROR"
  +:+ PyStr.dq +:+ ",
                    message: "
  +:+ PyStr.dq +:+ "Channel connection error"
  +:+ PyStr.dq +:+ ",
                });
            }
        });

        eventSource.addEventListener("
  +:+ PyStr.dq +:+ "close"
  +:+ PyStr.dq +:+ ", () => {
            if (closeCallback) {
                closeCallback();
            }
            eventSource?.close();
        });
    };

    // Start connection immediately
    startConnection();

    return {
        subscribe(callback: (data: T) => void): void {
            messageCallback = callback;
        },
        onError(callback: (error: BridgeError) => void): void {
            errorCallback = callback;
        },
        onClose(callback: () => void): void {
            closeCallback = callback;
        },
        close(): void {
            eventSource?.close();
            if (closeCallback) {
                closeCallback();
            }
        },
    };
}
".

Section Generate.
Variable heap : Heap.

(** One iteration of the parameter loop of [_generate_command_function]. *)
Definition param_field (param : string * TypeHint)
  (st : list string * gset string) : list string * gset string :=
  let '(param_name, param_type) := param in
  let '(param_fields, models_to_generate) := st in
  let ts_param_name := python_name_to_camel_case param_name in
  let '(ts_type, m) := _type_to_ts heap param_type models_to_generate in
  (param_fields ++ [ts_param_name +:+ ": " +:+ ts_type], m).

(** The [params_type] of [_generate_command_function]. *)
Definition params_type_of (cmd : CommandInfo) (models_to_generate : gset string)
  : string * gset string :=
  match params cmd with
  | [] => ("void", models_to_generate)
  | _ :: _ =>
      let '(param_fields, m) :=
        fold_left (fun st param => param_field param st)
          (params cmd) ([], models_to_generate) in
      ("{ " +:+ PyStr.join "; " param_fields +:+ " }", m)
  end.

(** The [return_type] of [_generate_command_function]: for a channel command
    the payload type of [Channel[T]], read from the hints [get_type_hints]
    gives for [cmd.func] at that time. *)
Definition return_type_of (cmd : CommandInfo) (models_to_generate : gset string)
  : string * gset string :=
  if has_channel cmd then
    let hints := default [] (fn_hints_generate (func cmd)) in
    let channel_hint := PyDict.get "channel" hints in
    if truthy_hint channel_hint then
      match get_args (default TNone channel_hint) with
      | arg0 :: _ => _type_to_ts heap arg0 models_to_generate
      | [] => ("unknown", models_to_generate)
      end
    else ("unknown", models_to_generate)
  else
    let '(return_type, m) :=
      _type_to_ts heap (return_type cmd) models_to_generate in
    if String.eqb return_type "void" || String.eqb return_type "null"
    then ("void", m) else (return_type, m).

(** The lines of the stub itself, after the JSDoc block. *)
Definition stub_lines (cmd : CommandInfo) (fn_name params_type return_type : string)
  : list string :=
  let has_params := match params cmd with [] => false | _ :: _ => true end in
  if has_channel cmd then
    (if has_params then
       ["export function " +:+ fn_name +:+ "(args: " +:+ params_type +:+ "): "
          +:+ "BridgeChannel<" +:+ return_type +:+ "> {";
        "    return createChannel(" +:+ PyStr.dq +:+ name cmd +:+ PyStr.dq
          +:+ ", args);"]
     else
       ["export function " +:+ fn_name +:+ "(): BridgeChannel<" +:+ return_type
          +:+ "> {";
        "    return createChannel(" +:+ PyStr.dq +:+ name cmd +:+ PyStr.dq
          +:+ ", {});"])
    ++ ["}"]
  else
    (if has_params then
       ["export async function " +:+ fn_name +:+ "(args: " +:+ params_type
          +:+ "): " +:+ "Promise<" +:+ return_type +:+ "> {";
        "    return request(" +:+ PyStr.dq +:+ name cmd +:+ PyStr.dq
          +:+ ", args);"]
     else
       ["export async function " +:+ fn_name +:+ "(): Promise<" +:+ return_type
          +:+ "> {";
        "    return request(" +:+ PyStr.dq +:+ name cmd +:+ PyStr.dq
          +:+ ", {});"])
    ++ ["}"].

(** [TypeScriptGenerator._generate_command_function]. *)
Definition _generate_command_function (cmd : CommandInfo)
  (models_to_generate : gset string) : string * gset string :=
  let fn_name := python_name_to_camel_case (name cmd) in
  let '(params_type, m1) := params_type_of cmd models_to_generate in
  let '(return_type, m2) := return_type_of cmd m1 in
  let lines := jsdoc (docstring cmd) in
  (PyStr.join PyStr.nl (lines ++ stub_lines cmd fn_name params_type return_type),
   m2).

End Generate.

Definition header (now : string) : string :=
  "/* Auto-generated by PyBridge - DO NOT EDIT */
/* Generated: " +:+ now +:+ " */

import { initBridge, request, createChannel, BridgeRequestError } from "
  +:+ PyStr.dq +:+ "./_internal" +:+ PyStr.dq +:+ ";
import type { BridgeChannel, BridgeError } from "
  +:+ PyStr.dq +:+ "./_internal" +:+ PyStr.dq +:+ ";

// Re-export initialization and error types
export { initBridge, BridgeRequestError };
export type { BridgeChannel, BridgeError };
".

(** The three accumulators of the interface loop of [generate]. *)
Record GenState : Type := mkGenState {
  models_to_generate : gset string;
  generated_models : gset string;
  model_interfaces : list string
}.

(** The two files [generate] writes. *)
Record GeneratedFiles : Type := mkFiles {
  internal_ts : string;
  client_ts : string
}.

Section GenerateFile.
Variable heap : Heap.

(** Body of [for model_name in sorted(current_batch)]. *)
Definition interface_step (models : PyDict.t ClassId) (model_name : string)
  (st : GenState) : GenState :=
  match PyDict.get model_name models ≫= (heap !!.) with
  | Some model =>
      let '(interface_code, m) :=
        _generate_model_interface heap model (models_to_generate st) in
      {| models_to_generate := m;
         generated_models := {[model_name]} ∪ generated_models st;
         model_interfaces := model_interfaces st ++ [interface_code] |}
  | None =>
      {| models_to_generate := models_to_generate st;
         generated_models := {[model_name]} ∪ generated_models st;
         model_interfaces := model_interfaces st |}
  end.

(** [while models_to_generate - generated_models: ...]; [fuel] bounds the
    number of iterations. *)
Fixpoint generate_interfaces (fuel : nat) (models : PyDict.t ClassId)
  (st : GenState) : option GenState :=
  match fuel with
  | O => None
  | S fuel' =>
      let current_batch := models_to_generate st ∖ generated_models st in
      if decide (current_batch = ∅) then Some st
      else
        generate_interfaces fuel' models
          (fold_left (fun st model_name => interface_step models model_name st)
             (sorted id (elements current_batch)) st)
  end.

(** The loop over [sorted(commands.values(), key=lambda c: c.name)]. *)
Definition generate_command_functions (commands : PyDict.t CommandInfo)
  : list string * gset string :=
  fold_left
    (fun '(command_functions, m) cmd =>
       let '(fn_code, m') := _generate_command_function heap cmd m in
       (command_functions ++ [fn_code], m'))
    (sorted name (PyDict.values commands)) ([], ∅).

Definition nonempty {A : Type} (l : list A) : bool :=
  match l with [] => false | _ :: _ => true end.

(** The sections of the client file after the header. *)
Definition body_sections (model_interfaces command_functions : list string)
  : list string :=
  (if nonempty model_interfaces then
     ["// ============ Interfaces ============" +:+ PyStr.nl;
      PyStr.join (PyStr.nl +:+ PyStr.nl) model_interfaces;
      EmptyString]
   else [])
  ++
  (if nonempty command_functions then
     [PyStr.nl +:+ "// ============ Commands ============" +:+ PyStr.nl;
      PyStr.join (PyStr.nl +:+ PyStr.nl) command_functions]
   else []).

(** [TypeScriptGenerator.generate], with [now] the text of
    [datetime.now().isoformat()] at the call: the contents written to
    [_internal.ts] and to [output_path]. *)
Definition generate (fuel : nat) (now : string) (registry : CommandRegistry)
  : option GeneratedFiles :=
  let commands := get_all_commands registry in
  let models := get_all_models registry in
  let '(command_functions, m) := generate_command_functions commands in
  let m := fold_left (fun m model_name => {[model_name]} ∪ m)
             (PyDict.keys models) m in
  match generate_interfaces fuel models
          {| models_to_generate := m; generated_models := ∅;
             model_interfaces := [] |} with
  | None => None
  | Some st =>
      let sections :=
        header now :: body_sections (model_interfaces st) command_functions in
      Some {| internal_ts := _generate_internal_module;
              client_ts := PyStr.join PyStr.nl sections |}
  end.

End GenerateFile.

(** ** Channel operations *)

(** Modelled from the spec: [channel_manager.create] of
    [pybridge/channel.py], a fresh open channel with an empty queue. *)
Definition new_channel (id : string) : Channel :=
  {| chan_id := id; chan_queue := []; chan_state := Open |}.

(** Modelled from the spec: [Channel.send] of [pybridge/channel.py]; after a
    terminal frame it does nothing. *)
Definition send (data : PyValue) (ch : Channel) : Channel :=
  match chan_state ch with
  | Open => {| chan_id := chan_id ch;
               chan_queue := chan_queue ch ++ [FData data];
               chan_state := Open |}
  | Closed => ch
  end.

(** Modelled from the spec: [Channel.send_error] of [pybridge/channel.py];
    enqueues the terminal [error] frame once. *)
Definition send_error (message : string) (ch : Channel) : Channel :=
  match chan_state ch with
  | Open => {| chan_id := chan_id ch;
               chan_queue := chan_queue ch ++ [FError message];
               chan_state := Closed |}
  | Closed => ch
  end.

(** Modelled from the spec: [Channel.close] of [pybridge/channel.py];
    enqueues the terminal [close] frame once. *)
Definition close (ch : Channel) : Channel :=
  match chan_state ch with
  | Open => {| chan_id := chan_id ch;
               chan_queue := chan_queue ch ++ [FClose];
               chan_state := Closed |}
  | Closed => ch
  end.

(** Modelled from the spec: iteration over a channel of
    [pybridge/channel.py] hands out the queued frames first in, first out. *)
Definition messages (ch : Channel) : list Frame := chan_queue ch.

Definition apply_op (ch : Channel) (op : ChanOp) : Channel :=
  match op with
  | OpSend data => send data ch
  | OpSendError message => send_error message ch
  | OpClose => close ch
  end.

Definition apply_ops (ops : list ChanOp) (ch : Channel) : Channel :=
  fold_left apply_op ops ch.

(** ** [bridge.py] *)

(** One element of the list the [/commands] endpoint returns. *)
Record CommandEntry : Type := mkEntry {
  entry_name : string;
  entry_module : string;
  entry_has_channel : bool;
  entry_params : list string
}.

(** The [list_commands] endpoint. *)
Definition list_commands (registry : CommandRegistry) : list CommandEntry :=
  map (fun cmd =>
         {| entry_name := name cmd;
            entry_module := module cmd;
            entry_has_channel := has_channel cmd;
            entry_params := PyDict.keys (params cmd) |})
      (PyDict.values (get_all_commands registry)).

(** [BaseModel.model_dump]: nested models become dictionaries. *)
Fixpoint model_dump (v : PyValue) : PyValue :=
  match v with
  | VList items => VList (map model_dump items)
  | VDict entries => VDict (map (fun kv => (fst kv, model_dump (snd kv))) entries)
  | VModel _ fields => VDict (map (fun kv => (fst kv, model_dump (snd kv))) fields)
  | _ => v
  end.

(** The result normalisation at the end of [_execute_command]. *)
Definition serialize_result (result : PyValue) : PyValue :=
  match result with
  | VModel _ _ => model_dump result
  | VList items =>
      VList (map (fun item =>
                    match item with
                    | VModel _ _ => model_dump item
                    | _ => item
                    end) items)
  | _ => result
  end.

(** [for param_name in cmd.params: if param_name in args: ...]. *)
Definition build_kwargs (cmd : CommandInfo) (args : PyDict.t PyValue)
  : PyDict.t PyValue :=
  fold_left
    (fun kwargs param_name =>
       match PyDict.get param_name args with
       | Some v => PyDict.set param_name v kwargs
       | None => kwargs
       end)
    (PyDict.keys (params cmd)) [].

Definition is_terminal (f : Frame) : bool :=
  match f with FData _ => false | FError _ | FClose => true end.

Section Runtime.
(** Texts the interpreter puts in its own [TypeError]s: for a call whose
    keyword names do not fit the signature, and for [await] applied to a
    value that is not awaitable. *)
Variable binding_error : Function -> list string -> string.
Variable not_awaitable : PyValue -> string.
(** [ChannelMessage.to_sse] of [pybridge/channel.py]. *)
Variable to_sse : Frame -> string.

Definition in_signature (fn : Function) (k : string) : bool :=
  existsb (fun p => String.eqb k (param_name p)) (fn_signature fn).

(** Whether keyword names fit a signature: every name is a parameter and
    every parameter without default is named. *)
Definition binds (fn : Function) (keys : list string) : bool :=
  forallb (in_signature fn) keys
  && forallb (fun p => has_default p
                       || existsb (String.eqb (param_name p)) keys)
       (fn_signature fn).

(** The call of [fn] with the keyword arguments [kwargs], the channel being
    passed as the keyword [channel] when [with_channel] holds. *)
Definition call (fn : Function) (with_channel : bool)
  (kwargs : PyDict.t PyValue) : Run :=
  let keys := (if with_channel then ["channel"] else []) ++ PyDict.keys kwargs in
  if binds fn keys then fn_body fn kwargs
  else {| run_ops := [];
          run_end := Raises (mkExn KTypeError (binding_error fn keys)) |}.

(** [await] applied to that call: what a plain function returns is not
    awaitable. *)
Definition await_call (fn : Function) (with_channel : bool)
  (kwargs : PyDict.t PyValue) : Run :=
  let r := call fn with_channel kwargs in
  if fn_coroutine fn then r
  else
    match run_end r with
    | Returns v =>
        {| run_ops := run_ops r;
           run_end := Raises (mkExn KTypeError (not_awaitable v)) |}
    | Raises _ => r
    end.

(** [Bridge._execute_command]. *)
Definition _execute_command (cmd : CommandInfo) (args : PyDict.t PyValue)
  : Result PyValue :=
  let kwargs := build_kwargs cmd args in
  match run_end (await_call (func cmd) false kwargs) with
  | Returns result => Ok (serialize_result result)
  | Raises e =>
      if is_TypeError e then
        Raise (mkExn KValidationError ("Invalid arguments: " +:+ exn_msg e))
      else if is_Exception e then
        Raise (mkExn KCommandExecutionError (exn_msg e))
      else Raise e
  end.

(** [Bridge._execute_channel_command]: the channel afterwards, and whether
    the coroutine returned or raised. *)
Definition _execute_channel_command (cmd : CommandInfo)
  (args : PyDict.t PyValue) (channel : Channel) : Channel * Result unit :=
  let kwargs := build_kwargs cmd args in
  let r := await_call (func cmd) true kwargs in
  let channel := apply_ops (run_ops r) channel in
  match run_end r with
  | Returns _ => (close channel, Ok tt)
  | Raises e =>
      if is_Exception e then (send_error (exn_msg e) channel, Ok tt)
      else (channel, Raise e)
  end.


(** The frames behind the events [event_generator] yields. *)
Fixpoint delivered (msgs : list Frame) : list Frame :=
  match msgs with
  | [] => []
  | message :: rest =>
      message :: (if is_terminal message then [] else delivered rest)
  end.

End Runtime.

(** ** Induction over hints

    The arguments of a hint are hints again; the induction hypothesis covers
    every argument. *)

Section TypeHintInduction.
Variable P : TypeHint -> Prop.
Hypothesis HNone : P TNone.
Hypothesis HNoneType : P TNoneType.
Hypothesis HStr : P TStr.
Hypothesis HInt : P TInt.
Hypothesis HFloat : P TFloat.
Hypothesis HBool : P TBool.
Hypothesis HBytes : P TBytes.
Hypothesis HAny : P TAny.
Hypothesis HUnion : forall args, Forall P args -> P (TUnion args).
Hypothesis HList : forall args, Forall P args -> P (TList args).
Hypothesis HDict : forall args, Forall P args -> P (TDict args).
Hypothesis HTuple : forall args, Forall P args -> P (TTuple args).
Hypothesis HSet : forall args, Forall P args -> P (TSet args).
Hypothesis HGeneric : forall o args, Forall P args -> P (TGeneric o args).
Hypothesis HModel : forall c, P (TModel c).
Hypothesis HClass : forall n, P (TClass n).
Hypothesis HOther : P TOther.

Fixpoint TypeHint_nested_ind (t : TypeHint) : P t :=
  let all :=
    fix all (l : list TypeHint) : Forall P l :=
      match l with
      | [] => List.Forall_nil P
      | a :: l' => List.Forall_cons P a l' (TypeHint_nested_ind a) (all l')
      end in
  match t with
  | TNone => HNone
  | TNoneType => HNoneType
  | TStr => HStr
  | TInt => HInt
  | TFloat => HFloat
  | TBool => HBool
  | TBytes => HBytes
  | TAny => HAny
  | TUnion args => HUnion args (all args)
  | TList args => HList args (all args)
  | TDict args => HDict args (all args)
  | TTuple args => HTuple args (all args)
  | TSet args => HSet args (all args)
  | TGeneric o args => HGeneric o args (all args)
  | TModel c => HModel c
  | TClass n => HClass n
  | TOther => HOther
  end.

End TypeHintInduction.

(** ** Notions used to state the properties *)

(** Order of two items by the code-point order of their keys. *)
Definition key_le {A : Type} (key : A -> string) (x y : A) : Prop :=
  PyStr.le (key x) (key y).

Section Loops.
Variable heap : Heap.

(** The loop [[self._type_to_ts(a, models_to_generate) for a in args]]. *)
Fixpoint ts_each (args : list TypeHint) (m : gset string)
  : list string * gset string :=
  match args with
  | [] => ([], m)
  | a :: args' =>
      let '(s, m1) := _type_to_ts heap a m in
      let '(ss, m2) := ts_each args' m1 in
      (s :: ss, m2)
  end.

(** [_type_to_ts] applied to the first argument that is not [NoneType]. *)
Fixpoint ts_first_non_none (args : list TypeHint) (m : gset string)
  : string * gset string :=
  match args with
  | [] => ("unknown", m)
  | a :: args' =>
      if is_NoneType a then ts_first_non_none args' m
      else _type_to_ts heap a m
  end.

End Loops.

(** The TypeScript text of a hint, and the model names it mentions. *)
Definition ts_of (heap : Heap) (t : TypeHint) : string :=
  fst (_type_to_ts heap t ∅).

Definition names_of (heap : Heap) (t : TypeHint) : gset string :=
  snd (_type_to_ts heap t ∅).

Definition non_none (args : list TypeHint) : list TypeHint :=
  List.filter (fun a => negb (is_NoneType a)) args.

(** The generic argument [T] of the [Channel[T]] annotation of the parameter
    [channel], when there is one, as the generator reads it. *)
Definition channel_payload (fn : Function) : option TypeHint :=
  PyDict.get "channel" (default [] (fn_hints_generate fn))
  ≫= (fun t => head (get_args t)).

(** [get_type_hints] gives the generator what it gave the decorator; only
    a function with a [channel] parameter has its hints read again. *)
Definition hints_stable (fn : Function) : Prop :=
  existsb (fun p => String.eqb (param_name p) "channel") (fn_signature fn) = true ->
  fn_hints_generate fn = fn_hints fn.

(** The name the [command] decorator registers a function under. *)
Definition command_name (fn : Function) (custom_name : option string) : string :=
  if PyStr.truthy custom_name then default EmptyString custom_name
  else fn_name fn.

(** A streaming function: [tick(count, channel: Channel[int]) -> None]. *)
Definition tick_function : Function :=
  {| fn_name := "tick"; fn_module := "clock"; fn_doc := None;
     fn_signature := [mkParam "count" false; mkParam "channel" false];
     fn_hints := Some [("count", TInt);
                       ("channel", TGeneric "Channel" [TInt]);
                       ("return", TNoneType)];
     fn_hints_generate := Some [("count", TInt);
                                ("channel", TGeneric "Channel" [TInt]);
                                ("return", TNoneType)];
     fn_coroutine := true;
     fn_body := fun _ =>
       {| run_ops := [OpSend (VInt 1); OpSend (VInt 2)];
          run_end := Returns VNone |} |}.

(** The registry after [@command] was applied to [tick_function]. *)
Definition tick_registry : CommandRegistry :=
  match command [] 5 tick_function None empty_registry with
  | Some (registry, _) => registry
  | None => empty_registry
  end.

(** The model names the fields of a class mention. *)
Definition fields_names (heap : Heap) (fields : PyDict.t FieldInfo)
  : gset string :=
  ⋃ map (fun field => names_of heap (annotation (snd field))) fields.

(** The model names mentioned by the fields of the registered classes. *)
Definition registered_names (heap : Heap) (models : PyDict.t ClassId)
  : gset string :=
  ⋃ map (fun entry =>
           match heap !! snd entry with
           | Some cls => fields_names heap (model_fields cls)
           | None => ∅
           end) models.

(** Nesting depth of a hint. *)
Fixpoint hint_depth (t : TypeHint) : nat :=
  match t with
  | TUnion args | TList args | TDict args | TTuple args | TSet args
  | TGeneric _ args => S (max_list (map hint_depth args))
  | _ => 0
  end.

(** The deepest field annotation of a class, and of any class of the heap. *)
Definition class_depth (cls : ModelClass) : nat :=
  max_list (map (fun field_info => hint_depth (annotation field_info))
              (PyDict.values (model_fields cls))).

Definition heap_depth (heap : Heap) : nat := max_list (map class_depth heap).

(** How many class names of the heap the registry does not hold yet. *)
Definition unvisited (heap : Heap) (self : CommandRegistry) : nat :=
  size ((list_to_set (map cls_name heap) : gset string)
        ∖ list_to_set (PyDict.keys (_models self))).

(** A recursion depth [collect_models_from_type] never exceeds. *)
Definition collect_bound (heap : Heap) (t : TypeHint) (self : CommandRegistry)
  : nat :=
  hint_depth t + unvisited heap self * S (heap_depth heap).

(** [s] is [self] after more models were recorded. *)
Definition extends (self s : CommandRegistry) : Prop :=
  PyDict.keys (_models self) ⊆ PyDict.keys (_models s)
  /\ _commands s = _commands self
  /\ (NoDup (PyDict.keys (_models self)) -> NoDup (PyDict.keys (_models s))).

(** A class that refers to itself: [Node(value: int, next: Optional[Node])]. *)
Definition node_heap : Heap :=
  [mkModel "Node" None
     [("value", mkField TInt true None);
      ("next", mkField (TUnion [TModel 0; TNoneType]) false None)]].



(** A command whose coroutine raises [TypeError] from its body:
    [async def add_one(x): return x + "1"]. *)
Definition add_one_function : Function :=
  {| fn_name := "add_one"; fn_module := "sums"; fn_doc := None;
     fn_signature := [mkParam "x" false];
     fn_hints := Some [("x", TInt); ("return", TInt)];
     fn_hints_generate := Some [("x", TInt); ("return", TInt)];
     fn_coroutine := true;
     fn_body := fun _ =>
       {| run_ops := [];
          run_end :=
            Raises (mkExn KTypeError
                      "unsupported operand type(s) for +: 'int' and 'str'") |} |}.

Definition add_one_command : CommandInfo :=
  {| name := "add_one"; func := add_one_function; params := [("x", TInt)];
     return_type := TInt; is_async := true; docstring := None;
     module := "sums"; has_channel := false |}.

(** A streaming command written as a plain function:
    [def quiet(channel: Channel[int]) -> None: return None]. *)
Definition quiet_function : Function :=
  {| fn_name := "quiet"; fn_module := "streams"; fn_doc := None;
     fn_signature := [mkParam "channel" false];
     fn_hints := Some [("channel", TGeneric "Channel" [TInt]);
                       ("return", TNoneType)];
     fn_hints_generate := Some [("channel", TGeneric "Channel" [TInt]);
                                ("return", TNoneType)];
     fn_coroutine := false;
     fn_body := fun _ => {| run_ops := []; run_end := Returns VNone |} |}.

Definition quiet_command : CommandInfo :=
  {| name := "quiet"; func := quiet_function; params := [];
     return_type := TNoneType; is_async := false; docstring := None;
     module := "streams"; has_channel := true |}.

(** The streaming command [tick_function] as the decorator records it. *)
Definition tick_command : CommandInfo :=
  {| name := "tick"; func := tick_function; params := [("count", TInt)];
     return_type := TNoneType; is_async := true; docstring := None;
     module := "clock"; has_channel := true |}.

(** The entry [list_commands] builds for one command. *)
Definition entry_of (cmd : CommandInfo) : CommandEntry :=
  {| entry_name := name cmd;
     entry_module := module cmd;
     entry_has_channel := has_channel cmd;
     entry_params := PyDict.keys (params cmd) |}.

(** Sample commands of modules [m1] and [m2]. *)
Definition noop_function (fname fmodule : string) : Function :=
  {| fn_name := fname; fn_module := fmodule; fn_doc := None;
     fn_signature := []; fn_hints := Some []; fn_hints_generate := Some [];
     fn_coroutine := true;
     fn_body := fun _ => {| run_ops := []; run_end := Returns VNone |} |}.

Definition noop_command (cname cmodule : string) : CommandInfo :=
  {| name := cname; func := noop_function cname cmodule; params := [];
     return_type := TNone; is_async := true; docstring := None;
     module := cmodule; has_channel := false |}.

(** A command of module [spooky] that returns the class [Ghost], added with
    [register] alone, so that no model is registered. *)
Definition ghost_heap : Heap := [mkModel "Ghost" None [("age", mkField TInt true None)]].

Definition ghost_command : CommandInfo :=
  {| name := "get_ghost"; func := noop_function "get_ghost" "spooky";
     params := []; return_type := TModel 0; is_async := true;
     docstring := None; module := "spooky"; has_channel := false |}.

Definition ghost_registry : CommandRegistry :=
  fst (register ghost_command empty_registry).

(** What [generate] writes for [ghost_registry]. *)
Definition ghost_files (fuel : nat) (now : string) : GeneratedFiles :=
  default {| internal_ts := EmptyString; client_ts := EmptyString |}
    (generate ghost_heap fuel now ghost_registry).

(** The registry after registering [b] and then [a]. *)
Definition registry_b_then_a : CommandRegistry :=
  fst (register (noop_command "a" "m2")
         (fst (register (noop_command "b" "m1") empty_registry))).

(** ** Further operations and notions *)

(** [CommandRegistry.reset]: both dictionaries are cleared. *)
Definition reset (self : CommandRegistry) : CommandRegistry :=
  {| _commands := []; _models := [] |}.

(** The shape [register] and the decorator keep: every command sits under
    its own name, and no key occurs twice in either dictionary. *)
Definition registry_wf (self : CommandRegistry) : Prop :=
  NoDup (PyDict.keys (_commands self))
  /\ Forall (fun entry => name (snd entry) = fst entry) (_commands self)
  /\ NoDup (PyDict.keys (_models self)).

(** The parameters the decorator records for a signature: all but
    [channel], each with its hint or [Any]. *)
Definition declared_params (hints : PyDict.t TypeHint) (sig : list Param)
  : PyDict.t TypeHint :=
  map (fun p => (param_name p, default TAny (PyDict.get (param_name p) hints)))
    (List.filter (fun p => negb (String.eqb (param_name p) "channel")) sig).

(** [get_points(user_id: int, limit=...) -> List[Point]]. *)
Definition points_heap : Heap :=
  [mkModel "Point" None
     [("x", mkField TInt true None); ("y", mkField TInt true None)]].

Definition get_points_function : Function :=
  {| fn_name := "get_points"; fn_module := "geo"; fn_doc := None;
     fn_signature := [mkParam "user_id" false; mkParam "limit" true];
     fn_hints := Some [("user_id", TInt); ("return", TList [TModel 0])];
     fn_hints_generate := Some [("user_id", TInt); ("return", TList [TModel 0])];
     fn_coroutine := true;
     fn_body := fun _ => {| run_ops := []; run_end := Returns (VList []) |} |}.

(** The registry after [@command] was applied to [get_points_function]. *)
Definition points_registry : CommandRegistry :=
  match command points_heap 5 get_points_function None empty_registry with
  | Some (registry, _) => registry
  | None => empty_registry
  end.

(** The names under which models are registered. *)
Definition model_keys (self : CommandRegistry) : gset string :=
  list_to_set (PyDict.keys (_models self)).

(** Every registered class but those named in [pending] has the models of
    its fields registered too. *)
Definition closed_but (heap : Heap) (pending : gset string)
  (self : CommandRegistry) : Prop :=
  forall n c cls,
    n ∉ pending ->
    PyDict.get n (_models self) = Some c ->
    heap !! c = Some cls ->
    fields_names heap (model_fields cls) ⊆ model_keys self.

(** Every entry of the model dictionary is a class of the heap. *)
Definition models_valid (heap : Heap) (self : CommandRegistry) : Prop :=
  forall n c, PyDict.get n (_models self) = Some c -> is_Some (heap !! c).

(** [s] is [self] with more models: the commands and the recorded entries
    are kept, and what was closed and valid stays so. *)
Definition grows (heap : Heap) (self s : CommandRegistry) : Prop :=
  _commands s = _commands self
  /\ (forall k c, PyDict.get k (_models self) = Some c ->
                  PyDict.get k (_models s) = Some c)
  /\ (models_valid heap self -> models_valid heap s)
  /\ (forall pending, closed_but heap pending self -> closed_but heap pending s).

(** The model names the stub of a command mentions. *)
Definition stub_names (heap : Heap) (cmd : CommandInfo) : gset string :=
  snd (_generate_command_function heap cmd ∅).

(** A registry from which [generate] can declare every model it meets:
    well shaped, with the models of every stub and of every registered
    class registered, each a class of the heap. *)
Definition registry_complete (heap : Heap) (self : CommandRegistry) : Prop :=
  registry_wf self
  /\ closed_but heap ∅ self
  /\ models_valid heap self
  /\ (forall k cmd, (k, cmd) ∈ _commands self ->
                    stub_names heap cmd ⊆ model_keys self).

(** What the parameter loop of the decorator has covered so far: the models
    of the recorded parameters, and of the stream payload once [channel]
    was met. *)
Definition params_covered (heap : Heap) (hints : PyDict.t TypeHint)
  (st : DecoratorState) : Prop :=
  (forall k t, (k, t) ∈ ds_params st ->
               names_of heap t ⊆ model_keys (ds_registry st))
  /\ (ds_has_channel st = true ->
      match PyDict.get "channel" hints ≫= (fun t => head (get_args t)) with
      | Some t => names_of heap t
      | None => ∅
      end ⊆ model_keys (ds_registry st)).

(** The worklist [generate] starts its interface loop with. *)
Definition initial_worklist (heap : Heap) (registry : CommandRegistry)
  : gset string :=
  fold_left (fun m model_name => {[model_name]} ∪ m)
    (PyDict.keys (get_all_models registry))
    (snd (generate_command_functions heap (get_all_commands registry))).

(** The state in which the interface loop of [generate] ends. *)
Definition interface_state (heap : Heap) (fuel : nat)
  (registry : CommandRegistry) : option GenState :=
  generate_interfaces heap fuel (get_all_models registry)
    {| models_to_generate := initial_worklist heap registry;
       generated_models := ∅; model_interfaces := [] |}.

(** Whether a name is registered for a class of the heap. *)
Definition declarable (heap : Heap) (models : PyDict.t ClassId)
  (model_name : string) : Prop :=
  is_Some (PyDict.get model_name models ≫= (heap !!.)).

(** The registry after registering [a] and then [b]. *)
Definition registry_a_then_b : CommandRegistry :=
  fst (register (noop_command "b" "m1")
         (fst (register (noop_command "a" "m2") empty_registry))).

(** The characters of a string. *)
Definition chars (s : string) : list ascii := list_ascii_of_string s.

(** A hint as [typing] builds it: a [Union] has variants, and a model class
    has a name. *)
Fixpoint hint_wf (heap : Heap) (t : TypeHint) : Prop :=
  match t with
  | TUnion args => args <> [] /\ Forall id (map (hint_wf heap) args)
  | TList args | TDict args | TTuple args | TSet args | TGeneric _ args =>
      Forall id (map (hint_wf heap) args)
  | TModel c =>
      match heap !! c with
      | Some cls => cls_name cls <> EmptyString
      | None => True
      end
  | _ => True
  end.

(** ** The endpoints of [bridge.py] *)

(** The body of a request: absent, a JSON object, or text that does not
    parse, with the parser's message. *)
Inductive Body : Type :=
| BodyEmpty
| BodyObject (args : PyDict.t PyValue)
| BodyInvalid (error : string).

(** [await request.json() if await request.body() else {}], with the
    [ValidationError] raised when parsing fails. *)
Definition parse_body (body : Body) : Result (PyDict.t PyValue) :=
  match body with
  | BodyEmpty => Ok []
  | BodyObject args => Ok args
  | BodyInvalid error =>
      Raise (mkExn KValidationError ("Invalid JSON body: " +:+ error))
  end.

(** The status [bridge_error_handler] answers a [BridgeError] with. *)
Definition bridge_error_status (exc : PyExn) : nat :=
  match exn_class exc with
  | KException cls =>
      if String.eqb cls "CommandNotFoundError" then 404
      else if String.eqb cls "InternalError" then 500
      else 400
  | _ => 400
  end.

(** The names the [root] endpoint lists under [commands]. *)
Definition root_commands (registry : CommandRegistry) : list string :=
  PyDict.keys (get_all_commands registry).

Section Endpoints.
Variable binding_error : Function -> list string -> string.
Variable not_awaitable : PyValue -> string.
(** The text [CommandNotFoundError] of [pybridge/errors.py] makes of a
    command name. *)
Variable not_found_message : string -> string.

Definition CommandNotFoundError (command_name : string) : PyExn :=
  mkExn (KException "CommandNotFoundError") (not_found_message command_name).

(** The [execute_command] endpoint. *)
Definition execute_command (registry : CommandRegistry) (command_name : string)
  (body : Body) : Result PyValue :=
  match get_command command_name registry with
  | None => Raise (CommandNotFoundError command_name)
  | Some cmd =>
      match parse_body body with
      | Raise e => Raise e
      | Ok args =>
          match _execute_command binding_error not_awaitable cmd args with
          | Ok result => Ok (VDict [("result", result)])
          | Raise e => Raise e
          end
      end
  end.

(** The [init_channel] endpoint, [fresh] being the channel the manager
    creates: the response, and the channel once the task started with
    [asyncio.create_task] has run. *)
Definition init_channel (registry : CommandRegistry) (command_name : string)
  (body : Body) (fresh : Channel) : Result (PyValue * Channel) :=
  match get_command command_name registry with
  | None => Raise (CommandNotFoundError command_name)
  | Some cmd =>
      if negb (has_channel cmd) then
        Raise (mkExn KValidationError
                 ("Command '" +:+ command_name
                  +:+ "' does not support channels"))
      else
        match parse_body body with
        | Raise e => Raise e
        | Ok args =>
            Ok (VDict [("channelId", VStr (chan_id fresh))],
                fst (_execute_channel_command binding_error not_awaitable
                       cmd args fresh))
        end
  end.

End Endpoints.

(** A streaming function whose [channel] parameter is required, and its
    registry. *)
Definition tick_info : CommandInfo :=
  default tick_command (get_command "tick" tick_registry).

(** ** [websocket.py] *)

(** What [_extract_event_types] reads of an events class: the result of
    [get_type_hints], [None] when it raises, and [__annotations__], [None]
    when the object has no such attribute. *)
Record EventsClass : Type := mkEventsClass {
  ec_hints : option (PyDict.t TypeHint);
  ec_annotations : option (PyDict.t TypeHint)
}.

(** [name.startswith("_")]. *)
Definition startswith_underscore (name : string) : bool :=
  match name with
  | String c _ => Ascii.eqb c "_"
  | EmptyString => false
  end.

(** The loop over [hints.items()]. *)
Definition add_hints (hints event_types : PyDict.t TypeHint)
  : PyDict.t TypeHint :=
  fold_left
    (fun event_types item =>
       if negb (startswith_underscore (fst item))
       then PyDict.set (fst item) (snd item) event_types
       else event_types)
    hints event_types.

(** The loop over [events_class.__annotations__.items()]. *)
Definition add_annotations (annotations event_types : PyDict.t TypeHint)
  : PyDict.t TypeHint :=
  fold_left
    (fun event_types item =>
       if negb (startswith_underscore (fst item))
          && negb (PyDict.mem (fst item) event_types)
       then PyDict.set (fst item) (snd item) event_types
       else event_types)
    annotations event_types.

Definition _extract_event_types (events_class : option EventsClass)
  : PyDict.t TypeHint :=
  match events_class with
  | None => []
  | Some cls =>
      let event_types :=
        match ec_hints cls with
        | Some hints => add_hints hints []
        | None => []
        end in
      match ec_annotations cls with
      | Some annotations => add_annotations annotations event_types
      | None => event_types
      end
  end.

(** An events class with a private attribute, an inherited event that
    only [get_type_hints] reports, and an event both report. *)
Definition chat_events : EventsClass :=
  {| ec_hints := Some [("_secret", TStr); ("status", TStr); ("typing", TBool)];
     ec_annotations := Some [("_secret", TStr); ("typing", TAny);
                             ("joined", TInt)] |}.

(** A recursion depth the [command] decorator never exceeds on [fn]. *)
Definition decorator_bound (heap : Heap) (fn : Function)
  (self : CommandRegistry) : nat :=
  max_list (map hint_depth (PyDict.values (default [] (fn_hints fn))))
  + unvisited heap self * S (heap_depth heap).

(** A streaming function declared before the class of its payload:
    [async def feed(channel: Channel[Item]) -> None], with [class Item]
    further down the module.  [get_type_hints] raises in the decorator and
    resolves [Item] when the client is generated. *)
Definition item_heap : Heap :=
  [mkModel "Item" None [("id", mkField TInt true None)]].

Definition feed_function : Function :=
  {| fn_name := "feed"; fn_module := "feeds"; fn_doc := None;
     fn_signature := [mkParam "channel" false];
     fn_hints := None;
     fn_hints_generate := Some [("channel", TGeneric "Channel" [TModel 0]);
                                ("return", TNoneType)];
     fn_coroutine := true;
     fn_body := fun _ => {| run_ops := []; run_end := Returns VNone |} |}.

(** The registry after [@command] was applied to [feed_function]. *)
Definition feed_registry : CommandRegistry :=
  match command item_heap 5 feed_function None empty_registry with
  | Some (registry, _) => registry
  | None => empty_registry
  end.

(** A registry that holds a command [get_points] of another module. *)
Definition taken_registry : CommandRegistry :=
  {| _commands := [("get_points", noop_command "get_points" "old")];
     _models := [] |}.

(** * Properties *)

(** ** Dictionaries *)

Section DictFacts.
Context {V : Type}.
Implicit Types (d : PyDict.t V) (k : string) (v : V).

Lemma dict_get_None_keys k d : PyDict.get k d = None <-> k ∉ PyDict.keys d.
Proof.
  induction d as [|[k' v'] d IH]; simpl.
  - split; [intros _; apply not_elem_of_nil | done].
  - destruct (String.eqb_spec k k') as [->|Hne].
    + split; [done | intros H; destruct H; left].
    + rewrite IH, not_elem_of_cons. split; [by intros | by intros [_ ?]].
Qed.

Lemma dict_mem_keys k d : PyDict.mem k d = true <-> k ∈ PyDict.keys d.
Proof.
  unfold PyDict.mem. destruct (PyDict.get k d) eqn:E.
  - split; [intros _ | done].
    destruct (decide (k ∈ PyDict.keys d)); [done|].
    apply dict_get_None_keys in n. congruence.
  - split; [done | intros H]. apply dict_get_None_keys in E. done.
Qed.

Lemma dict_set_fresh k v d :
  PyDict.get k d = None -> PyDict.set k v d = d ++ [(k, v)].
Proof.
  induction d as [|[k' v'] d IH]; simpl; [done|].
  destruct (String.eqb_spec k k'); [done|]. intros H. by rewrite IH.
Qed.

Lemma dict_keys_set k v d :
  PyDict.keys (PyDict.set k v d)
  = if PyDict.mem k d then PyDict.keys d else PyDict.keys d ++ [k].
Proof.
  unfold PyDict.mem. induction d as [|[k' v'] d IH]; simpl; [done|].
  destruct (String.eqb_spec k k'); simpl; [done|].
  rewrite IH. by destruct (PyDict.get k d).
Qed.

Lemma dict_get_set_eq k v d : PyDict.get k (PyDict.set k v d) = Some v.
Proof.
  induction d as [|[k' v'] d IH]; simpl.
  - by rewrite String.eqb_refl.
  - destruct (String.eqb_spec k k') as [->|Hne]; simpl.
    + by rewrite String.eqb_refl.
    + by destruct (String.eqb_spec k k').
Qed.

Lemma dict_keys_set_NoDup k v d :
  NoDup (PyDict.keys d) -> NoDup (PyDict.keys (PyDict.set k v d)).
Proof.
  intros Hnd. rewrite dict_keys_set.
  destruct (PyDict.mem k d) eqn:E; [done|].
  apply NoDup_app. split; [done|]. split; [|apply NoDup_singleton].
  intros x Hx Hx'. apply list_elem_of_singleton in Hx' as ->.
  apply dict_mem_keys in Hx. congruence.
Qed.

End DictFacts.

(** ** Sorting *)

Section SortFacts.
Context {A : Type} (key : A -> string).

Lemma insert_sorted_Permutation x l : insert_sorted key x l ≡ₚ x :: l.
Proof.
  induction l as [|y l IH]; simpl; [done|].
  destruct (String.leb (key x) (key y)); [done|].
  rewrite IH. apply Permutation_swap.
Qed.

Lemma sorted_Permutation l : sorted key l ≡ₚ l.
Proof.
  induction l as [|x l IH]; simpl; [done|].
  rewrite insert_sorted_Permutation. by rewrite IH.
Qed.

Lemma insert_sorted_HdRel a x l :
  key_le key a x -> HdRel (key_le key) a l ->
  HdRel (key_le key) a (insert_sorted key x l).
Proof.
  intros Hax Hl. destruct l as [|y l]; simpl; [by constructor|].
  destruct (String.leb (key x) (key y)); constructor; [done|].
  by inversion Hl.
Qed.

Lemma insert_sorted_Sorted x l :
  Sorted (key_le key) l -> Sorted (key_le key) (insert_sorted key x l).
Proof.
  induction 1 as [|y l Hs IH Hhd]; simpl; [by repeat constructor|].
  destruct (String.leb (key x) (key y)) eqn:E.
  - constructor; [by constructor|]. by constructor.
  - constructor; [done|]. apply insert_sorted_HdRel; [|done].
    destruct (PyStr.le_total (key y) (key x)) as [H|H]; [done|].
    unfold key_le, PyStr.le in H. congruence.
Qed.

Lemma sorted_Sorted l : Sorted (key_le key) (sorted key l).
Proof.
  induction l as [|x l IH]; simpl; [constructor|].
  by apply insert_sorted_Sorted.
Qed.

End SortFacts.

(** ** Registration *)

Lemma register_taken cmd existing self :
  PyDict.get (name cmd) (_commands self) = Some existing ->
  register cmd self
  = (self, Raise (mkExn KValueError
                    (name_conflict_message (name cmd) (module existing)
                       (module cmd)))).
Proof. intros H. unfold register. by rewrite H. Qed.


(** C4: registering a command under a name that is taken raises the
    name-conflict [ValueError], whose text cites the module of the existing
    command and the module of the new one, and the registry stays as it
    was, whatever models it holds; registering a model class whose name is
    taken returns without error and without change, whatever commands the
    registry holds. *)
Theorem C4_duplicate_registration
  (heap : Heap) (self : CommandRegistry) (cmd existing : CommandInfo)
  (model : ClassId) (cls : ModelClass) :
  (PyDict.get (name cmd) (_commands self) = Some existing ->
   register cmd self
   = (self,
      Raise (mkExn KValueError
               ("Command name conflict: '" +:+ name cmd
                +:+ "' is defined in both " +:+ "'" +:+ module existing
                +:+ "' and '" +:+ module cmd +:+ "'. "
                +:+ "Command names must be unique across all modules."))))
  /\ (heap !! model = Some cls ->
      PyDict.mem (cls_name cls) (_models self) = true ->
      register_model heap model self = self).
Proof.
  split.
  - intros Hcmd. by rewrite (register_taken _ _ _ Hcmd).
  - intros Hcls Hmem. unfold register_model. by rewrite Hcls, Hmem.
Qed.

Lemma C4_duplicate_registration_witness :
  let commands_only :=
    {| _commands := [("a", noop_command "a" "m1")]; _models := [] |} in
  let models_only :=
    {| _commands := []; _models := [("P", 0)] |} in
  register (noop_command "a" "m2") commands_only
  = (commands_only,
     Raise (mkExn KValueError
              "Command name conflict: 'a' is defined in both 'm1' and 'm2'. Command names must be unique across all modules."))
  /\ register_model [mkModel "P" None []] 0 models_only = models_only.
Proof.
  split.
  - exact (proj1 (C4_duplicate_registration [mkModel "P" None []]
                    {| _commands := [("a", noop_command "a" "m1")];
                       _models := [] |}
                    (noop_command "a" "m2") (noop_command "a" "m1") 0
                    (mkModel "P" None []))
             eq_refl).
  - exact (proj2 (C4_duplicate_registration [mkModel "P" None []]
                    {| _commands := []; _models := [("P", 0)] |}
                    (noop_command "a" "m2") (noop_command "a" "m1") 0
                    (mkModel "P" None []))
             eq_refl eq_refl).
Defined.

(** ** Enumeration of commands *)

Lemma list_commands_values registry :
  list_commands registry = map entry_of (PyDict.values (_commands registry)).
Proof. reflexivity. Qed.




(** ** Type mapping *)

Ltac split_done := simpl; first [done | f_equal; set_solver].

Section TypeMapping.
Variable heap : Heap.

Lemma type_to_ts_union args m :
  _type_to_ts heap (TUnion args) m
  = if (length (non_none args) =? 1)%nat && existsb is_NoneType args
    then let '(inner, m') := ts_first_non_none heap args m in
         (inner +:+ " | null", m')
    else let '(ts_types, m') := ts_each heap args m in
         (PyStr.join " | " ts_types, m').
Proof. reflexivity. Qed.

Lemma type_to_ts_tuple a args m :
  _type_to_ts heap (TTuple (a :: args)) m
  = let '(inner_types, m') := ts_each heap (a :: args) m in
    ("[" +:+ PyStr.join ", " inner_types +:+ "]", m').
Proof. reflexivity. Qed.

(** The text does not depend on the accumulator, and the accumulator only
    gains the names the hint mentions. *)
Definition splits (t : TypeHint) : Prop :=
  forall m, _type_to_ts heap t m = (ts_of heap t, names_of heap t ∪ m).

Lemma ts_each_splits args :
  Forall splits args ->
  forall m, ts_each heap args m
            = (map (ts_of heap) args, snd (ts_each heap args ∅) ∪ m).
Proof.
  induction 1 as [|a args Ha _ IH]; intros m; simpl.
  - f_equal. set_solver.
  - rewrite (Ha m), (Ha ∅). rewrite (IH (names_of heap a ∪ m)).
    rewrite (IH (names_of heap a ∪ ∅)). simpl. f_equal. set_solver.
Qed.

Lemma ts_first_non_none_splits args :
  Forall splits args ->
  forall m, ts_first_non_none heap args m
            = (fst (ts_first_non_none heap args ∅),
               snd (ts_first_non_none heap args ∅) ∪ m).
Proof.
  induction 1 as [|a args Ha _ IH]; intros m; simpl.
  - f_equal. set_solver.
  - destruct (is_NoneType a); [apply IH | exact (Ha m)].
Qed.

Lemma type_to_ts_splits t : splits t.
Proof.
  induction t as [| | | | | | | |args H|args H|args H|args H|args H|o args H|c|n|]
    using TypeHint_nested_ind; intros m;
    try (unfold ts_of, names_of; simpl; f_equal; set_solver).
  - (* Union *)
    unfold ts_of, names_of. rewrite !type_to_ts_union.
    destruct (_ && _).
    + rewrite (ts_first_non_none_splits _ H m).
      by destruct (ts_first_non_none heap args ∅).
    + rewrite (ts_each_splits _ H m), (ts_each_splits _ H ∅). split_done.
  - (* List *)
    destruct H as [|a args Ha _]; [unfold ts_of, names_of; split_done|].
    unfold ts_of, names_of. simpl. rewrite (Ha m), (Ha ∅). split_done.
  - (* Dict *)
    destruct H as [|a0 args Ha0 H]; [unfold ts_of, names_of; split_done|].
    destruct H as [|a1 args Ha1 _]; [unfold ts_of, names_of; split_done|].
    unfold ts_of, names_of. simpl.
    rewrite (Ha0 m), (Ha0 ∅), (Ha1 (names_of heap a0 ∪ m)),
      (Ha1 (names_of heap a0 ∪ ∅)). split_done.
  - (* Tuple *)
    destruct args as [|a args]; [unfold ts_of, names_of; split_done|].
    unfold ts_of, names_of. rewrite !type_to_ts_tuple.
    rewrite (ts_each_splits _ H m), (ts_each_splits _ H ∅). split_done.
  - (* Set *)
    destruct H as [|a args Ha _]; [unfold ts_of, names_of; split_done|].
    unfold ts_of, names_of. simpl. rewrite (Ha m), (Ha ∅). split_done.
  - (* Model *)
    unfold ts_of, names_of. simpl. destruct (heap !! c); split_done.
Qed.

Lemma type_to_ts_fst t m : fst (_type_to_ts heap t m) = ts_of heap t.
Proof. by rewrite type_to_ts_splits. Qed.

Lemma type_to_ts_snd t m : snd (_type_to_ts heap t m) = names_of heap t ∪ m.
Proof. by rewrite type_to_ts_splits. Qed.

Lemma ts_each_fst args m : fst (ts_each heap args m) = map (ts_of heap) args.
Proof.
  rewrite ts_each_splits; [done|].
  apply Forall_forall. intros ? _. apply type_to_ts_splits.
Qed.

Lemma is_NoneType_true a : is_NoneType a = true <-> a = TNoneType.
Proof. destruct a; simpl; split; congruence. Qed.

Lemma existsb_is_NoneType args :
  existsb is_NoneType args = true <-> TNoneType ∈ args.
Proof.
  rewrite existsb_exists. split.
  - intros (a & Hin & Ha). apply is_NoneType_true in Ha as ->.
    by apply list_elem_of_In.
  - intros Hin. exists TNoneType. split; [by apply list_elem_of_In | done].
Qed.

Lemma ts_first_non_none_single args x m :
  non_none args = [x] ->
  ts_first_non_none heap args m = _type_to_ts heap x m.
Proof.
  unfold non_none. induction args as [|a args IH]; simpl; [done|].
  destruct (is_NoneType a); simpl; [done|]. by intros [= -> _].
Qed.

End TypeMapping.

(** C7: a [Union] made of the null type and exactly one other variant maps
    to that variant's mapping followed by [| null]; any other [Union] maps
    to the mappings of its variants, in their order, joined by [|]. *)
Theorem C7_union_mapping
  (heap : Heap) (m : gset string) (optional general : list TypeHint)
  (x : TypeHint) :
  non_none optional = [x] ->
  TNoneType ∈ optional ->
  (length (non_none general) ≠ 1 \/ TNoneType ∉ general) ->
  fst (_type_to_ts heap (TUnion optional) m)
  = fst (_type_to_ts heap x m) +:+ " | null"
  /\ fst (_type_to_ts heap (TUnion general) m)
     = PyStr.join " | " (map (fun a => fst (_type_to_ts heap a m)) general).
Proof.
  intros Hx Hnone Hgen. split.
  - rewrite type_to_ts_union, Hx. simpl.
    apply existsb_is_NoneType in Hnone. rewrite Hnone.
    rewrite (ts_first_non_none_single _ _ _ _ Hx).
    by destruct (_type_to_ts heap x m).
  - rewrite type_to_ts_union.
    assert ((length (non_none general) =? 1)%nat
            && existsb is_NoneType general = false) as ->.
    { apply andb_false_iff. destruct Hgen as [Hlen|Hno].
      - left. by apply Nat.eqb_neq.
      - right. apply not_true_is_false. by rewrite existsb_is_NoneType. }
    pose proof (ts_each_fst heap general m) as Hfst.
    destruct (ts_each heap general m) as [ss m']. simpl in *. subst ss.
    f_equal. apply map_ext. intros a. by rewrite type_to_ts_fst.
Qed.

Lemma C7_union_mapping_witness :
  fst (_type_to_ts [] (TUnion [TNoneType; TInt]) ∅)
  = fst (_type_to_ts [] TInt ∅) +:+ " | null"
  /\ fst (_type_to_ts [] (TUnion [TInt; TStr; TNoneType]) ∅)
     = PyStr.join " | "
         (map (fun a => fst (_type_to_ts [] a ∅)) [TInt; TStr; TNoneType]).
Proof.
  apply (C7_union_mapping [] ∅ [TNoneType; TInt] [TInt; TStr; TNoneType] TInt).
  - reflexivity.
  - apply list_elem_of_here.
  - left. simpl. lia.
Defined.

(** ** The [channel] parameter *)

Lemma string_app_assoc (a b c : string) : (a +:+ b) +:+ c = a +:+ b +:+ c.
Proof.
  induction a as [|x a IH]; [done|].
  change (String x ((a +:+ b) +:+ c) = String x (a +:+ b +:+ c)).
  by rewrite IH.
Qed.

Section ChannelParameter.
Variable heap : Heap.

Lemma command_param_channel fuel hints p st st' :
  command_param heap fuel hints p st = Some st' ->
  ("channel" ∉ PyDict.keys (ds_params st) ->
   "channel" ∉ PyDict.keys (ds_params st'))
  /\ ds_has_channel st'
     = ds_has_channel st || String.eqb (param_name p) "channel".
Proof.
  unfold command_param. destruct (String.eqb_spec (param_name p) "channel") as [E|E].
  - destruct (if truthy_hint _ then _ else _); [|done].
    intros [= <-]. simpl. split; [done | by rewrite orb_true_r].
  - destruct (collect_models_from_type _ _ _ _); [|done].
    intros [= <-]. simpl. split; [|by rewrite orb_false_r].
    intros Hno. rewrite dict_keys_set.
    destruct (PyDict.mem _ _); [done|].
    rewrite elem_of_app, list_elem_of_singleton. intros [?|?]; [done|].
    by apply E.
Qed.

Lemma command_params_channel fuel hints sig st st' :
  for_each (command_param heap fuel hints) sig st = Some st' ->
  ("channel" ∉ PyDict.keys (ds_params st) ->
   "channel" ∉ PyDict.keys (ds_params st'))
  /\ ds_has_channel st'
     = ds_has_channel st
       || existsb (fun p => String.eqb (param_name p) "channel") sig.
Proof.
  revert st. induction sig as [|p sig IH]; intros st; simpl.
  - intros [= <-]. split; [done | by rewrite orb_false_r].
  - destruct (command_param heap fuel hints p st) as [st1|] eqn:E; [|done].
    intros Hrest. apply command_param_channel in E as [E1 E2].
    apply IH in Hrest as [H1 H2]. split; [by auto|].
    by rewrite H2, E2, orb_assoc.
Qed.

Lemma in_signature_channel fn :
  false || existsb (fun p => String.eqb (param_name p) "channel") (fn_signature fn)
  = in_signature fn "channel".
Proof.
  unfold in_signature. rewrite orb_false_l.
  induction (fn_signature fn) as [|p sig IH]; [done|].
  cbn [existsb]. by rewrite IH, String.eqb_sym.
Qed.

Lemma return_type_of_channel cmd m :
  has_channel cmd = true ->
  return_type_of heap cmd m
  = match channel_payload (func cmd) with
    | Some t => _type_to_ts heap t m
    | None => ("unknown", m)
    end.
Proof.
  intros Hch. unfold return_type_of, channel_payload. rewrite Hch.
  destruct (PyDict.get "channel" (default [] (fn_hints_generate (func cmd))))
    as [t|];
    simpl; [|done].
  destruct t; simpl; try done; by destruct args.
Qed.

Lemma generate_command_function_channel cmd m :
  has_channel cmd = true ->
  exists doc_lines prefix call_line,
    fst (_generate_command_function heap cmd m)
    = PyStr.join PyStr.nl
        (doc_lines
         ++ [prefix +:+ "BridgeChannel<"
             +:+ match channel_payload (func cmd) with
                 | Some t => ts_of heap t
                 | None => "unknown"
                 end
             +:+ "> {";
             call_line; "}"]).
Proof.
  intros Hch. unfold _generate_command_function.
  destruct (params_type_of heap cmd m) as [params_type m1].
  rewrite (return_type_of_channel _ _ Hch).
  set (payload := match channel_payload (func cmd) with
                  | Some t => ts_of heap t | None => "unknown" end).
  assert (exists m2,
    match channel_payload (func cmd) with
    | Some t => _type_to_ts heap t m1 | None => ("unknown", m1)
    end = (payload, m2)) as [m2 ->].
  { unfold payload. destruct (channel_payload (func cmd)) as [t|]; [|by eexists].
    rewrite type_to_ts_splits. by eexists. }
  exists (jsdoc (docstring cmd)). simpl. unfold stub_lines. rewrite Hch.
  destruct (params cmd).
  - eexists ("export function " +:+ python_name_to_camel_case (name cmd)
             +:+ "(): "), _.
    simpl. by rewrite !string_app_assoc.
  - eexists ("export function " +:+ python_name_to_camel_case (name cmd)
             +:+ "(args: " +:+ params_type +:+ "): "), _.
    simpl. by rewrite !string_app_assoc.
Qed.

End ChannelParameter.

(** C10: when the [command] decorator registers a function, the registered
    parameter list leaves out the parameter named [channel], the command is
    marked as streaming exactly when the function has that parameter, and
    for a streaming command the generated stub is typed
    [BridgeChannel< T >] with [T] the mapping of the generic argument of the
    [channel] annotation, or [unknown] without one; the return annotation
    plays no part. *)
Theorem C10_channel_parameter
  (heap : Heap) (fuel : nat) (fn : Function) (custom_name : option string)
  (self self' : CommandRegistry) (m : gset string) :
  command heap fuel fn custom_name self = Some (self', Ok tt) ->
  exists info,
    get_command (command_name fn custom_name) self' = Some info
    /\ func info = fn
    /\ ("channel" ∉ PyDict.keys (params info))
    /\ has_channel info = in_signature fn "channel"
    /\ (has_channel info = true ->
        exists doc_lines prefix call_line,
          fst (_generate_command_function heap info m)
          = PyStr.join PyStr.nl
              (doc_lines
               ++ [prefix +:+ "BridgeChannel<"
                   +:+ match channel_payload fn with
                       | Some t => ts_of heap t
                       | None => "unknown"
                       end
                   +:+ "> {";
                   call_line; "}"])).
Proof.
  unfold command. fold (command_name fn custom_name).
  destruct (for_each _ _ _) as [st|] eqn:Hloop; [|done].
  destruct (collect_models_from_type _ _ _ _) as [reg|]; [|done].
  apply command_params_channel in Hloop as [Hno Hhas].
  unfold register. simpl.
  destruct (PyDict.get (command_name fn custom_name) (_commands reg)); [done|].
  intros [= <-]. eexists. split; [apply dict_get_set_eq|].
  cbn [func params has_channel].
  split; [done|]. split; [apply Hno, not_elem_of_nil|].
  split.
  - rewrite Hhas. apply in_signature_channel.
  - intros Hch.
    match goal with
    | |- context [_generate_command_function heap ?info m] =>
        exact (generate_command_function_channel heap info m Hch)
    end.
Qed.

Lemma C10_channel_parameter_witness :
  exists info,
    get_command (command_name tick_function None) tick_registry = Some info
    /\ func info = tick_function
    /\ ("channel" ∉ PyDict.keys (params info))
    /\ has_channel info = in_signature tick_function "channel"
    /\ (has_channel info = true ->
        exists doc_lines prefix call_line,
          fst (_generate_command_function [] info ∅)
          = PyStr.join PyStr.nl
              (doc_lines
               ++ [prefix +:+ "BridgeChannel<"
                   +:+ match channel_payload tick_function with
                       | Some t => ts_of [] t
                       | None => "unknown"
                       end
                   +:+ "> {";
                   call_line; "}"])).
Proof.
  apply (C10_channel_parameter [] 5 tick_function None empty_registry
           tick_registry ∅).
  reflexivity.
Defined.

(** ** Generation *)

Lemma string_app_nil_r (a : string) : a +:+ EmptyString = a.
Proof.
  induction a as [|x a IH]; [done|].
  change (String x (a +:+ EmptyString) = String x a). by rewrite IH.
Qed.

Lemma join_cons sep x xs :
  PyStr.join sep (x :: xs)
  = x +:+ match xs with [] => EmptyString | _ :: _ => sep +:+ PyStr.join sep xs end.
Proof. destruct xs; [by rewrite string_app_nil_r | done]. Qed.

Section GenerationFacts.
Variable heap : Heap.

Lemma interface_fields_snd fields lines m :
  snd (fold_left (fun st field => interface_field heap field st) fields (lines, m))
  = fields_names heap fields ∪ m.
Proof.
  revert lines m. unfold fields_names.
  induction fields as [|[field_name field_info] fields IH]; intros lines m.
  - simpl. set_solver.
  - cbn [fold_left map union_list]. unfold interface_field at 2.
    rewrite type_to_ts_splits. rewrite IH. cbn [snd]. set_solver.
Qed.

Lemma generate_model_interface_snd model m :
  snd (_generate_model_interface heap model m)
  = fields_names heap (model_fields model) ∪ m.
Proof.
  unfold _generate_model_interface.
  rewrite <- (interface_fields_snd (model_fields model)
                (jsdoc (cls_doc model)
                 ++ ["export interface " +:+ cls_name model +:+ " {"]) m).
  by destruct (fold_left _ _ _).
Qed.

Lemma registered_names_lookup models model_name c cls :
  PyDict.get model_name models = Some c ->
  heap !! c = Some cls ->
  fields_names heap (model_fields cls) ⊆ registered_names heap models.
Proof.
  unfold registered_names.
  induction models as [|[k c'] models IH]; simpl; [done|].
  destruct (String.eqb model_name k).
  - intros [= ->] ->. set_solver.
  - intros Hget Hcls. specialize (IH Hget Hcls). set_solver.
Qed.

Lemma interface_step_spec models model_name st :
  generated_models (interface_step heap models model_name st)
  = {[model_name]} ∪ generated_models st
  /\ models_to_generate st
     ⊆ models_to_generate (interface_step heap models model_name st)
  /\ models_to_generate (interface_step heap models model_name st)
     ⊆ registered_names heap models ∪ models_to_generate st.
Proof.
  unfold interface_step.
  destruct (PyDict.get model_name models) as [c|] eqn:Hget; simpl;
    [|set_solver].
  destruct (heap !! c) as [cls|] eqn:Hcls; simpl; [|set_solver].
  pose proof (generate_model_interface_snd cls (models_to_generate st)) as Hsnd.
  pose proof (registered_names_lookup _ _ _ _ Hget Hcls) as Hsub.
  destruct (_generate_model_interface heap cls (models_to_generate st)) as [code m].
  simpl in *. subst m. set_solver.
Qed.

Lemma interface_steps_spec models names st :
  let st' := fold_left (fun st model_name => interface_step heap models model_name st)
               names st in
  generated_models st' = list_to_set names ∪ generated_models st
  /\ models_to_generate st ⊆ models_to_generate st'
  /\ models_to_generate st'
     ⊆ registered_names heap models ∪ models_to_generate st.
Proof.
  revert st. induction names as [|n names IH]; intros st; simpl.
  - set_solver.
  - destruct (interface_step_spec models n st) as (H1 & H2 & H3).
    destruct (IH (interface_step heap models n st)) as (I1 & I2 & I3).
    rewrite I1, H1. set_solver.
Qed.

Lemma generate_interfaces_enough models bound fuel st :
  registered_names heap models ⊆ bound ->
  models_to_generate st ⊆ bound ->
  size (bound ∖ generated_models st) < fuel ->
  is_Some (generate_interfaces heap fuel models st).
Proof.
  intros Hreg. revert st. induction fuel as [|fuel IH]; intros st Hsub Hsize;
    [lia|].
  simpl. case_decide as Hbatch; [done|].
  set (names := sorted id (elements (models_to_generate st ∖ generated_models st))).
  destruct (interface_steps_spec models names st) as (H1 & H2 & H3).
  apply IH; [set_solver|].
  assert (list_to_set names = models_to_generate st ∖ generated_models st)
    as Hnames.
  { unfold names. apply set_eq. intros x.
    rewrite elem_of_list_to_set, (sorted_Permutation id), elem_of_elements.
    done. }
  rewrite H1, Hnames.
  assert (bound ∖ (models_to_generate st ∖ generated_models st
                   ∪ generated_models st) ⊂ bound ∖ generated_models st).
  { apply set_choose_L in Hbatch as [x Hx]. split; [set_solver|].
    intros Hsup. assert (x ∈ bound ∖ generated_models st) as Hin by set_solver.
    apply Hsup in Hin. set_solver. }
  apply subset_size in H. lia.
Qed.

Lemma generate_interfaces_fuel models fuel1 fuel2 st st1 st2 :
  generate_interfaces heap fuel1 models st = Some st1 ->
  generate_interfaces heap fuel2 models st = Some st2 ->
  st1 = st2.
Proof.
  revert fuel2 st. induction fuel1 as [|fuel1 IH]; intros [|fuel2] st; simpl;
    try done.
  case_decide; [congruence|]. apply IH.
Qed.

End GenerationFacts.

Lemma generate_terminates heap now registry :
  exists fuel0 files,
    forall fuel, fuel0 <= fuel -> generate heap fuel now registry = Some files.
Proof.
  unfold generate.
  destruct (generate_command_functions heap (get_all_commands registry))
    as [command_functions m].
  set (m0 := fold_left (fun m model_name => {[model_name]} ∪ m)
               (PyDict.keys (get_all_models registry)) m).
  set (bound := registered_names heap (get_all_models registry) ∪ m0).
  set (st0 := {| models_to_generate := m0; generated_models := ∅;
                 model_interfaces := [] |}).
  assert (forall fuel, S (size bound) <= fuel ->
            is_Some (generate_interfaces heap fuel (get_all_models registry) st0))
    as Henough.
  { intros fuel Hfuel. apply (generate_interfaces_enough heap _ bound).
    - set_solver.
    - simpl. set_solver.
    - simpl. assert (bound ∖ ∅ = bound) as -> by set_solver. lia. }
  destruct (Henough (S (size bound))) as [st Hst]; [lia|].
  exists (S (size bound)). eexists. intros fuel Hfuel.
  destruct (Henough fuel Hfuel) as [st' Hst'].
  rewrite Hst'. by rewrite (generate_interfaces_fuel _ _ _ _ _ _ _ Hst' Hst).
Qed.

(** C1, as stated, fails: two calls on the empty registry at different
    clock readings write different client files. *)
Lemma C1_successive_calls_differ :
  exists out1 out2,
    generate [] 1 "2025-01-01T00:00:00.000001" empty_registry = Some out1
    /\ generate [] 1 "2025-01-01T00:00:00.000002" empty_registry = Some out2
    /\ client_ts out1 <> client_ts out2.
Proof.
  do 2 eexists. split; [reflexivity|]. split; [reflexivity|].
  vm_compute. discriminate.
Qed.

(** C1, amended: for one registry state, two [generate] calls write the
    same [_internal.ts] and client files that agree everywhere except in
    the time stamp of the [Generated:] line of the header; with the same
    clock reading the two outputs are identical. *)
Theorem C1_generate_differs_only_in_timestamp
  (heap : Heap) (registry : CommandRegistry) (fuel1 fuel2 : nat)
  (now1 now2 : string) (out1 out2 : GeneratedFiles) :
  generate heap fuel1 now1 registry = Some out1 ->
  generate heap fuel2 now2 registry = Some out2 ->
  internal_ts out1 = internal_ts out2
  /\ (exists rest,
        client_ts out1
        = "/* Auto-generated by PyBridge - DO NOT EDIT */
/* Generated: " +:+ now1 +:+ rest
        /\ client_ts out2
           = "/* Auto-generated by PyBridge - DO NOT EDIT */
/* Generated: " +:+ now2 +:+ rest)
  /\ (now1 = now2 -> out1 = out2).
Proof.
  unfold generate.
  destruct (generate_command_functions heap (get_all_commands registry))
    as [command_functions m].
  destruct (generate_interfaces heap fuel1 _ _) as [st1|] eqn:E1; [|done].
  destruct (generate_interfaces heap fuel2 _ _) as [st2|] eqn:E2; [|done].
  pose proof (generate_interfaces_fuel _ _ _ _ _ _ _ E1 E2) as ->.
  intros [= <-] [= <-]. cbn [internal_ts client_ts].
  split; [done|]. split; [|by intros ->].
  unfold header.
  destruct (body_sections (model_interfaces st2) command_functions);
    eexists; rewrite ?string_app_assoc; split; reflexivity.
Qed.

Lemma C1_generate_differs_only_in_timestamp_witness :
  internal_ts (ghost_files 2 "2025-01-01T00:00:00.000001")
  = internal_ts (ghost_files 3 "2025-01-01T00:00:00.000002")
  /\ (exists rest,
        client_ts (ghost_files 2 "2025-01-01T00:00:00.000001")
        = "/* Auto-generated by PyBridge - DO NOT EDIT */
/* Generated: " +:+ "2025-01-01T00:00:00.000001" +:+ rest
        /\ client_ts (ghost_files 3 "2025-01-01T00:00:00.000002")
           = "/* Auto-generated by PyBridge - DO NOT EDIT */
/* Generated: " +:+ "2025-01-01T00:00:00.000002" +:+ rest)
  /\ ("2025-01-01T00:00:00.000001" = "2025-01-01T00:00:00.000002"
      -> ghost_files 2 "2025-01-01T00:00:00.000001"
         = ghost_files 3 "2025-01-01T00:00:00.000002").
Proof.
  apply (C1_generate_differs_only_in_timestamp ghost_heap ghost_registry 2 3);
    reflexivity.
Defined.

(** C2, as stated, fails: [get_ghost] returns the class [Ghost], which the
    model registry does not hold; the name reaches the worklist, and
    [generate] runs to completion and writes a client file without any
    declaration for it. *)
Lemma C2_unregistered_reference_generates :
  return_type ghost_command = TModel 0
  /\ cls_name <$> ghost_heap !! 0 = Some "Ghost"
  /\ PyDict.get "Ghost" (get_all_models ghost_registry) = None
  /\ elements (snd (generate_command_functions ghost_heap
                      (get_all_commands ghost_registry))) = ["Ghost"]
  /\ generate ghost_heap 2 "T" ghost_registry
     = Some {| internal_ts := _generate_internal_module;
               client_ts :=
                 header "T" +:+ PyStr.nl +:+ PyStr.nl
                 +:+ "// ============ Commands ============" +:+ PyStr.nl
                 +:+ PyStr.nl
                 +:+ "export async function getGhost(): Promise<Ghost> {"
                 +:+ PyStr.nl
                 +:+ "    return request(" +:+ PyStr.dq +:+ "get_ghost"
                 +:+ PyStr.dq +:+ ", {});" +:+ PyStr.nl
                 +:+ "}" |}.
Proof. vm_compute. repeat split; reflexivity. Qed.

(** C2, amended: during generation every name of the worklist is looked up
    in the model registry; a name that is not registered is marked as done
    without a declaration and without touching the worklist, and the
    generation runs to completion and yields both files, the same for
    every sufficient bound on the number of rounds. *)
Theorem C2_unregistered_names_are_skipped
  (heap : Heap) (registry : CommandRegistry) (now model_name : string)
  (st : GenState) :
  PyDict.get model_name (get_all_models registry) = None ->
  interface_step heap (get_all_models registry) model_name st
  = {| models_to_generate := models_to_generate st;
       generated_models := {[model_name]} ∪ generated_models st;
       model_interfaces := model_interfaces st |}
  /\ exists fuel0 files,
       forall fuel, fuel0 <= fuel -> generate heap fuel now registry = Some files.
Proof.
  intros Hget. split; [|apply generate_terminates].
  unfold interface_step. by rewrite Hget.
Qed.

Lemma C2_unregistered_names_are_skipped_witness :
  interface_step ghost_heap (get_all_models ghost_registry) "Ghost"
    {| models_to_generate := {["Ghost"]}; generated_models := ∅;
       model_interfaces := [] |}
  = {| models_to_generate := {["Ghost"]};
       generated_models := {["Ghost"]} ∪ ∅;
       model_interfaces := [] |}
  /\ exists fuel0 files,
       forall fuel, fuel0 <= fuel ->
         generate ghost_heap fuel "T" ghost_registry = Some files.
Proof.
  exact (C2_unregistered_names_are_skipped ghost_heap ghost_registry "T" "Ghost"
           {| models_to_generate := {["Ghost"]}; generated_models := ∅;
              model_interfaces := [] |} eq_refl).
Defined.

(** ** Collecting the models of a hint *)

Lemma for_each_invariant {A S : Type} (f : A -> S -> option S) (P : S -> Prop)
  (xs : list A) (s : S) :
  P s ->
  (forall x s, x ∈ xs -> P s -> exists s', f x s = Some s' /\ P s') ->
  exists s', for_each f xs s = Some s' /\ P s'.
Proof.
  revert s. induction xs as [|x xs IH]; intros s Hs Hstep; simpl.
  - by exists s.
  - destruct (Hstep x s) as (s1 & -> & Hs1); [by left | done |].
    apply IH; [done|]. intros y s2 Hy. apply Hstep. by right.
Qed.

Lemma for_each_agree {A S : Type} (f g : A -> S -> option S)
  (xs : list A) (s a b : S) :
  (forall x s a b, f x s = Some a -> g x s = Some b -> a = b) ->
  for_each f xs s = Some a -> for_each g xs s = Some b -> a = b.
Proof.
  intros Hfg. revert s. induction xs as [|x xs IH]; intros s; simpl.
  - congruence.
  - destruct (f x s) as [s1|] eqn:Ef; [|done].
    destruct (g x s) as [s2|] eqn:Eg; [|done].
    rewrite (Hfg _ _ _ _ Ef Eg). apply IH.
Qed.

Lemma max_list_le (l : list nat) (n : nat) : n ∈ l -> n <= max_list l.
Proof.
  induction l as [|x l IH]; simpl.
  - by intros ?%elem_of_nil.
  - intros [->|Hin]%elem_of_cons; [lia|]. specialize (IH Hin). lia.
Qed.

Section Collect.
Variable heap : Heap.

Lemma extends_refl self : extends self self.
Proof. by repeat split. Qed.

Lemma extends_trans a b c : extends a b -> extends b c -> extends a c.
Proof.
  intros (H1 & H2 & H3) (I1 & I2 & I3). repeat split.
  - set_solver.
  - congruence.
  - auto.
Qed.

Lemma extends_unvisited self s :
  extends self s -> unvisited heap s <= unvisited heap self.
Proof.
  intros (Hsub & _). unfold unvisited. apply subseteq_size.
  intros x. rewrite !elem_of_difference, !elem_of_list_to_set. set_solver.
Qed.

Lemma unvisited_insert self c cls :
  heap !! c = Some cls ->
  PyDict.mem (cls_name cls) (_models self) = false ->
  S (unvisited heap
       (set_models (PyDict.set (cls_name cls) c (_models self)) self))
  <= unvisited heap self.
Proof.
  intros Hcls Hmem. unfold unvisited. simpl.
  assert (cls_name cls ∉ PyDict.keys (_models self)) as Hfresh.
  { intros Hin. apply dict_mem_keys in Hin. congruence. }
  rewrite dict_keys_set, Hmem.
  apply Nat.le_succ_l, subset_size. split.
  - intros x. rewrite !elem_of_difference, !elem_of_list_to_set. set_solver.
  - intros Hsup.
    assert (cls_name cls ∈
            (list_to_set (map cls_name heap) : gset string)
            ∖ list_to_set (PyDict.keys (_models self))) as Hin.
    { rewrite elem_of_difference, !elem_of_list_to_set. split; [|done].
      apply list_elem_of_fmap. exists cls. split; [done|].
      by apply list_elem_of_lookup_2 in Hcls. }
    apply Hsup in Hin. revert Hin.
    rewrite elem_of_difference, !elem_of_list_to_set. set_solver.
Qed.

Lemma extends_insert self c cls :
  PyDict.mem (cls_name cls) (_models self) = false ->
  extends self (set_models (PyDict.set (cls_name cls) c (_models self)) self).
Proof.
  intros Hmem. repeat split; simpl.
  - rewrite dict_keys_set, Hmem. set_solver.
  - apply dict_keys_set_NoDup.
Qed.

Lemma field_depth_le c cls field_info :
  heap !! c = Some cls ->
  field_info ∈ PyDict.values (model_fields cls) ->
  hint_depth (annotation field_info) <= heap_depth heap.
Proof.
  intros Hcls Hin. transitivity (class_depth cls).
  - apply max_list_le, list_elem_of_fmap. by exists field_info.
  - apply max_list_le, list_elem_of_fmap. exists cls. split; [done|].
    by apply list_elem_of_lookup_2 in Hcls.
Qed.

Lemma arg_depth_lt (args : list TypeHint) (a : TypeHint) :
  a ∈ args -> hint_depth a < S (max_list (map hint_depth args)).
Proof.
  intros Hin. apply Nat.lt_succ_r, max_list_le, list_elem_of_fmap. by exists a.
Qed.

(** Enough fuel: any fuel above [collect_bound] lets the call return. *)
Lemma collect_enough fuel type_hint self :
  collect_bound heap type_hint self < fuel ->
  exists self',
    collect_models_from_type heap fuel type_hint self = Some self'
    /\ extends self self'.
Proof.
  unfold collect_bound. revert type_hint self.
  induction fuel as [|fuel IH]; intros type_hint self Hfuel; [lia|].
  assert (forall args,
    origin_args type_hint = Some args ->
    hint_depth type_hint = S (max_list (map hint_depth args)) ->
    exists self',
      for_each (collect_models_from_type heap fuel) args self = Some self'
      /\ extends self self') as Hargs.
  { intros args _ Hdepth.
    apply (for_each_invariant _ (extends self)); [apply extends_refl|].
    intros a s Ha Hs.
    destruct (IH a s) as (s' & Hs' & Hext).
    - apply arg_depth_lt in Ha. apply extends_unvisited in Hs.
      assert (unvisited heap s * S (heap_depth heap)
              <= unvisited heap self * S (heap_depth heap))
        by (by apply Nat.mul_le_mono_r).
      lia.
    - exists s'. split; [done|]. by eapply extends_trans. }
  destruct type_hint; simpl;
    try (eexists; split; [reflexivity | apply extends_refl]);
    try (by apply Hargs).
  (* a model class *)
  destruct (heap !! c) as [cls|] eqn:Hcls;
    [|eexists; split; [reflexivity | apply extends_refl]].
  destruct (PyDict.mem (cls_name cls) (_models self)) eqn:Hmem;
    [eexists; split; [reflexivity | apply extends_refl]|].
  pose proof (unvisited_insert self c cls Hcls Hmem) as Hless.
  pose proof (extends_insert self c cls Hmem) as Hext1.
  set (self1 := set_models (PyDict.set (cls_name cls) c (_models self)) self) in *.
  destruct (for_each_invariant
              (fun field_info =>
                 collect_models_from_type heap fuel (annotation field_info))
              (extends self1) (PyDict.values (model_fields cls)) self1)
    as (self' & Hself' & Hext); [apply extends_refl | |].
  - intros field_info s Hin Hs.
    destruct (IH (annotation field_info) s) as (s' & Hs' & Hext).
    + pose proof (field_depth_le c cls field_info Hcls Hin).
      apply extends_unvisited in Hs. simpl in Hfuel.
      assert (S (unvisited heap s) * S (heap_depth heap)
              <= unvisited heap self * S (heap_depth heap))
        by (apply Nat.mul_le_mono_r; lia).
      lia.
    + exists s'. split; [done|]. by eapply extends_trans.
  - exists self'. split; [done|]. by eapply extends_trans.
Qed.

(** The outcome does not depend on the fuel, once there is enough. *)
Lemma collect_agree fuel1 fuel2 type_hint self a b :
  collect_models_from_type heap fuel1 type_hint self = Some a ->
  collect_models_from_type heap fuel2 type_hint self = Some b ->
  a = b.
Proof.
  revert fuel2 type_hint self a b.
  induction fuel1 as [|fuel1 IH]; intros [|fuel2] type_hint self a b;
    try done.
  destruct type_hint; simpl; try congruence;
    try (apply for_each_agree; intros x s a' b'; apply IH).
  destruct (heap !! c) as [cls|]; [|congruence].
  destruct (PyDict.mem _ _); [congruence|].
  apply for_each_agree. intros x s a' b'. apply IH.
Qed.

(** A model class given as the hint ends up recorded. *)
Lemma collect_records_model fuel c cls self self' :
  heap !! c = Some cls ->
  collect_models_from_type heap fuel (TModel c) self = Some self' ->
  cls_name cls ∈ PyDict.keys (_models self').
Proof.
  intros Hcls. destruct fuel as [|fuel]; [done|]. simpl. rewrite Hcls.
  destruct (PyDict.mem (cls_name cls) (_models self)) eqn:Hmem.
  - intros [= <-]. by apply dict_mem_keys.
  - intros Hloop.
    destruct (for_each_invariant
                (fun field_info =>
                   collect_models_from_type heap
                     (collect_bound heap (TModel c) self)
                     (annotation field_info))
                (extends (set_models (PyDict.set (cls_name cls) c (_models self))
                            self))
                (PyDict.values (model_fields cls))
                (set_models (PyDict.set (cls_name cls) c (_models self)) self))
      as (r & Hr & Hsub & _); [apply extends_refl | |].
    + intros x s Hx Hs.
      destruct (collect_enough (collect_bound heap (TModel c) self)
                  (annotation x) s) as (s' & Hs' & Hext).
      * pose proof (field_depth_le c cls x Hcls Hx).
        pose proof (unvisited_insert self c cls Hcls Hmem).
        apply extends_unvisited in Hs. unfold collect_bound. simpl.
        assert (S (unvisited heap s) * S (heap_depth heap)
                <= unvisited heap self * S (heap_depth heap))
          by (apply Nat.mul_le_mono_r; lia).
        lia.
      * exists s'. split; [done|]. by eapply extends_trans.
    + assert (r = self') as <-.
      { eapply for_each_agree; [|exact Hr|exact Hloop].
        intros x s a b. apply collect_agree. }
      apply Hsub. simpl. rewrite dict_keys_set, Hmem. set_solver.
Qed.

End Collect.

(** C9: [collect_models_from_type] returns on every heap of classes, every
    hint and every registry, cyclic references included: any recursion
    depth above [collect_bound] is enough, and the outcome is the same for
    all of them.  The classes seen are recorded under their names, so a
    class given as the hint, self-referential or not, has its name among
    the keys of the model dictionary exactly once. *)
Theorem C9_collect_models_terminates
  (heap : Heap) (type_hint : TypeHint) (self : CommandRegistry)
  (c : ClassId) (cls : ModelClass) :
  (exists self',
     forall fuel, collect_bound heap type_hint self < fuel ->
       collect_models_from_type heap fuel type_hint self = Some self')
  /\ (heap !! c = Some cls ->
      NoDup (PyDict.keys (_models self)) ->
      exists self',
        (forall fuel, collect_bound heap (TModel c) self < fuel ->
           collect_models_from_type heap fuel (TModel c) self = Some self')
        /\ count_occ string_dec (PyDict.keys (_models self')) (cls_name cls) = 1).
Proof.
  assert (forall t, exists self',
    extends self self'
    /\ forall fuel, collect_bound heap t self < fuel ->
         collect_models_from_type heap fuel t self = Some self') as Hruns.
  { intros t.
    destruct (collect_enough heap (S (collect_bound heap t self)) t self)
      as (self' & Hself' & Hext); [lia|].
    exists self'. split; [done|]. intros fuel Hfuel.
    destruct (collect_enough heap fuel t self Hfuel) as (r & Hr & _).
    by rewrite Hr, (collect_agree heap _ _ _ _ _ _ Hr Hself'). }
  split.
  - destruct (Hruns type_hint) as (self' & _ & Hself'). by exists self'.
  - intros Hcls Hnodup.
    destruct (Hruns (TModel c)) as (self' & (_ & _ & Hnd) & Hself').
    exists self'. split; [done|].
    apply NoDup_count_occ'; [by apply NoDup_ListNoDup, Hnd|].
    apply list_elem_of_In.
    apply (collect_records_model heap (S (collect_bound heap (TModel c) self))
             c cls self self' Hcls).
    apply Hself'. lia.
Qed.

Lemma C9_collect_models_terminates_witness :
  (exists self',
     forall fuel,
       collect_bound node_heap (TList [TModel 0]) empty_registry < fuel ->
       collect_models_from_type node_heap fuel (TList [TModel 0]) empty_registry
       = Some self')
  /\ (exists self',
        (forall fuel, collect_bound node_heap (TModel 0) empty_registry < fuel ->
           collect_models_from_type node_heap fuel (TModel 0) empty_registry
           = Some self')
        /\ count_occ string_dec (PyDict.keys (_models self')) "Node" = 1).
Proof.
  destruct (C9_collect_models_terminates node_heap (TList [TModel 0])
              empty_registry 0
              (mkModel "Node" None
                 [("value", mkField TInt true None);
                  ("next", mkField (TUnion [TModel 0; TNoneType]) false None)]))
    as [Hruns Hnode].
  split; [exact Hruns|]. apply Hnode; [reflexivity | apply NoDup_nil_2].
Defined.

(** The self-referential [Node] is recorded once, under its name. *)
Example collect_node :
  collect_models_from_type node_heap 4 (TModel 0) empty_registry
  = Some {| _commands := []; _models := [("Node", 0)] |}.
Proof. reflexivity. Qed.

(** ** Channels *)




Section Delivery.
Variable to_sse : Frame -> string.




End Delivery.



(** ** The dispatcher *)

Lemma dict_get_set_ne {V : Type} (k k' : string) (v : V) (d : PyDict.t V) :
  k <> k' -> PyDict.get k (PyDict.set k' v d) = PyDict.get k d.
Proof.
  intros Hne. induction d as [|[k0 v0] d IH]; simpl.
  - by destruct (String.eqb_spec k k').
  - destruct (String.eqb_spec k' k0) as [->|Hne0]; simpl.
    + by destruct (String.eqb_spec k k0).
    + destruct (String.eqb_spec k k0); [done | apply IH].
Qed.

(** The keyword arguments are the arguments under declared parameter names,
    and nothing else. *)
Lemma build_kwargs_get cmd args k :
  PyDict.get k (build_kwargs cmd args)
  = if PyDict.mem k (params cmd) then PyDict.get k args else None.
Proof.
  unfold build_kwargs.
  assert (forall declared kwargs,
    PyDict.get k
      (fold_left
         (fun kwargs param_name =>
            match PyDict.get param_name args with
            | Some v => PyDict.set param_name v kwargs
            | None => kwargs
            end) declared kwargs)
    = if bool_decide (k ∈ declared)
      then match PyDict.get k args with
           | Some v => Some v
           | None => PyDict.get k kwargs
           end
      else PyDict.get k kwargs) as Hfold.
  { induction declared as [|p declared IH]; intros kwargs; [done|].
    cbn [fold_left]. rewrite IH.
    destruct (decide (k = p)) as [->|Hne].
    - rewrite (bool_decide_eq_true_2 (p ∈ p :: declared)) by left.
      destruct (PyDict.get p args) as [v|] eqn:E.
      + rewrite dict_get_set_eq. by destruct (bool_decide _).
      + by destruct (bool_decide _).
    - assert (bool_decide (k ∈ p :: declared) = bool_decide (k ∈ declared))
        as ->.
      { apply bool_decide_ext. rewrite elem_of_cons. naive_solver. }
      destruct (PyDict.get p args) as [v|]; [|done].
      by rewrite dict_get_set_ne. }
  rewrite Hfold. simpl.
  destruct (PyDict.mem k (params cmd)) eqn:Hmem.
  - apply dict_mem_keys in Hmem. rewrite bool_decide_eq_true_2 by done.
    by destruct (PyDict.get k args).
  - rewrite bool_decide_eq_false_2; [done|].
    intros Hin. apply dict_mem_keys in Hin. congruence.
Qed.

Section Dispatcher.
Variable binding_error : Function -> list string -> string.
Variable not_awaitable : PyValue -> string.

(** A call whose keyword names do not fit the signature is refused as a
    [ValidationError]. *)
Lemma execute_command_binding_mismatch cmd args :
  binds (func cmd) (PyDict.keys (build_kwargs cmd args)) = false ->
  _execute_command binding_error not_awaitable cmd args
  = Raise (mkExn KValidationError
             ("Invalid arguments: "
              +:+ binding_error (func cmd)
                    (PyDict.keys (build_kwargs cmd args)))).
Proof.
  intros Hbinds. unfold _execute_command, await_call, call. simpl.
  rewrite Hbinds. simpl. by destruct (fn_coroutine (func cmd)).
Qed.

(** A failure of the handler that is an [Exception] but not a [TypeError]
    becomes a [CommandExecutionError] with the same message. *)
Lemma execute_command_other_failure cmd args e :
  run_end (await_call binding_error not_awaitable (func cmd) false
             (build_kwargs cmd args)) = Raises e ->
  is_TypeError e = false ->
  is_Exception e = true ->
  _execute_command binding_error not_awaitable cmd args
  = Raise (mkExn KCommandExecutionError (exn_msg e)).
Proof.
  intros Hrun Hte Hex. unfold _execute_command. by rewrite Hrun, Hte, Hex.
Qed.

(** For a coroutine handler given the channel: a normal return closes the
    channel after the handler's own operations, an [Exception] puts its
    message in an [error] frame, and the dispatcher itself returns. *)
Lemma execute_channel_command_coroutine cmd args channel :
  fn_coroutine (func cmd) = true ->
  let r := call binding_error (func cmd) true (build_kwargs cmd args) in
  match run_end r with
  | Returns _ =>
      _execute_channel_command binding_error not_awaitable cmd args channel
      = (close (apply_ops (run_ops r) channel), Ok tt)
  | Raises e =>
      is_Exception e = true ->
      _execute_channel_command binding_error not_awaitable cmd args channel
      = (send_error (exn_msg e) (apply_ops (run_ops r) channel), Ok tt)
  end.
Proof.
  intros Hco r. unfold _execute_channel_command, await_call. fold r.
  rewrite Hco. destruct (run_end r) as [v|e]; [done|]. by intros ->.
Qed.

End Dispatcher.

(** C5, at the failing input: [add_one] binds its argument [x], ignores the
    extra key [y], and its body raises [TypeError]; the failure is not a
    binding mismatch, yet the dispatcher reports it as a [ValidationError]
    and not as a [CommandExecutionError]. *)
Theorem C5_body_type_error_is_validation_error
  (binding_error : Function -> list string -> string)
  (not_awaitable : PyValue -> string) :
  let args := [("y", VInt 7); ("x", VInt 1)] in
  build_kwargs add_one_command args = [("x", VInt 1)]
  /\ binds add_one_function (PyDict.keys (build_kwargs add_one_command args))
     = true
  /\ _execute_command binding_error not_awaitable add_one_command args
     = Raise (mkExn KValidationError
                "Invalid arguments: unsupported operand type(s) for +: 'int' and 'str'")
  /\ _execute_command binding_error not_awaitable add_one_command args
     <> Raise (mkExn KCommandExecutionError
                 "unsupported operand type(s) for +: 'int' and 'str'").
Proof. repeat split. discriminate. Qed.

(** C6, at the failing input: [quiet] is a plain function taking the
    channel; it returns normally, the [await] of its result raises
    [TypeError] inside the dispatcher, and the channel receives an [error]
    frame instead of the [close] frame. *)
Theorem C6_plain_function_gets_error_frame
  (binding_error : Function -> list string -> string)
  (not_awaitable : PyValue -> string) :
  run_end (call binding_error quiet_function true
             (build_kwargs quiet_command [])) = Returns VNone
  /\ _execute_channel_command binding_error not_awaitable quiet_command []
       (new_channel "c1")
     = ({| chan_id := "c1";
           chan_queue := [FError (not_awaitable VNone)];
           chan_state := Closed |}, Ok tt)
  /\ fst (_execute_channel_command binding_error not_awaitable quiet_command []
            (new_channel "c1"))
     <> close (new_channel "c1").
Proof. repeat split. discriminate. Qed.

(** The coroutine [tick] sends two payloads and returns: the consumer is
    handed the two data frames and then the [close] frame. *)
Example tick_stream
  (binding_error : Function -> list string -> string)
  (not_awaitable : PyValue -> string) :
  delivered
    (messages
       (fst (_execute_channel_command binding_error not_awaitable tick_command
               [("count", VInt 2)] (new_channel "c1"))))
  = [FData (VInt 1); FData (VInt 2); FClose].
Proof. reflexivity. Qed.

(** * Further properties *)

(** ** The registry *)

Section DictMore.
Context {V : Type}.
Implicit Types (d : PyDict.t V) (k : string) (v : V).

Lemma dict_get_elem_of k v d : PyDict.get k d = Some v -> (k, v) ∈ d.
Proof.
  induction d as [|[k' v'] d IH]; simpl; [done|].
  destruct (String.eqb_spec k k') as [->|Hne].
  - intros [= ->]. by left.
  - intros H. right. by apply IH.
Qed.

Lemma dict_elem_of_get k v d :
  NoDup (PyDict.keys d) -> (k, v) ∈ d -> PyDict.get k d = Some v.
Proof.
  induction d as [|[k' v'] d IH]; simpl.
  - by intros _ ?%elem_of_nil.
  - intros [Hk' Hnd]%NoDup_cons [Heq|Hin]%elem_of_cons.
    + injection Heq as -> ->. by rewrite String.eqb_refl.
    + destruct (String.eqb_spec k k') as [->|Hne]; [|by apply IH].
      exfalso. apply Hk'. apply list_elem_of_fmap. by exists (k', v).
Qed.

Lemma dict_get_Permutation k d1 d2 :
  NoDup (PyDict.keys d1) -> d1 ≡ₚ d2 -> PyDict.get k d1 = PyDict.get k d2.
Proof.
  intros Hnd Hperm.
  assert (NoDup (PyDict.keys d2)) as Hnd2.
  { unfold PyDict.keys in *. by rewrite <- Hperm. }
  destruct (PyDict.get k d1) as [v|] eqn:E1.
  - symmetry. apply dict_elem_of_get; [done|].
    rewrite <- Hperm. by apply dict_get_elem_of.
  - destruct (PyDict.get k d2) as [v|] eqn:E2; [|done].
    apply dict_get_elem_of in E2. rewrite <- Hperm in E2.
    apply (dict_elem_of_get _ _ _ Hnd) in E2. congruence.
Qed.

End DictMore.

Lemma registry_wf_empty : registry_wf empty_registry.
Proof. repeat split; simpl; constructor. Qed.

Lemma register_wf cmd self :
  registry_wf self -> registry_wf (fst (register cmd self)).
Proof.
  intros (Hk & Hn & Hm). unfold register.
  destruct (PyDict.get (name cmd) (_commands self)) eqn:E; [done|].
  simpl. rewrite dict_set_fresh by done. repeat split; simpl; [| |done].
  - unfold PyDict.keys. rewrite map_app. simpl. apply NoDup_app.
    split; [done|]. split; [|apply NoDup_singleton].
    intros x Hx ->%list_elem_of_singleton.
    by apply dict_get_None_keys in E.
  - apply Forall_app. split; [done|]. by constructor.
Qed.

Section RegistryFacts.
Variable heap : Heap.

Lemma register_model_wf model self :
  registry_wf self -> registry_wf (register_model heap model self).
Proof.
  intros (Hk & Hn & Hm). unfold register_model.
  destruct (heap !! model) as [cls|]; [|done].
  destruct (PyDict.mem _ _); [done|].
  repeat split; simpl; [done..|]. by apply dict_keys_set_NoDup.
Qed.

(** Whatever the fuel, a call that returns has only recorded more models. *)
Lemma collect_extends fuel type_hint self self' :
  collect_models_from_type heap fuel type_hint self = Some self' ->
  extends self self'.
Proof.
  intros Hrun.
  destruct (collect_enough heap (S (collect_bound heap type_hint self))
              type_hint self) as (r & Hr & Hext); [lia|].
  by rewrite (collect_agree heap _ _ _ _ _ _ Hrun Hr).
Qed.

Lemma command_param_extends fuel hints p st st' :
  command_param heap fuel hints p st = Some st' ->
  extends (ds_registry st) (ds_registry st').
Proof.
  unfold command_param. destruct (String.eqb (param_name p) "channel").
  - destruct (truthy_hint _).
    + destruct (get_args _) as [|arg0 rest].
      * intros [= <-]. apply extends_refl.
      * destruct (collect_models_from_type _ _ _ _) as [reg|] eqn:E; [|done].
        intros [= <-]. simpl. by eapply collect_extends.
    + intros [= <-]. apply extends_refl.
  - destruct (collect_models_from_type _ _ _ _) as [reg|] eqn:E; [|done].
    intros [= <-]. simpl. by eapply collect_extends.
Qed.

Lemma command_params_extends fuel hints sig st st' :
  for_each (command_param heap fuel hints) sig st = Some st' ->
  extends (ds_registry st) (ds_registry st').
Proof.
  revert st. induction sig as [|p sig IH]; intros st; simpl.
  - intros [= <-]. apply extends_refl.
  - destruct (command_param heap fuel hints p st) as [st1|] eqn:E; [|done].
    intros Hrest. eapply extends_trans; [by eapply command_param_extends|].
    by apply IH.
Qed.

(** The decorator, unfolded: the models are collected first, then the
    command is registered. *)
Lemma command_unfold fuel fn custom_name self out :
  command heap fuel fn custom_name self = Some out ->
  exists st reg,
    for_each (command_param heap fuel (default [] (fn_hints fn)))
      (fn_signature fn) (mkDecoratorState [] false self) = Some st
    /\ extends self reg
    /\ out = register
               {| name := command_name fn custom_name;
                  func := fn;
                  params := ds_params st;
                  return_type :=
                    default TNone (PyDict.get "return" (default [] (fn_hints fn)));
                  is_async := fn_coroutine fn;
                  docstring := fn_doc fn;
                  module := fn_module fn;
                  has_channel := ds_has_channel st |} reg.
Proof.
  unfold command. fold (command_name fn custom_name).
  destruct (for_each _ _ _) as [st|] eqn:Hloop; [|done].
  destruct (collect_models_from_type _ _ _ _) as [reg|] eqn:Hret; [|done].
  intros [= <-]. exists st, reg. split; [done|]. split; [|done].
  eapply extends_trans; [|by eapply collect_extends].
  by apply command_params_extends in Hloop.
Qed.

Lemma extends_wf self reg : registry_wf self -> extends self reg -> registry_wf reg.
Proof.
  intros (Hk & Hn & Hm) (_ & Hc & Hnd). unfold registry_wf. rewrite Hc. auto.
Qed.

Lemma command_params_declared fuel hints sig st st' :
  for_each (command_param heap fuel hints) sig st = Some st' ->
  NoDup (map param_name sig) ->
  (forall p, p ∈ sig -> param_name p ∉ PyDict.keys (ds_params st)) ->
  ds_params st' = ds_params st ++ declared_params hints sig.
Proof.
  unfold declared_params. revert st.
  induction sig as [|p sig IH]; intros st; simpl.
  - intros [= <-] _ _. by rewrite app_nil_r.
  - destruct (command_param heap fuel hints p st) as [st1|] eqn:E; [|done].
    intros Hrest [Hp Hnd]%NoDup_cons Hfresh.
    unfold command_param in E.
    destruct (String.eqb (param_name p) "channel") eqn:Hch; simpl.
    + assert (ds_params st1 = ds_params st) as Hsame.
      { destruct (if truthy_hint _ then _ else _); [|done]. by injection E as <-. }
      rewrite (IH st1 Hrest Hnd), Hsame; [done|].
      intros q Hq. rewrite Hsame. apply Hfresh. by right.
    + destruct (collect_models_from_type _ _ _ _); [|done].
      injection E as <-. simpl in *.
      assert (PyDict.get (param_name p) (ds_params st) = None) as Hnone.
      { apply dict_get_None_keys, Hfresh. by left. }
      rewrite (IH _ Hrest Hnd); simpl.
      * rewrite dict_set_fresh by done. by rewrite <- app_assoc.
      * intros q Hq. rewrite dict_set_fresh by done.
        unfold PyDict.keys. rewrite map_app, elem_of_app. simpl.
        intros [Hin|Heq%list_elem_of_singleton].
        -- by apply (Hfresh q); [right|].
        -- apply Hp. rewrite <- Heq. apply list_elem_of_fmap. by exists q.
Qed.

End RegistryFacts.

(** X1: a successful [register] appends the command under its name;
    [get_command] then finds it, every other name is looked up as before,
    and the models are untouched. *)
Theorem X1_register_then_get_command
  (cmd : CommandInfo) (self self' : CommandRegistry) (other : string) :
  register cmd self = (self', Ok tt) ->
  other <> name cmd ->
  get_command (name cmd) self' = Some cmd
  /\ get_command other self' = get_command other self
  /\ get_all_commands self' = get_all_commands self ++ [(name cmd, cmd)]
  /\ get_all_models self' = get_all_models self.
Proof.
  unfold register, get_command, get_all_commands, get_all_models.
  destruct (PyDict.get (name cmd) (_commands self)) eqn:E; [done|].
  intros [= <-] Hother. simpl. split; [apply dict_get_set_eq|].
  split; [by apply dict_get_set_ne|]. split; [by apply dict_set_fresh | done].
Qed.

Lemma X1_register_then_get_command_witness :
  get_command "a" (fst (register (noop_command "a" "m1") empty_registry))
  = Some (noop_command "a" "m1")
  /\ get_command "b" (fst (register (noop_command "a" "m1") empty_registry))
     = get_command "b" empty_registry
  /\ get_all_commands (fst (register (noop_command "a" "m1") empty_registry))
     = get_all_commands empty_registry ++ [("a", noop_command "a" "m1")]
  /\ get_all_models (fst (register (noop_command "a" "m1") empty_registry))
     = get_all_models empty_registry.
Proof.
  apply (X1_register_then_get_command (noop_command "a" "m1") empty_registry
           _ "b"); [reflexivity | discriminate].
Defined.

(** X2: the registry keeps its shape: from a registry where every command
    sits under its own name and no key is repeated, [register],
    [register_model], [reset] and the [command] decorator (whether it
    returns or raises) lead to such a registry again. *)
Theorem X2_registry_shape_is_kept
  (heap : Heap) (fuel : nat) (fn : Function) (custom_name : option string)
  (cmd : CommandInfo) (model : ClassId) (self self' : CommandRegistry)
  (r : Result unit) :
  registry_wf self ->
  command heap fuel fn custom_name self = Some (self', r) ->
  registry_wf (fst (register cmd self))
  /\ registry_wf (register_model heap model self)
  /\ registry_wf (reset self)
  /\ registry_wf self'.
Proof.
  intros Hwf Hcmd. split; [by apply register_wf|].
  split; [by apply register_model_wf|].
  split; [apply registry_wf_empty|].
  apply command_unfold in Hcmd as (st & reg & _ & Hext & Hout).
  pose proof (extends_wf _ _ Hwf Hext) as Hreg.
  apply (register_wf
           {| name := command_name fn custom_name; func := fn;
              params := ds_params st;
              return_type :=
                default TNone (PyDict.get "return" (default [] (fn_hints fn)));
              is_async := fn_coroutine fn; docstring := fn_doc fn;
              module := fn_module fn; has_channel := ds_has_channel st |})
    in Hreg.
  by rewrite <- Hout in Hreg.
Qed.

Lemma X2_registry_shape_is_kept_witness :
  registry_wf (fst (register (noop_command "a" "m1") empty_registry))
  /\ registry_wf (register_model points_heap 0 empty_registry)
  /\ registry_wf (reset empty_registry)
  /\ registry_wf points_registry.
Proof.
  apply (X2_registry_shape_is_kept points_heap 5 get_points_function None
           (noop_command "a" "m1") 0 empty_registry points_registry (Ok tt)).
  - apply registry_wf_empty.
  - reflexivity.
Defined.

Section DecoratorReturns.
Variable heap : Heap.

Lemma hint_depth_get (hints : PyDict.t TypeHint) k t :
  PyDict.get k hints = Some t ->
  hint_depth t <= max_list (map hint_depth (PyDict.values hints)).
Proof.
  intros Hget. apply max_list_le, list_elem_of_fmap. exists t.
  split; [done|]. apply dict_get_elem_of in Hget.
  apply list_elem_of_fmap. by exists (k, t).
Qed.

Lemma get_args_depth t arg0 rest :
  get_args t = arg0 :: rest -> hint_depth arg0 < hint_depth t.
Proof.
  unfold get_args.
  destruct t; simpl; try done; intros ->; apply arg_depth_lt; by left.
Qed.

Lemma command_param_enough fuel hints p st self :
  max_list (map hint_depth (PyDict.values hints))
  + unvisited heap self * S (heap_depth heap) < fuel ->
  extends self (ds_registry st) ->
  exists st',
    command_param heap fuel hints p st = Some st'
    /\ extends self (ds_registry st').
Proof.
  intros Hfuel Hext.
  pose proof (extends_unvisited heap _ _ Hext) as Hun.
  assert (unvisited heap (ds_registry st) * S (heap_depth heap)
          <= unvisited heap self * S (heap_depth heap)) as Hmul
    by (by apply Nat.mul_le_mono_r).
  assert (forall t,
    hint_depth t <= max_list (map hint_depth (PyDict.values hints)) ->
    exists reg,
      collect_models_from_type heap fuel t (ds_registry st) = Some reg
      /\ extends self reg) as Hcollect.
  { intros t Ht.
    destruct (collect_enough heap fuel t (ds_registry st))
      as (reg & Hreg & Hext'); [unfold collect_bound; lia|].
    exists reg. split; [done|]. by eapply extends_trans. }
  unfold command_param. destruct (String.eqb (param_name p) "channel").
  - destruct (PyDict.get "channel" hints) as [t|] eqn:Hget;
      [|eexists; split; [reflexivity | done]].
    destruct (truthy_hint (Some t)); [|eexists; split; [reflexivity | done]].
    change (default TNone (Some t)) with t.
    destruct (get_args t) as [|arg0 rest] eqn:Hargs;
      [eexists; split; [reflexivity | done]|].
    destruct (Hcollect arg0) as (reg & -> & Hreg).
    { apply get_args_depth in Hargs. apply hint_depth_get in Hget. lia. }
    eexists; split; [reflexivity | done].
  - destruct (Hcollect (default TAny (PyDict.get (param_name p) hints)))
      as (reg & -> & Hreg).
    { destruct (PyDict.get (param_name p) hints) as [t|] eqn:Hget; simpl;
        [by eapply hint_depth_get | lia]. }
    eexists; split; [reflexivity | done].
Qed.

(** Enough fuel: any fuel above [decorator_bound] lets the decorator
    finish, returning or raising. *)
Lemma command_enough fuel fn custom_name self :
  decorator_bound heap fn self < fuel ->
  exists out, command heap fuel fn custom_name self = Some out.
Proof.
  unfold decorator_bound. intros Hfuel. unfold command.
  destruct (for_each_invariant
              (command_param heap fuel (default [] (fn_hints fn)))
              (fun st => extends self (ds_registry st))
              (fn_signature fn) (mkDecoratorState [] false self))
    as (st & -> & Hext); [apply extends_refl | |].
  { intros p st _ Hst. by apply command_param_enough. }
  destruct (collect_enough heap fuel
              (default TNone
                 (PyDict.get "return" (default [] (fn_hints fn))))
              (ds_registry st)) as (reg & -> & _); [|by eexists].
  unfold collect_bound.
  pose proof (extends_unvisited heap _ _ Hext) as Hun.
  assert (unvisited heap (ds_registry st) * S (heap_depth heap)
          <= unvisited heap self * S (heap_depth heap))
    by (by apply Nat.mul_le_mono_r).
  destruct (PyDict.get "return" (default [] (fn_hints fn))) as [t|] eqn:Hget;
    simpl; [|lia].
  apply hint_depth_get in Hget. lia.
Qed.

End DecoratorReturns.

(** X3: when the name the decorator would register is taken, the decorator
    raises the name-conflict [ValueError] citing the module of the existing
    command and the module of the function; the commands are as before,
    but the models of the rejected function's hints were collected
    already: the model dictionary may have grown and has lost nothing. *)
Theorem X3_decorator_conflict_keeps_commands
  (heap : Heap) (fuel : nat) (fn : Function) (custom_name : option string)
  (self : CommandRegistry) (existing : CommandInfo) :
  get_command (command_name fn custom_name) self = Some existing ->
  decorator_bound heap fn self < fuel ->
  exists self',
    command heap fuel fn custom_name self
    = Some (self',
            Raise (mkExn KValueError
                     (name_conflict_message (command_name fn custom_name)
                        (module existing) (fn_module fn))))
    /\ get_all_commands self' = get_all_commands self
    /\ PyDict.keys (get_all_models self) ⊆ PyDict.keys (get_all_models self').
Proof.
  intros Htaken Hfuel.
  destruct (command_enough heap fuel fn custom_name self Hfuel) as [out Hcmd].
  pose proof Hcmd as Hout.
  apply command_unfold in Hout as (st & reg & _ & (Hsub & Hc & _) & ->).
  unfold get_command in Htaken. rewrite <- Hc in Htaken.
  rewrite (register_taken _ existing reg) in Hcmd by done.
  exists reg. by rewrite Hcmd.
Qed.

Lemma X3_decorator_conflict_keeps_commands_witness :
  exists self',
    command points_heap 5 get_points_function None taken_registry
    = Some (self',
            Raise (mkExn KValueError
                     (name_conflict_message
                        (command_name get_points_function None)
                        (module (noop_command "get_points" "old"))
                        (fn_module get_points_function))))
    /\ get_all_commands self' = get_all_commands taken_registry
    /\ PyDict.keys (get_all_models taken_registry)
       ⊆ PyDict.keys (get_all_models self').
Proof.
  apply (X3_decorator_conflict_keeps_commands points_heap 5
           get_points_function None taken_registry
           (noop_command "get_points" "old")).
  - reflexivity.
  - vm_compute. lia.
Defined.

(** X4: for a function whose parameter names are distinct, the decorator
    records the parameters in signature order, all but [channel], each with
    its hint or [Any] when it has none, and records the [return] hint or
    [None]. *)
Theorem X4_decorator_records_signature
  (heap : Heap) (fuel : nat) (fn : Function) (custom_name : option string)
  (self self' : CommandRegistry) :
  NoDup (map param_name (fn_signature fn)) ->
  command heap fuel fn custom_name self = Some (self', Ok tt) ->
  exists info,
    get_command (command_name fn custom_name) self' = Some info
    /\ params info
       = declared_params (default [] (fn_hints fn)) (fn_signature fn)
    /\ return_type info
       = default TNone (PyDict.get "return" (default [] (fn_hints fn)))
    /\ module info = fn_module fn
    /\ is_async info = fn_coroutine fn.
Proof.
  intros Hnd Hcmd. apply command_unfold in Hcmd as (st & reg & Hloop & _ & Hout).
  apply command_params_declared in Hloop; [|done|by intros ? _ ?%elem_of_nil].
  simpl in Hloop. unfold register in Hout. simpl in Hout.
  destruct (PyDict.get (command_name fn custom_name) (_commands reg)); [done|].
  injection Hout as ->. eexists. unfold get_command. simpl.
  split; [apply dict_get_set_eq|]. by rewrite Hloop.
Qed.

Lemma X4_decorator_records_signature_witness :
  exists info,
    get_command (command_name tick_function None) tick_registry = Some info
    /\ params info
       = declared_params (default [] (fn_hints tick_function))
           (fn_signature tick_function)
    /\ return_type info
       = default TNone (PyDict.get "return" (default [] (fn_hints tick_function)))
    /\ module info = fn_module tick_function
    /\ is_async info = fn_coroutine tick_function.
Proof.
  apply (X4_decorator_records_signature [] 5 tick_function None empty_registry).
  - simpl. apply NoDup_cons. split; [|apply NoDup_singleton].
    intros [=]%list_elem_of_singleton.
  - reflexivity.
Defined.

(** ** What the decorator registers *)

Lemma for_each_chain {A S : Type} (f : A -> S -> option S)
  (R : S -> S -> Prop) (Q : A -> S -> Prop) (xs : list A) (s s' : S) :
  (forall s, R s s) ->
  (forall a b c, R a b -> R b c -> R a c) ->
  (forall x a b, Q x a -> R a b -> Q x b) ->
  (forall x a b, x ∈ xs -> f x a = Some b -> R a b /\ Q x b) ->
  for_each f xs s = Some s' ->
  R s s' /\ forall x, x ∈ xs -> Q x s'.
Proof.
  intros Hrefl Htrans Hmono. revert s.
  induction xs as [|x xs IH]; intros s Hstep; simpl.
  - intros [= <-]. split; [done|]. by intros ? ?%elem_of_nil.
  - destruct (f x s) as [s1|] eqn:E; [|done]. intros Hrest.
    destruct (Hstep x s s1) as [HR HQ]; [by left | done |].
    destruct (IH s1) as [HR' HQ']; [|done|].
    { intros y a b Hy. apply Hstep. by right. }
    split; [by eapply Htrans|].
    intros y [->|Hy]%elem_of_cons; [by eapply Hmono | by apply HQ'].
Qed.

Section Coverage.
Variable heap : Heap.

Lemma model_keys_get self k :
  k ∈ model_keys self <-> is_Some (PyDict.get k (_models self)).
Proof.
  unfold model_keys. rewrite elem_of_list_to_set.
  destruct (PyDict.get k (_models self)) eqn:E.
  - split; [by eexists|]. intros _. apply dict_mem_keys.
    unfold PyDict.mem. by rewrite E.
  - split; [|by intros [? ?]]. intros Hin. by apply dict_get_None_keys in E.
Qed.

Lemma grows_refl self : grows heap self self.
Proof. by repeat split. Qed.

Lemma grows_trans a b c : grows heap a b -> grows heap b c -> grows heap a c.
Proof.
  intros (H1 & H2 & H3 & H4) (I1 & I2 & I3 & I4). repeat split; auto.
  congruence.
Qed.

Lemma grows_keys self s : grows heap self s -> model_keys self ⊆ model_keys s.
Proof.
  intros (_ & Hkeep & _) k. rewrite !model_keys_get. intros [c Hc].
  exists c. by apply Hkeep.
Qed.

Lemma ts_each_snd args m :
  snd (ts_each heap args m) = ⋃ (names_of heap <$> args) ∪ m.
Proof.
  revert m. induction args as [|a args IH]; intros m; simpl.
  - set_solver.
  - rewrite type_to_ts_splits. specialize (IH (names_of heap a ∪ m)).
    destruct (ts_each heap args (names_of heap a ∪ m)). simpl in *.
    rewrite IH. set_solver.
Qed.

Lemma ts_first_non_none_snd args :
  snd (ts_first_non_none heap args ∅) ⊆ ⋃ (names_of heap <$> args).
Proof.
  induction args as [|a args IH]; simpl; [set_solver|].
  destruct (is_NoneType a); [set_solver|]. unfold names_of. set_solver.
Qed.

(** A hint with arguments mentions no model beyond those of its arguments. *)
Lemma names_of_args type_hint args :
  origin_args type_hint = Some args ->
  names_of heap type_hint ⊆ ⋃ (names_of heap <$> args).
Proof.
  destruct type_hint; simpl; try done; intros [= ->]; unfold names_of.
  - rewrite type_to_ts_union. destruct (_ && _).
    + pose proof (ts_first_non_none_snd args).
      by destruct (ts_first_non_none heap args ∅).
    + pose proof (ts_each_snd args ∅) as Hsnd.
      destruct (ts_each heap args ∅). simpl in *. set_solver.
  - destruct args as [|a0 args]; simpl; [set_solver|].
    rewrite type_to_ts_splits. simpl. set_solver.
  - destruct args as [|a0 [|a1 args]]; simpl; [set_solver..|].
    rewrite !type_to_ts_splits. simpl. set_solver.
  - destruct args as [|a0 args]; [simpl; set_solver|].
    rewrite type_to_ts_tuple.
    pose proof (ts_each_snd (a0 :: args) ∅) as Hsnd.
    destruct (ts_each heap (a0 :: args) ∅). simpl in *. set_solver.
  - destruct args as [|a0 args]; simpl; [set_solver|].
    rewrite type_to_ts_splits. simpl. set_solver.
Qed.

Lemma names_of_leaf type_hint :
  origin_args type_hint = None ->
  (forall c, type_hint <> TModel c) ->
  names_of heap type_hint = ∅.
Proof. destruct type_hint; simpl; try done. intros _ H. by destruct (H c). Qed.

Lemma grows_insert self c cls :
  heap !! c = Some cls ->
  PyDict.get (cls_name cls) (_models self) = None ->
  let self1 := set_models (PyDict.set (cls_name cls) c (_models self)) self in
  _commands self1 = _commands self
  /\ (forall k c', PyDict.get k (_models self) = Some c' ->
                   PyDict.get k (_models self1) = Some c')
  /\ (models_valid heap self -> models_valid heap self1)
  /\ (forall pending, closed_but heap pending self ->
                      closed_but heap ({[cls_name cls]} ∪ pending) self1).
Proof.
  intros Hcls Hnone self1.
  assert (forall k c', PyDict.get k (_models self) = Some c' ->
                       PyDict.get k (_models self1) = Some c') as Hkeep.
  { intros k c' Hk. simpl. rewrite dict_get_set_ne; [done|]. congruence. }
  assert (forall k c', k <> cls_name cls ->
            PyDict.get k (_models self1) = Some c' ->
            PyDict.get k (_models self) = Some c') as Hback.
  { intros k c' Hne. simpl. by rewrite dict_get_set_ne. }
  split; [done|]. split; [done|]. split.
  - intros Hvalid n c'. destruct (decide (n = cls_name cls)) as [->|Hne].
    + simpl. rewrite dict_get_set_eq. intros [= <-]. by eexists.
    + intros Hn. by eapply Hvalid, Hback.
  - intros pending Hclosed n c' cls' Hn Hget Hcls'.
    assert (n <> cls_name cls) as Hne by set_solver.
    transitivity (model_keys self).
    + eapply (Hclosed n c' cls'); [set_solver | by apply Hback | done].
    + intros k. rewrite !model_keys_get. intros [x Hx]. exists x. by apply Hkeep.
Qed.

(** A call that returns has registered every model the hint mentions, and
    left the registry grown. *)
Lemma collect_covers fuel type_hint self self' :
  collect_models_from_type heap fuel type_hint self = Some self' ->
  grows heap self self' /\ names_of heap type_hint ⊆ model_keys self'.
Proof.
  revert type_hint self self'.
  induction fuel as [|fuel IH]; intros type_hint self self'; [done|].
  assert (forall (A : Type) (hint_of : A -> TypeHint) xs s s',
    for_each (fun x => collect_models_from_type heap fuel (hint_of x)) xs s
    = Some s' ->
    grows heap s s'
    /\ forall x, x ∈ xs -> names_of heap (hint_of x) ⊆ model_keys s') as Hloop.
  { intros A hint_of xs s s'.
    apply (for_each_chain _ (grows heap)
             (fun x r => names_of heap (hint_of x) ⊆ model_keys r)).
    - apply grows_refl.
    - apply grows_trans.
    - intros x a b Ha Hab. apply grows_keys in Hab. set_solver.
    - intros x a b _. apply IH. }
  assert (forall args,
    origin_args type_hint = Some args ->
    for_each (collect_models_from_type heap fuel) args self = Some self' ->
    grows heap self self' /\ names_of heap type_hint ⊆ model_keys self')
    as Hargs.
  { intros args Horigin Hrun.
    destruct (Hloop TypeHint id args self self' Hrun) as [Hg Hall].
    split; [done|]. etransitivity; [by apply names_of_args|].
    intros k (X & (a & -> & Ha)%list_elem_of_fmap & Hk)%elem_of_union_list.
    by apply (Hall a Ha). }
  destruct type_hint; simpl;
    try (intros [= <-]; split; [apply grows_refl | set_solver]);
    try (by apply Hargs).
  (* a model class *)
  unfold names_of. simpl.
  destruct (heap !! c) as [cls|] eqn:Hcls;
    [|intros [= <-]; split; [apply grows_refl | set_solver]].
  destruct (PyDict.get (cls_name cls) (_models self)) as [c0|] eqn:Hget.
  - unfold PyDict.mem. rewrite Hget. intros [= <-].
    split; [apply grows_refl|]. simpl.
    assert (cls_name cls ∈ model_keys self)
      by (apply model_keys_get; by eexists).
    set_solver.
  - unfold PyDict.mem. rewrite Hget. intros Hrun.
    destruct (grows_insert self c cls Hcls Hget) as (G1 & G2 & G3 & G4).
    destruct (Hloop FieldInfo annotation _ _ _ Hrun)
      as [(H1 & H2 & H3 & H4) Hall].
    assert (PyDict.get (cls_name cls) (_models self') = Some c) as Hrec.
    { apply H2. simpl. apply dict_get_set_eq. }
    split.
    + split; [congruence|]. split; [by auto|]. split; [by auto|].
      intros pending Hclosed n c' cls' Hn Hget' Hcls'.
      destruct (decide (n = cls_name cls)) as [->|Hne].
      * rewrite Hrec in Hget'. injection Hget' as <-.
        rewrite Hcls in Hcls'. injection Hcls' as <-.
        unfold fields_names.
        intros k (X & (field & -> & Hf)%list_elem_of_fmap & Hk)%elem_of_union_list.
        apply (Hall (snd field)); [|done].
        apply list_elem_of_fmap. by exists field.
      * eapply (H4 _ (G4 pending Hclosed) n c' cls'); [set_solver|done..].
    + simpl. assert (cls_name cls ∈ model_keys self')
        by (apply model_keys_get; by eexists).
      set_solver.
Qed.

End Coverage.

Section StubCoverage.
Variable heap : Heap.

Lemma params_fields_snd (ps : PyDict.t TypeHint) fields m :
  snd (fold_left (fun st param => param_field heap param st) ps (fields, m))
  = ⋃ ((fun param => names_of heap (snd param)) <$> ps) ∪ m.
Proof.
  revert fields m. induction ps as [|[k t] ps IH]; intros fields m.
  - simpl. set_solver.
  - cbn [fold_left fmap list_fmap union_list]. unfold param_field at 2.
    rewrite type_to_ts_splits, IH. cbn [snd]. set_solver.
Qed.

Lemma params_type_of_snd cmd m :
  snd (params_type_of heap cmd m)
  = ⋃ ((fun param => names_of heap (snd param)) <$> params cmd) ∪ m.
Proof.
  unfold params_type_of. destruct (params cmd) as [|p ps] eqn:E.
  - simpl. set_solver.
  - rewrite <- (params_fields_snd (p :: ps) [] m).
    by destruct (fold_left _ _ _).
Qed.

Lemma return_type_of_snd cmd m :
  snd (return_type_of heap cmd m)
  = (if has_channel cmd
     then match channel_payload (func cmd) with
          | Some t => names_of heap t
          | None => ∅
          end
     else names_of heap (return_type cmd)) ∪ m.
Proof.
  destruct (has_channel cmd) eqn:Hch.
  - rewrite return_type_of_channel by done.
    destruct (channel_payload (func cmd)); [|simpl; set_solver].
    by rewrite type_to_ts_splits.
  - unfold return_type_of. rewrite Hch, type_to_ts_splits.
    by destruct (_ || _).
Qed.

Lemma stub_names_eq cmd :
  stub_names heap cmd
  = (if has_channel cmd
     then match channel_payload (func cmd) with
          | Some t => names_of heap t
          | None => ∅
          end
     else names_of heap (return_type cmd))
    ∪ ⋃ ((fun param => names_of heap (snd param)) <$> params cmd).
Proof.
  unfold stub_names, _generate_command_function.
  pose proof (params_type_of_snd cmd ∅) as Hp.
  destruct (params_type_of heap cmd ∅) as [pt m1]. simpl in Hp.
  pose proof (return_type_of_snd cmd m1) as Hr.
  destruct (return_type_of heap cmd m1) as [rt m2]. simpl in *. subst.
  set_solver.
Qed.

Lemma generate_command_function_snd cmd m :
  snd (_generate_command_function heap cmd m) = stub_names heap cmd ∪ m.
Proof.
  rewrite stub_names_eq. unfold _generate_command_function.
  pose proof (params_type_of_snd cmd m) as Hp.
  destruct (params_type_of heap cmd m) as [pt m1]. simpl in Hp.
  pose proof (return_type_of_snd cmd m1) as Hr.
  destruct (return_type_of heap cmd m1) as [rt m2]. simpl in *. subst.
  set_solver.
Qed.

Lemma dict_set_elem_of {V : Type} (k k' : string) (v v' : V) (d : PyDict.t V) :
  (k, v) ∈ PyDict.set k' v' d -> (k, v) = (k', v') \/ (k, v) ∈ d.
Proof.
  induction d as [|[k0 v0] d IH]; simpl.
  - intros ?%list_elem_of_singleton. by left.
  - destruct (String.eqb_spec k' k0) as [->|Hne].
    + intros [->|Hin]%elem_of_cons; [by left | right; by right].
    + intros [->|Hin]%elem_of_cons; [right; by left|].
      destruct (IH Hin); [by left | right; by right].
Qed.

Lemma payload_of_hint (hints : PyDict.t TypeHint) t :
  PyDict.get "channel" hints = Some t ->
  PyDict.get "channel" hints ≫= (fun t => head (get_args t))
  = head (get_args t).
Proof. by intros ->. Qed.

Lemma command_param_covers fuel hints p st st' :
  command_param heap fuel hints p st = Some st' ->
  grows heap (ds_registry st) (ds_registry st')
  /\ (params_covered heap hints st -> params_covered heap hints st').
Proof.
  unfold command_param.
  destruct (String.eqb (param_name p) "channel").
  - destruct (PyDict.get "channel" hints) as [t|] eqn:Hhint.
    + destruct (truthy_hint (Some t)) eqn:Htruthy.
      * change (get_args (default TNone (Some t))) with (get_args t).
        destruct (get_args t) as [|arg0 rest] eqn:Hargs.
        -- intros [= <-]. cbn [ds_registry ds_params ds_has_channel].
           split; [apply grows_refl|].
           intros [Hp _]. split; [done|]. intros _.
           rewrite (payload_of_hint _ _ Hhint), Hargs. simpl. set_solver.
        -- destruct (collect_models_from_type heap fuel arg0 (ds_registry st))
             as [reg|] eqn:E; [|done].
           intros [= <-]. cbn [ds_registry ds_params ds_has_channel].
           apply collect_covers in E as [Hg Hnames]. split; [done|].
           intros [Hp _]. split.
           ++ intros k t' Hin. apply grows_keys in Hg.
              specialize (Hp k t' Hin). set_solver.
           ++ intros _. by rewrite (payload_of_hint _ _ Hhint), Hargs.
      * intros [= <-]. cbn [ds_registry ds_params ds_has_channel].
        split; [apply grows_refl|].
        intros [Hp _]. split; [done|]. intros _.
        rewrite (payload_of_hint _ _ Hhint).
        destruct t; try done; simpl; set_solver.
    + intros [= <-]. cbn [ds_registry ds_params ds_has_channel].
      split; [apply grows_refl|].
      intros [Hp _]. split; [done|]. intros _. rewrite Hhint. simpl.
      set_solver.
  - destruct (collect_models_from_type _ _ _ _) as [reg|] eqn:E; [|done].
    intros [= <-]. simpl. apply collect_covers in E as [Hg Hnames].
    split; [done|]. intros [Hp Hc]. pose proof (grows_keys _ _ _ Hg) as Hsub.
    split.
    + intros k t [[= -> ->]|Hin]%dict_set_elem_of; [done|].
      specialize (Hp k t Hin). set_solver.
    + intros Hch. specialize (Hc Hch). set_solver.
Qed.

Lemma command_params_cover fuel hints sig st st' :
  for_each (command_param heap fuel hints) sig st = Some st' ->
  grows heap (ds_registry st) (ds_registry st')
  /\ (params_covered heap hints st -> params_covered heap hints st').
Proof.
  revert st. induction sig as [|p sig IH]; intros st; simpl.
  - intros [= <-]. split; [apply grows_refl | done].
  - destruct (command_param heap fuel hints p st) as [st1|] eqn:E; [|done].
    intros Hrest. apply command_param_covers in E as [G1 C1].
    apply IH in Hrest as [G2 C2]. split; [by eapply grows_trans | auto].
Qed.

(** The decorator, unfolded once more: the registry it hands to [register]
    has grown from the one it was given and, when the generator reads the
    hints the decorator read, holds the models of the stub. *)
Lemma command_covers fuel fn custom_name self out :
  hints_stable fn ->
  command heap fuel fn custom_name self = Some out ->
  exists info reg,
    out = register info reg
    /\ name info = command_name fn custom_name
    /\ grows heap self reg
    /\ stub_names heap info ⊆ model_keys reg.
Proof.
  intros Hstable. unfold command. fold (command_name fn custom_name).
  destruct (for_each _ _ _) as [st|] eqn:Hloop; [|done].
  destruct (collect_models_from_type _ _ _ _) as [reg|] eqn:Hret; [|done].
  intros [= <-]. eexists _, reg. split; [reflexivity|]. split; [done|].
  pose proof (command_params_channel _ _ _ _ _ _ Hloop) as [_ Hhas].
  apply command_params_cover in Hloop as [G1 C1].
  apply collect_covers in Hret as [G2 Hnames].
  split; [by eapply grows_trans|].
  destruct C1 as [Hp Hc].
  { split; [by intros ? ? ?%elem_of_nil | done]. }
  pose proof (grows_keys _ _ _ G2) as Hsub.
  rewrite stub_names_eq. cbn [has_channel params func return_type].
  apply union_least.
  - destruct (ds_has_channel st) eqn:Hch; [|done].
    specialize (Hc eq_refl). unfold channel_payload.
    rewrite Hstable; [set_solver | by symmetry].
  - intros k (X & ([k' t] & -> & Hin)%list_elem_of_fmap & Hk)%elem_of_union_list.
    specialize (Hp k' t Hin). set_solver.
Qed.

Lemma grows_wf self reg :
  registry_wf self -> grows heap self reg ->
  NoDup (PyDict.keys (_models reg)) -> registry_wf reg.
Proof.
  intros (Hk & Hn & _) (Hc & _) Hnd. unfold registry_wf. by rewrite Hc.
Qed.

Lemma register_complete info reg :
  registry_complete heap reg ->
  stub_names heap info ⊆ model_keys reg ->
  registry_complete heap (fst (register info reg)).
Proof.
  intros (Hwf & Hclosed & Hvalid & Hcov) Hstub.
  split; [by apply register_wf|].
  unfold register.
  destruct (PyDict.get (name info) (_commands reg)) eqn:E; [done|].
  simpl. split; [done|]. split; [done|].
  intros k cmd. rewrite dict_set_fresh by done.
  intros [Hin|[= -> ->]%list_elem_of_singleton]%elem_of_app; [|done].
  by apply (Hcov k cmd).
Qed.

End StubCoverage.



(** Without that agreement the stub can mention a model the decorator never
    saw: for [feed_function] the decorator's [get_type_hints] raises, so no
    model is collected, while the generator's call resolves [Item]. *)
Example late_hints_escape_the_decorator :
  command item_heap 5 feed_function None empty_registry
  = Some (feed_registry, Ok tt)
  /\ get_all_models feed_registry = []
  /\ (exists info,
        get_command "feed" feed_registry = Some info
        /\ snd (_generate_command_function item_heap info ∅) = {["Item"]}).
Proof.
  split; [reflexivity|]. split; [reflexivity|].
  eexists. split; [reflexivity|].
  rewrite generate_command_function_snd, stub_names_eq. set_solver.
Qed.

Lemma registry_complete_empty heap : registry_complete heap empty_registry.
Proof.
  split; [apply registry_wf_empty|]. split; [by intros ? ? ? _ ?|].
  split; [by intros ? ? ?|]. by intros ? ? ?%elem_of_nil.
Qed.

Lemma command_complete heap fuel fn custom_name self self' r :
  registry_complete heap self ->
  hints_stable fn ->
  command heap fuel fn custom_name self = Some (self', r) ->
  registry_complete heap self'.
Proof.
  intros Hcomplete Hstable Hcmd.
  pose proof Hcmd as Hext.
  apply command_unfold in Hext as (st0 & reg0 & _ & (_ & _ & Hnd) & Hout0).
  apply command_covers in Hcmd as (info & reg & Hout & _ & Hg & Hstub);
    [|done].
  destruct Hcomplete as (Hwf & Hclosed & Hvalid & Hcov).
  assert (_models reg0 = _models reg) as Hsame.
  { rewrite Hout in Hout0. apply (f_equal (fun out => _models (fst out))) in Hout0.
    unfold register in Hout0. by repeat destruct (PyDict.get _ _). }
  clear Hout0.
  assert (fst (register info reg) = self') as <- by (by rewrite <- Hout).
  apply register_complete; [|done].
  pose proof Hg as (Hc & Hkeep & Hv & Hcl).
  split; [|split; [by apply Hcl|split; [by apply Hv|]]].
  - eapply grows_wf; [done..|]. rewrite <- Hsame. apply Hnd, Hwf.
  - intros k cmd Hin. rewrite Hc in Hin. specialize (Hcov k cmd Hin).
    apply grows_keys in Hg. set_solver.
Qed.

(** X6: a registry filled through the decorator alone is complete, as long
    as [get_type_hints] gives the generator the hints it gave the
    decorator: starting from a complete registry (the empty one is), each
    application of the decorator to such a function, whether it returns or
    raises, leaves a registry where the models of every stub and of every
    registered class are registered. *)
Theorem X6_decorator_keeps_registry_complete
  (heap : Heap) (fuel : nat) (fn : Function) (custom_name : option string)
  (self self' : CommandRegistry) (r : Result unit) :
  registry_complete heap self ->
  hints_stable fn ->
  command heap fuel fn custom_name self = Some (self', r) ->
  registry_complete heap empty_registry /\ registry_complete heap self'.
Proof.
  intros Hcomplete Hstable Hcmd. split; [apply registry_complete_empty|].
  by eapply command_complete.
Qed.

Lemma X6_decorator_keeps_registry_complete_witness :
  registry_complete points_heap empty_registry
  /\ registry_complete points_heap points_registry.
Proof.
  apply (X6_decorator_keeps_registry_complete points_heap 5 get_points_function
           None empty_registry points_registry (Ok tt)
           (registry_complete_empty points_heap)).
  - intros _. reflexivity.
  - reflexivity.
Defined.

(** ** One declaration per model *)

Section InterfaceLoop.
Variable heap : Heap.

Lemma fold_add_names (names : list string) (m : gset string) :
  fold_left (fun m model_name => {[model_name]} ∪ m) names m
  = list_to_set names ∪ m.
Proof.
  revert m. induction names as [|n names IH]; intros m; simpl; [set_solver|].
  rewrite IH. set_solver.
Qed.

Lemma command_functions_snd (cmds : list CommandInfo) fns m :
  snd (fold_left
         (fun '(command_functions, m) cmd =>
            let '(fn_code, m') := _generate_command_function heap cmd m in
            (command_functions ++ [fn_code], m'))
         cmds (fns, m))
  = ⋃ (stub_names heap <$> cmds) ∪ m.
Proof.
  revert fns m. induction cmds as [|cmd cmds IH]; intros fns m; simpl.
  - set_solver.
  - pose proof (generate_command_function_snd heap cmd m) as Hsnd.
    destruct (_generate_command_function heap cmd m) as [code m'].
    simpl in Hsnd. subst m'. rewrite IH. set_solver.
Qed.

Lemma generate_command_functions_snd (commands : PyDict.t CommandInfo) :
  snd (generate_command_functions heap commands)
  = ⋃ (stub_names heap <$> PyDict.values commands).
Proof.
  unfold generate_command_functions. rewrite command_functions_snd.
  apply set_eq. intros x. rewrite elem_of_union, !elem_of_union_list.
  split.
  - intros [(X & (cmd & -> & Hin)%list_elem_of_fmap & Hx)|?]; [|set_solver].
    exists (stub_names heap cmd). split; [|done].
    apply list_elem_of_fmap. exists cmd. split; [done|].
    by rewrite (sorted_Permutation name) in Hin.
  - intros (X & (cmd & -> & Hin)%list_elem_of_fmap & Hx). left.
    exists (stub_names heap cmd). split; [|done].
    apply list_elem_of_fmap. exists cmd. split; [done|].
    by rewrite (sorted_Permutation name).
Qed.

Lemma interface_step_count models model_name st :
  model_name ∉ generated_models st ->
  length (model_interfaces st)
  = size (filter (declarable heap models) (generated_models st)) ->
  length (model_interfaces (interface_step heap models model_name st))
  = size (filter (declarable heap models)
            (generated_models (interface_step heap models model_name st))).
Proof.
  intros Hfresh Hcount.
  destruct (interface_step_spec heap models model_name st) as (-> & _ & _).
  rewrite (filter_union_L (C:=gset string)); [|apply _].
  rewrite size_union.
  2: { intros x [? ?]%elem_of_filter [? ?]%elem_of_filter. set_solver. }
  unfold interface_step.
  destruct (PyDict.get model_name models ≫= (heap !!.)) as [model|] eqn:E.
  - destruct (_generate_model_interface heap model (models_to_generate st)).
    simpl. rewrite length_app, Hcount. simpl.
    assert (declarable heap models model_name) as Hdecl
      by (unfold declarable; rewrite E; by eexists).
    rewrite (filter_singleton_True_L (C:=gset string) _ _ Hdecl).
    rewrite size_singleton. lia.
  - simpl. rewrite Hcount.
    assert (~ declarable heap models model_name) as Hdecl
      by (unfold declarable; rewrite E; by intros [? ?]).
    rewrite (filter_singleton_False_L (C:=gset string) _ _ Hdecl).
    rewrite size_empty. lia.
Qed.

Lemma interface_steps_count models names st :
  NoDup names ->
  (forall n, n ∈ names -> n ∉ generated_models st) ->
  length (model_interfaces st)
  = size (filter (declarable heap models) (generated_models st)) ->
  let st' := fold_left (fun st model_name => interface_step heap models model_name st)
               names st in
  length (model_interfaces st')
  = size (filter (declarable heap models) (generated_models st')).
Proof.
  revert st. induction names as [|n names IH]; intros st Hnd Hfresh Hcount;
    simpl; [done|].
  apply NoDup_cons in Hnd as [Hn Hnd].
  apply IH; [done| |].
  - intros x Hx.
    destruct (interface_step_spec heap models n st) as (-> & _ & _).
    assert (x <> n) by (by intros ->).
    specialize (Hfresh x). set_solver.
  - apply interface_step_count; [|done]. apply Hfresh. by left.
Qed.

(** What the interface loop maintains, and the state it ends in. *)
Lemma generate_interfaces_final models bound fuel st st' :
  registered_names heap models ⊆ bound ->
  models_to_generate st ⊆ bound ->
  generated_models st ⊆ models_to_generate st ->
  length (model_interfaces st)
  = size (filter (declarable heap models) (generated_models st)) ->
  generate_interfaces heap fuel models st = Some st' ->
  models_to_generate st' ⊆ bound
  /\ models_to_generate st ⊆ models_to_generate st'
  /\ generated_models st' = models_to_generate st'
  /\ length (model_interfaces st')
     = size (filter (declarable heap models) (generated_models st')).
Proof.
  intros Hreg. revert st.
  induction fuel as [|fuel IH]; intros st Hsub Hgen Hcount; [done|].
  simpl. case_decide as Hbatch.
  - intros [= <-]. split; [done|]. split; [done|]. split; [|done].
    apply set_eq. intros x. split; [by apply Hgen|]. intros Hx.
    destruct (decide (x ∈ generated_models st)); [done|].
    assert (x ∈ models_to_generate st ∖ generated_models st) as Hin
      by set_solver.
    rewrite Hbatch in Hin. set_solver.
  - set (names := sorted id (elements (models_to_generate st ∖ generated_models st))).
    assert (forall x, x ∈ names <-> x ∈ models_to_generate st ∖ generated_models st)
      as Hnames.
    { intros x. unfold names. by rewrite (sorted_Permutation id), elem_of_elements. }
    assert (NoDup names) as Hnd.
    { unfold names. rewrite (sorted_Permutation id). apply NoDup_elements. }
    destruct (interface_steps_spec heap models names st) as (H1 & H2 & H3).
    pose proof (interface_steps_count models names st Hnd) as Hcount'.
    intros Hrun. apply IH in Hrun as (I1 & I2 & I3 & I4).
    + split; [done|]. split; [set_solver | done].
    + set_solver.
    + rewrite H1. intros x [Hx|Hx]%elem_of_union.
      * apply elem_of_list_to_set, Hnames in Hx. set_solver.
      * set_solver.
    + apply Hcount'; [|done]. intros n Hn. apply Hnames in Hn. set_solver.
Qed.

Lemma generate_unfold fuel now registry :
  generate heap fuel now registry
  = (fun st =>
       {| internal_ts := _generate_internal_module;
          client_ts :=
            PyStr.join PyStr.nl
              (header now
               :: body_sections (model_interfaces st)
                    (fst (generate_command_functions heap
                            (get_all_commands registry)))) |})
    <$> interface_state heap fuel registry.
Proof.
  unfold generate, interface_state, initial_worklist.
  destruct (generate_command_functions heap (get_all_commands registry)).
  simpl. by destruct (generate_interfaces _ _ _ _).
Qed.

Lemma closed_registered_names self :
  NoDup (PyDict.keys (_models self)) ->
  closed_but heap ∅ self ->
  registered_names heap (_models self) ⊆ model_keys self.
Proof.
  intros Hnd Hclosed x. unfold registered_names.
  intros (X & ([n c] & -> & Hin)%list_elem_of_fmap & Hx)%elem_of_union_list.
  simpl in Hx. destruct (heap !! c) as [cls|] eqn:Hcls; [|set_solver].
  apply (dict_elem_of_get _ _ _ Hnd) in Hin.
  by apply (Hclosed n c cls); [set_solver|..].
Qed.

End InterfaceLoop.

(** X7: in [generate] every name of the worklist, initial or met on the
    way, is handled exactly once: when the file is written no name is
    pending, and the number of interface declarations in it is the number
    of handled names that are registered for a class. *)
Theorem X7_each_name_is_handled_once
  (heap : Heap) (fuel : nat) (now : string) (registry : CommandRegistry)
  (files : GeneratedFiles) :
  generate heap fuel now registry = Some files ->
  exists st,
    interface_state heap fuel registry = Some st
    /\ client_ts files
       = PyStr.join PyStr.nl
           (header now
            :: body_sections (model_interfaces st)
                 (fst (generate_command_functions heap
                         (get_all_commands registry))))
    /\ initial_worklist heap registry ⊆ generated_models st
    /\ models_to_generate st = generated_models st
    /\ length (model_interfaces st)
       = size (filter (declarable heap (get_all_models registry))
                 (generated_models st)).
Proof.
  rewrite generate_unfold.
  destruct (interface_state heap fuel registry) as [st|] eqn:Hst; [|done].
  intros [= <-]. exists st. split; [done|]. split; [done|].
  unfold interface_state in Hst.
  apply (generate_interfaces_final heap _
           (registered_names heap (get_all_models registry)
            ∪ initial_worklist heap registry)) in Hst
    as (_ & H2 & H3 & H4); simpl in *.
  1: { split; [by rewrite H3|]. split; [done|]. exact H4. }
  all: first [ set_solver
             | by rewrite (filter_empty_L (C:=gset string)), size_empty ].
Qed.

Lemma X7_each_name_is_handled_once_witness :
  exists st,
    interface_state ghost_heap 2 ghost_registry = Some st
    /\ client_ts (ghost_files 2 "T")
       = PyStr.join PyStr.nl
           (header "T"
            :: body_sections (model_interfaces st)
                 (fst (generate_command_functions ghost_heap
                         (get_all_commands ghost_registry))))
    /\ initial_worklist ghost_heap ghost_registry ⊆ generated_models st
    /\ models_to_generate st = generated_models st
    /\ length (model_interfaces st)
       = size (filter (declarable ghost_heap (get_all_models ghost_registry))
                 (generated_models st)).
Proof.
  apply (X7_each_name_is_handled_once ghost_heap 2 "T" ghost_registry).
  reflexivity.
Defined.

(** X8: for a complete registry, as the decorator builds it, [generate]
    skips nothing: the names it handles are exactly the registered model
    names, and the file holds one interface declaration per registered
    model. *)
Theorem X8_complete_registry_declares_every_model
  (heap : Heap) (fuel : nat) (now : string) (registry : CommandRegistry)
  (files : GeneratedFiles) :
  registry_complete heap registry ->
  generate heap fuel now registry = Some files ->
  exists st,
    interface_state heap fuel registry = Some st
    /\ client_ts files
       = PyStr.join PyStr.nl
           (header now
            :: body_sections (model_interfaces st)
                 (fst (generate_command_functions heap
                         (get_all_commands registry))))
    /\ generated_models st = model_keys registry
    /\ length (model_interfaces st) = length (get_all_models registry).
Proof.
  intros ((_ & _ & Hnd) & Hclosed & Hvalid & Hcov).
  rewrite generate_unfold.
  destruct (interface_state heap fuel registry) as [st|] eqn:Hst; [|done].
  intros [= <-]. exists st. split; [done|]. split; [done|].
  assert (initial_worklist heap registry = model_keys registry) as Hinit.
  { unfold initial_worklist. rewrite fold_add_names.
    rewrite generate_command_functions_snd. unfold model_keys, get_all_models.
    apply set_eq. intros x. rewrite elem_of_union. split; [|by left].
    intros [?|(X & (cmd & -> & Hin)%list_elem_of_fmap & Hx)%elem_of_union_list];
      [done|].
    apply list_elem_of_fmap in Hin as ([k cmd'] & -> & Hin).
    by apply (Hcov k cmd' Hin). }
  unfold interface_state in Hst. rewrite Hinit in Hst.
  apply (generate_interfaces_final heap _ (model_keys registry)) in Hst
    as (H1 & H2 & H3 & H4); simpl in *.
  1: { assert (generated_models st = model_keys registry) as Hgen
         by (rewrite H3; set_solver).
       split; [done|]. rewrite H4, Hgen.
       assert (filter (declarable heap (get_all_models registry))
                 (model_keys registry) = model_keys registry) as ->.
       { apply set_eq. intros x. rewrite elem_of_filter.
         split; [by intros [_ ?]|]. intros Hx. split; [|done].
         apply model_keys_get in Hx as [c Hc].
         unfold declarable, get_all_models. rewrite Hc. simpl.
         by apply (Hvalid x c). }
       unfold model_keys. rewrite size_list_to_set by done.
       unfold PyDict.keys, get_all_models. by rewrite length_map. }
  all: first [ by apply closed_registered_names
             | set_solver
             | by rewrite (filter_empty_L (C:=gset string)), size_empty ].
Qed.

Lemma X8_complete_registry_declares_every_model_witness :
  exists st,
    interface_state points_heap 2 points_registry = Some st
    /\ client_ts
         (default {| internal_ts := EmptyString; client_ts := EmptyString |}
            (generate points_heap 2 "T" points_registry))
       = PyStr.join PyStr.nl
           (header "T"
            :: body_sections (model_interfaces st)
                 (fst (generate_command_functions points_heap
                         (get_all_commands points_registry))))
    /\ generated_models st = model_keys points_registry
    /\ length (model_interfaces st) = length (get_all_models points_registry).
Proof.
  apply (X8_complete_registry_declares_every_model points_heap 2 "T"
           points_registry).
  - apply (command_complete points_heap 5 get_points_function None
             empty_registry points_registry (Ok tt)
             (registry_complete_empty points_heap)).
    + intros _. reflexivity.
    + reflexivity.
  - reflexivity.
Defined.

(** ** Independence of the registration order *)

Lemma pystr_le_trans a b c : PyStr.le a b -> PyStr.le b c -> PyStr.le a c.
Proof.
  unfold PyStr.le. intros Hab Hbc. apply Is_true_true.
  apply (transitivity (R:=String.le) (y:=b)); by apply Is_true_true.
Qed.

Lemma pystr_le_antisym a b : PyStr.le a b -> PyStr.le b a -> a = b.
Proof. unfold PyStr.le. apply String.leb_antisym. Qed.

Lemma NoDup_fmap_eq {A B : Type} (f : A -> B) (l : list A) x y :
  NoDup (f <$> l) -> x ∈ l -> y ∈ l -> f x = f y -> x = y.
Proof.
  induction l as [|a l IH]; simpl; [by intros _ ?%elem_of_nil|].
  intros [Ha Hnd]%NoDup_cons [->|Hx]%elem_of_cons [->|Hy]%elem_of_cons Hf.
  - done.
  - exfalso. apply Ha. rewrite Hf. apply list_elem_of_fmap. by exists y.
  - exfalso. apply Ha. rewrite <- Hf. apply list_elem_of_fmap. by exists x.
  - by apply IH.
Qed.

(** Sorting by a key that no two items share gives one list, however the
    items are arranged. *)
Lemma sorted_Permutation_eq {A : Type} (key : A -> string) (l1 l2 : list A) :
  NoDup (key <$> l1) -> l1 ≡ₚ l2 -> sorted key l1 = sorted key l2.
Proof.
  intros Hnd Hperm.
  assert (Transitive (key_le key)) as Htrans
    by (intros x y z; apply pystr_le_trans).
  apply (Sorted_unique_strong (key_le key)).
  - intros x1 x2 Hx1 Hx2 H12 H21.
    rewrite (sorted_Permutation key) in Hx1.
    rewrite (sorted_Permutation key), <- Hperm in Hx2.
    apply (NoDup_fmap_eq key l1); [done..|]. by apply pystr_le_antisym.
  - apply sorted_Sorted.
  - apply sorted_Sorted.
  - by rewrite !(sorted_Permutation key).
Qed.

Lemma wf_names_NoDup self :
  registry_wf self -> NoDup (name <$> PyDict.values (_commands self)).
Proof.
  intros (Hnd & Hnames & _).
  assert (name <$> PyDict.values (_commands self) = PyDict.keys (_commands self))
    as ->; [|done].
  clear Hnd. unfold PyDict.values, PyDict.keys.
  induction Hnames as [|[k cmd] l Hk _ IH]; [done|].
  simpl in Hk. csimpl. by f_equal.
Qed.

Section OrderIndependence.
Variable heap : Heap.

Lemma interface_step_ext models1 models2 model_name st :
  (forall k, PyDict.get k models1 = PyDict.get k models2) ->
  interface_step heap models1 model_name st
  = interface_step heap models2 model_name st.
Proof. intros Hget. unfold interface_step. by rewrite Hget. Qed.

Lemma generate_interfaces_ext models1 models2 fuel st :
  (forall k, PyDict.get k models1 = PyDict.get k models2) ->
  generate_interfaces heap fuel models1 st
  = generate_interfaces heap fuel models2 st.
Proof.
  intros Hget. revert st. induction fuel as [|fuel IH]; intros st; [done|].
  simpl. case_decide as Hbatch; [done|]. rewrite <- IH. f_equal. clear Hbatch.
  generalize (sorted id (elements (models_to_generate st ∖ generated_models st))).
  intros names. revert st. clear -Hget.
  induction names as [|n names IH]; intros st; simpl; [done|].
  by rewrite IH, (interface_step_ext _ _ _ _ Hget).
Qed.

End OrderIndependence.

(** X9: the client file does not depend on the order of registration: two
    well-shaped registries holding the same commands and the same models,
    in whatever order, give the same output of [generate]. *)
Theorem X9_generate_ignores_registration_order
  (heap : Heap) (fuel : nat) (now : string) (r1 r2 : CommandRegistry) :
  registry_wf r1 ->
  _commands r1 ≡ₚ _commands r2 ->
  _models r1 ≡ₚ _models r2 ->
  generate heap fuel now r1 = generate heap fuel now r2.
Proof.
  intros Hwf Hcommands Hmodels.
  assert (generate_command_functions heap (get_all_commands r1)
          = generate_command_functions heap (get_all_commands r2)) as Hfns.
  { unfold generate_command_functions, get_all_commands. f_equal.
    apply sorted_Permutation_eq; [by apply wf_names_NoDup|].
    unfold PyDict.values. by rewrite Hcommands. }
  assert (initial_worklist heap r1 = initial_worklist heap r2) as Hinit.
  { unfold initial_worklist. rewrite Hfns, !fold_add_names. f_equal.
    apply set_eq. intros x. rewrite !elem_of_list_to_set.
    unfold PyDict.keys, get_all_models. by rewrite Hmodels. }
  rewrite !generate_unfold. unfold interface_state. rewrite Hfns, Hinit.
  rewrite (generate_interfaces_ext heap (get_all_models r1) (get_all_models r2));
    [done|].
  intros k. apply dict_get_Permutation; [|done]. apply Hwf.
Qed.

Lemma X9_generate_ignores_registration_order_witness :
  generate [] 1 "T" registry_b_then_a = generate [] 1 "T" registry_a_then_b.
Proof.
  apply X9_generate_ignores_registration_order.
  - apply register_wf, register_wf, registry_wf_empty.
  - apply Permutation_swap.
  - reflexivity.
Defined.

(** ** Type mapping, further *)

(** X10: a [Dict] type always maps to a [Record] whose key type is
    [string] or [number]: the mapped key type is kept when it is one of the
    two and replaced by [string] otherwise; the value type is the mapping
    of the second argument, further arguments are ignored, and with fewer
    than two arguments the result is [Record<string, unknown>]. *)
Theorem X10_dict_key_is_string_or_number
  (heap : Heap) (k v : TypeHint) (rest : list TypeHint) (m : gset string) :
  (exists key,
     (key = "string" \/ key = "number")
     /\ (ts_of heap k = "number" -> key = "number")
     /\ (ts_of heap k <> "number" -> key = "string")
     /\ fst (_type_to_ts heap (TDict (k :: v :: rest)) m)
        = "Record<" +:+ key +:+ ", " +:+ ts_of heap v +:+ ">")
  /\ fst (_type_to_ts heap (TDict [k]) m) = "Record<string, unknown>"
  /\ fst (_type_to_ts heap (TDict []) m) = "Record<string, unknown>".
Proof.
  split; [|done]. simpl.
  rewrite (type_to_ts_splits heap k m),
    (type_to_ts_splits heap v (names_of heap k ∪ m)).
  destruct (String.eqb_spec (ts_of heap k) "string") as [Hs|Hs].
  - exists "string". rewrite Hs. simpl.
    repeat split; auto; try (intros; congruence).
  - destruct (String.eqb_spec (ts_of heap k) "number") as [Hn|Hn].
    + exists "number". rewrite Hn. simpl.
      repeat split; auto; try (intros; congruence).
    + exists "string". simpl.
      repeat split; auto; try (intros; congruence).
Qed.

Lemma names_of_heap heap type_hint :
  names_of heap type_hint ⊆ list_to_set (cls_name <$> heap).
Proof.
  induction type_hint as [| | | | | | | |args H|args H|args H|args H|args H|o args H|c|n|]
    using TypeHint_nested_ind;
    try (unfold names_of; simpl; set_solver);
    try (etransitivity; [by apply names_of_args|];
         intros x (X & (a & -> & Ha)%list_elem_of_fmap & Hx)%elem_of_union_list;
         rewrite Forall_forall in H; by apply (H a Ha)).
  unfold names_of. simpl. destruct (heap !! c) as [cls|] eqn:Hcls;
    simpl; [|set_solver].
  apply list_elem_of_lookup_2 in Hcls.
  assert (cls_name cls ∈ cls_name <$> heap)
    by (apply list_elem_of_fmap; by exists cls).
  set_solver.
Qed.

(** X11: the text [_type_to_ts] returns does not depend on what
    [models_to_generate] holds; the call removes nothing from that set and
    adds exactly the model names the hint mentions, each the name of a
    model class of the program. *)
Theorem X11_type_to_ts_accumulates
  (heap : Heap) (type_hint : TypeHint) (m : gset string) :
  fst (_type_to_ts heap type_hint m) = fst (_type_to_ts heap type_hint ∅)
  /\ snd (_type_to_ts heap type_hint m)
     = snd (_type_to_ts heap type_hint ∅) ∪ m
  /\ m ⊆ snd (_type_to_ts heap type_hint m)
  /\ snd (_type_to_ts heap type_hint ∅) ⊆ list_to_set (cls_name <$> heap).
Proof.
  rewrite (type_to_ts_splits heap type_hint m). simpl.
  split; [done|]. split; [done|]. split; [set_solver|].
  apply names_of_heap.
Qed.

Lemma string_app_not_empty_r (a b : string) :
  b <> EmptyString -> a +:+ b <> EmptyString.
Proof. destruct a; [done|]. by intros _. Qed.

Lemma join_not_empty sep x xs :
  x <> EmptyString -> PyStr.join sep (x :: xs) <> EmptyString.
Proof.
  intros Hx. rewrite join_cons. destruct x; [done|]. by intros ?.
Qed.

Lemma ts_first_non_none_not_empty heap args :
  Forall (fun a => ts_of heap a <> EmptyString) args ->
  fst (ts_first_non_none heap args ∅) <> EmptyString.
Proof.
  induction 1 as [|a args Ha _ IH]; simpl; [done|].
  by destruct (is_NoneType a).
Qed.

(** X12: the mapping never yields the empty string for a hint as [typing]
    builds it: every [Union] in it has variants and every model class in
    it has a name. *)
Theorem X12_type_to_ts_is_never_empty
  (heap : Heap) (type_hint : TypeHint) (m : gset string) :
  hint_wf heap type_hint ->
  fst (_type_to_ts heap type_hint m) <> EmptyString.
Proof.
  rewrite type_to_ts_fst.
  induction type_hint as [| | | | | | | |args H|args H|args H|args H|args H|o args H|c|n|]
    using TypeHint_nested_ind; try done.
  - (* Union *)
    intros [Hne Hwf]. unfold ts_of. rewrite type_to_ts_union.
    assert (Forall (fun a => ts_of heap a <> EmptyString) args) as Hall.
    { rewrite Forall_fmap in Hwf. rewrite Forall_forall in *.
      intros a Ha. by apply (H a Ha), (Hwf a Ha). }
    destruct (_ && _).
    + pose proof (ts_first_non_none_not_empty heap args Hall).
      destruct (ts_first_non_none heap args ∅). simpl in *.
      by apply string_app_not_empty_r.
    + pose proof (ts_each_fst heap args ∅) as Hfst.
      destruct (ts_each heap args ∅) as [ss m']. simpl in *. subst ss.
      destruct Hall as [|a args Ha _]; [done|]. by apply join_not_empty.
  - (* List *)
    intros _. unfold ts_of. destruct args as [|a args]; simpl; [done|].
    destruct (_type_to_ts heap a ∅). by apply string_app_not_empty_r.
  - (* Dict *)
    intros _. unfold ts_of. destruct args as [|a0 [|a1 args]]; simpl; [done..|].
    destruct (_type_to_ts heap a0 ∅) as [? m1].
    by destruct (_type_to_ts heap a1 m1).
  - (* Tuple *)
    intros _. unfold ts_of. destruct args as [|a args]; [done|].
    rewrite type_to_ts_tuple. by destruct (ts_each heap (a :: args) ∅).
  - (* Set *)
    intros _. unfold ts_of. destruct args as [|a args]; simpl; [done|].
    destruct (_type_to_ts heap a ∅). by apply string_app_not_empty_r.
  - (* Model *)
    unfold ts_of. simpl. by destruct (heap !! c).
Qed.

Lemma X12_type_to_ts_is_never_empty_witness :
  fst (_type_to_ts points_heap
         (TUnion [TDict [TStr; TList [TModel 0]]; TNoneType]) ∅)
  <> EmptyString.
Proof.
  apply X12_type_to_ts_is_never_empty. simpl.
  split; [done|]. repeat constructor; simpl; try done; repeat constructor.
Defined.

(** ** Identifier casing *)

Lemma chars_app (a b : string) : chars (a +:+ b) = chars a ++ chars b.
Proof.
  induction a as [|x a IH]; [done|].
  change (x :: chars (a +:+ b) = x :: (chars a ++ chars b)). by rewrite IH.
Qed.

Lemma split_no_separator (c : ascii) (s x : string) :
  x ∈ PyStr.split c s -> c ∉ chars x.
Proof.
  revert x. induction s as [|a s IH]; intros x; simpl.
  - intros ->%list_elem_of_singleton. apply not_elem_of_nil.
  - destruct (Ascii.eqb_spec a c) as [->|Hne].
    + intros [->|Hx]%elem_of_cons; [apply not_elem_of_nil | by apply IH].
    + destruct (PyStr.split c s) as [|y r] eqn:E.
      * intros ->%list_elem_of_singleton.
        change (c ∉ a :: []). set_solver.
      * intros [->|Hx]%elem_of_cons.
        -- change (c ∉ a :: chars y). apply not_elem_of_cons. split; [done|].
           apply IH. by left.
        -- apply IH. by right.
Qed.

Lemma split_without_separator (c : ascii) (s : string) :
  c ∉ chars s -> PyStr.split c s = [s].
Proof.
  induction s as [|a s IH]; [done|]. intros H.
  change (c ∉ a :: chars s) in H. apply not_elem_of_cons in H as [Hne Hs].
  simpl.
  destruct (Ascii.eqb_spec a c) as [->|_]; [done|]. by rewrite IH.
Qed.

Lemma case_change_keeps_underscore (a : ascii) :
  a <> "_"%char ->
  PyStr.to_upper a <> "_"%char /\ PyStr.to_lower a <> "_"%char.
Proof.
  destruct a as [[|] [|] [|] [|] [|] [|] [|] [|]]; vm_compute; intros H;
    (split; [first [exact H | discriminate] | first [exact H | discriminate]]).
Qed.

Lemma title_from_no_underscore (prev : bool) (s : string) :
  "_"%char ∉ chars s -> "_"%char ∉ chars (PyStr.title_from prev s).
Proof.
  revert prev. induction s as [|a s IH]; intros prev; [done|].
  intros H. change ("_"%char ∉ a :: chars s) in H.
  apply not_elem_of_cons in H as [Hne Hs]. simpl.
  assert (a <> "_"%char) as Ha by done.
  destruct (case_change_keeps_underscore a Ha) as [Hup Hlow].
  destruct (PyStr.is_lower a || PyStr.is_upper a).
  - change ("_"%char ∉ (if prev then PyStr.to_lower a else PyStr.to_upper a)
                        :: chars (PyStr.title_from true s)).
    apply not_elem_of_cons. split; [by destruct prev | by apply IH].
  - change ("_"%char ∉ a :: chars (PyStr.title_from false s)).
    apply not_elem_of_cons. split; [done | by apply IH].
Qed.

Lemma join_titles_no_underscore (parts : list string) :
  (forall x, x ∈ parts -> "_"%char ∉ chars x) ->
  "_"%char ∉ chars (PyStr.join EmptyString (map PyStr.title parts)).
Proof.
  induction parts as [|x parts IH]; intros Hall; [apply not_elem_of_nil|].
  change (map PyStr.title (x :: parts))
    with (PyStr.title x :: map PyStr.title parts).
  rewrite join_cons, chars_app, not_elem_of_app. split.
  - apply title_from_no_underscore, Hall. by left.
  - destruct (map PyStr.title parts) as [|t ts]; [apply not_elem_of_nil|].
    change ("_"%char ∉ chars (PyStr.join EmptyString (t :: ts))).
    apply IH. intros y Hy. apply Hall. by right.
Qed.

Lemma camel_case_no_underscore (s : string) :
  "_"%char ∉ chars (python_name_to_camel_case s).
Proof.
  unfold python_name_to_camel_case.
  pose proof (split_no_separator "_" s) as Hsplit.
  destruct (PyStr.split "_" s) as [|c0 rest]; [apply not_elem_of_nil|].
  rewrite chars_app, not_elem_of_app. split; [apply Hsplit; by left|].
  apply join_titles_no_underscore. intros x Hx. apply Hsplit. by right.
Qed.

Lemma camel_case_without_underscore (s : string) :
  "_"%char ∉ chars s -> python_name_to_camel_case s = s.
Proof.
  intros Hs. unfold python_name_to_camel_case.
  rewrite (split_without_separator _ _ Hs). apply string_app_nil_r.
Qed.

(** X13: the generated identifiers carry no underscore: neither
    [python_name_to_camel_case] nor [python_name_to_pascal_case] leaves one
    in its result, whatever the name; and the camel-case conversion applied
    to its own result changes nothing. *)
Theorem X13_casing_removes_underscores (s : string) :
  ("_"%char ∉ chars (python_name_to_camel_case s))
  /\ ("_"%char ∉ chars (python_name_to_pascal_case s))
  /\ python_name_to_camel_case (python_name_to_camel_case s)
     = python_name_to_camel_case s.
Proof.
  split; [apply camel_case_no_underscore|]. split.
  - apply join_titles_no_underscore, split_no_separator.
  - apply camel_case_without_underscore, camel_case_no_underscore.
Qed.

(** ** The dispatcher and the endpoints *)

Lemma build_kwargs_keys cmd args k :
  k ∈ PyDict.keys (build_kwargs cmd args) ->
  k ∈ PyDict.keys (params cmd) /\ k ∈ PyDict.keys args.
Proof.
  intros Hk. apply dict_mem_keys in Hk. unfold PyDict.mem in Hk.
  rewrite build_kwargs_get in Hk.
  destruct (PyDict.mem k (params cmd)) eqn:Hp; [|done].
  split; [by apply dict_mem_keys|].
  apply dict_mem_keys. unfold PyDict.mem. by destruct (PyDict.get k args).
Qed.

(** X14: the keyword arguments the dispatcher builds hold, under each
    declared parameter name present in the request, the value the request
    gives it, and nothing else: keys of the request that are not declared
    are dropped, declared names the request lacks stay absent. *)
Theorem X14_kwargs_are_the_declared_arguments
  (cmd : CommandInfo) (args : PyDict.t PyValue) (k : string) :
  PyDict.get k (build_kwargs cmd args)
  = (if PyDict.mem k (params cmd) then PyDict.get k args else None)
  /\ (k ∈ PyDict.keys (build_kwargs cmd args)
      <-> k ∈ PyDict.keys (params cmd) /\ k ∈ PyDict.keys args).
Proof.
  split; [apply build_kwargs_get|]. split; [apply build_kwargs_keys|].
  intros [Hp Ha]. apply dict_mem_keys. unfold PyDict.mem.
  rewrite build_kwargs_get. apply dict_mem_keys in Hp, Ha. rewrite Hp.
  unfold PyDict.mem in Ha. by destruct (PyDict.get k args).
Qed.

Section DispatcherMore.
Variable binding_error : Function -> list string -> string.
Variable not_awaitable : PyValue -> string.
Variable not_found_message : string -> string.

Lemma execute_command_error_class cmd args e :
  _execute_command binding_error not_awaitable cmd args = Raise e ->
  exn_class e = KValidationError
  \/ exn_class e = KCommandExecutionError
  \/ is_Exception e = false.
Proof.
  unfold _execute_command.
  destruct (run_end _) as [v|e0]; [done|].
  destruct (is_TypeError e0); [intros [= <-]; by left|].
  destruct (is_Exception e0) eqn:Hex; intros [= <-]; auto.
Qed.

Lemma required_channel_never_binds fn keys :
  mkParam "channel" false ∈ fn_signature fn ->
  "channel" ∉ keys ->
  binds fn keys = false.
Proof.
  intros Hsig Hkeys. unfold binds. apply andb_false_iff. right.
  apply not_true_is_false. rewrite forallb_forall. intros Hall.
  specialize (Hall (mkParam "channel" false)).
  rewrite <- list_elem_of_In in Hall. specialize (Hall Hsig).
  cbn [has_default param_name orb] in Hall.
  apply existsb_exists in Hall as (k & Hk & Heq).
  apply String.eqb_eq in Heq as <-. by apply list_elem_of_In in Hk.
Qed.

End DispatcherMore.

(** X15: whatever the handler does, a failure of [_execute_command] that is
    an [Exception] is a [ValidationError] or a [CommandExecutionError]: no
    exception of the handler reaches the caller under its own class. *)
Theorem X15_dispatcher_wraps_every_exception
  (binding_error : Function -> list string -> string)
  (not_awaitable : PyValue -> string)
  (cmd : CommandInfo) (args : PyDict.t PyValue) (e : PyExn) :
  _execute_command binding_error not_awaitable cmd args = Raise e ->
  is_Exception e = true ->
  exn_class e = KValidationError \/ exn_class e = KCommandExecutionError.
Proof.
  intros Hrun Hex.
  destruct (execute_command_error_class _ _ _ _ _ Hrun) as [?|[?|?]];
    [by left | by right | congruence].
Qed.

Lemma X15_dispatcher_wraps_every_exception_witness :
  exn_class
    (mkExn KValidationError
       "Invalid arguments: unsupported operand type(s) for +: 'int' and 'str'")
  = KValidationError
  \/ exn_class
       (mkExn KValidationError
          "Invalid arguments: unsupported operand type(s) for +: 'int' and 'str'")
     = KCommandExecutionError.
Proof.
  apply (X15_dispatcher_wraps_every_exception (fun _ _ => "binding")
           (fun _ => "await") add_one_command [("x", VInt 1)]);
    reflexivity.
Defined.

(** X16: a streaming command cannot be run through the request/response
    path: when the decorated function requires its [channel] parameter,
    [_execute_command] on the registered command fails with a
    [ValidationError] for every argument map, since [channel] is never
    among the declared parameters it binds. *)
Theorem X16_streaming_command_needs_a_channel
  (binding_error : Function -> list string -> string)
  (not_awaitable : PyValue -> string)
  (heap : Heap) (fuel : nat) (fn : Function) (custom_name : option string)
  (self self' : CommandRegistry) (info : CommandInfo)
  (args : PyDict.t PyValue) :
  command heap fuel fn custom_name self = Some (self', Ok tt) ->
  get_command (command_name fn custom_name) self' = Some info ->
  mkParam "channel" false ∈ fn_signature fn ->
  _execute_command binding_error not_awaitable info args
  = Raise (mkExn KValidationError
             ("Invalid arguments: "
              +:+ binding_error fn (PyDict.keys (build_kwargs info args)))).
Proof.
  intros Hcmd Hget Hsig.
  assert (func info = fn /\ "channel" ∉ PyDict.keys (params info)) as [Hfn Hno].
  { unfold command in Hcmd. fold (command_name fn custom_name) in Hcmd.
    destruct (for_each _ _ _) as [st|] eqn:Hloop; [|done].
    destruct (collect_models_from_type _ _ _ _) as [reg|]; [|done].
    apply command_params_channel in Hloop as [Hno _].
    unfold register in Hcmd. simpl in Hcmd.
    destruct (PyDict.get (command_name fn custom_name) (_commands reg)); [done|].
    injection Hcmd as <-. unfold get_command in Hget. simpl in Hget.
    rewrite dict_get_set_eq in Hget. injection Hget as <-. simpl.
    split; [done|]. apply Hno, not_elem_of_nil. }
  rewrite <- Hfn. apply execute_command_binding_mismatch.
  apply required_channel_never_binds; [by rewrite Hfn|].
  intros [Hin _]%build_kwargs_keys. done.
Qed.

Lemma X16_streaming_command_needs_a_channel_witness :
  _execute_command (fun _ _ => "missing channel") (fun _ => "await")
    tick_info [("count", VInt 2)]
  = Raise (mkExn KValidationError
             ("Invalid arguments: "
              +:+ (fun _ _ => "missing channel") tick_function
                    (PyDict.keys (build_kwargs tick_info [("count", VInt 2)])))).
Proof.
  apply (X16_streaming_command_needs_a_channel _ _ [] 5 tick_function None
           empty_registry tick_registry).
  - reflexivity.
  - reflexivity.
  - right. left.
Defined.

(** X17: both endpoints look the command up before anything else: for a
    name that is not registered, [execute_command] and [init_channel] raise
    [CommandNotFoundError], answered with status 404, whatever the body,
    even one that does not parse. *)
Theorem X17_unknown_command_is_not_found
  (binding_error : Function -> list string -> string)
  (not_awaitable : PyValue -> string)
  (not_found_message : string -> string)
  (registry : CommandRegistry) (command_name : string) (body : Body)
  (fresh : Channel) :
  get_command command_name registry = None ->
  execute_command binding_error not_awaitable not_found_message registry
    command_name body
  = Raise (CommandNotFoundError not_found_message command_name)
  /\ init_channel binding_error not_awaitable not_found_message registry
       command_name body fresh
     = Raise (CommandNotFoundError not_found_message command_name)
  /\ bridge_error_status (CommandNotFoundError not_found_message command_name)
     = 404.
Proof.
  intros Hget. unfold execute_command, init_channel. by rewrite Hget.
Qed.

Lemma X17_unknown_command_is_not_found_witness :
  execute_command (fun _ _ => "binding") (fun _ => "await")
    (fun n => "Command not found: " +:+ n) empty_registry "doesNotExist"
    (BodyInvalid "Expecting value")
  = Raise (CommandNotFoundError (fun n => "Command not found: " +:+ n)
             "doesNotExist")
  /\ init_channel (fun _ _ => "binding") (fun _ => "await")
       (fun n => "Command not found: " +:+ n) empty_registry "doesNotExist"
       (BodyInvalid "Expecting value") (new_channel "c1")
     = Raise (CommandNotFoundError (fun n => "Command not found: " +:+ n)
                "doesNotExist")
  /\ bridge_error_status
       (CommandNotFoundError (fun n => "Command not found: " +:+ n)
          "doesNotExist") = 404.
Proof.
  apply X17_unknown_command_is_not_found. reflexivity.
Defined.

(** X18: [init_channel] refuses a command without a [channel] parameter
    before it reads the body: it raises the [ValidationError] saying that
    the command does not support channels, answered with status 400, and
    the handler is not run. *)
Theorem X18_init_channel_refuses_plain_commands
  (binding_error : Function -> list string -> string)
  (not_awaitable : PyValue -> string)
  (not_found_message : string -> string)
  (registry : CommandRegistry) (command_name : string) (cmd : CommandInfo)
  (body : Body) (fresh : Channel) :
  get_command command_name registry = Some cmd ->
  has_channel cmd = false ->
  init_channel binding_error not_awaitable not_found_message registry
    command_name body fresh
  = Raise (mkExn KValidationError
             ("Command '" +:+ command_name +:+ "' does not support channels"))
  /\ bridge_error_status
       (mkExn KValidationError
          ("Command '" +:+ command_name +:+ "' does not support channels"))
     = 400.
Proof.
  intros Hget Hch. unfold init_channel. by rewrite Hget, Hch.
Qed.

Lemma X18_init_channel_refuses_plain_commands_witness :
  init_channel (fun _ _ => "binding") (fun _ => "await")
    (fun n => "Command not found: " +:+ n) points_registry "get_points"
    (BodyInvalid "Expecting value") (new_channel "c1")
  = Raise (mkExn KValidationError
             ("Command '" +:+ "get_points" +:+ "' does not support channels"))
  /\ bridge_error_status
       (mkExn KValidationError
          ("Command '" +:+ "get_points" +:+ "' does not support channels"))
     = 400.
Proof.
  apply (X18_init_channel_refuses_plain_commands _ _ _ points_registry
           "get_points"
           (default (noop_command "x" "y")
              (get_command "get_points" points_registry)));
    reflexivity.
Defined.

(** X19: every failure of the [execute_command] endpoint that is an
    [Exception] is answered with status 400 or 404, and with 404 exactly
    when the command is not registered: an unparsable body, a binding
    mismatch and a failing handler all give 400. *)
Theorem X19_execute_command_statuses
  (binding_error : Function -> list string -> string)
  (not_awaitable : PyValue -> string)
  (not_found_message : string -> string)
  (registry : CommandRegistry) (command_name : string) (body : Body)
  (e : PyExn) :
  execute_command binding_error not_awaitable not_found_message registry
    command_name body = Raise e ->
  is_Exception e = true ->
  (get_command command_name registry = None /\ bridge_error_status e = 404)
  \/ (is_Some (get_command command_name registry)
      /\ bridge_error_status e = 400).
Proof.
  unfold execute_command.
  destruct (get_command command_name registry) as [cmd|] eqn:Hget.
  - intros Hrun Hex. right. split; [by eexists|].
    destruct body as [|args|error]; simpl in Hrun.
    + destruct (_execute_command _ _ cmd []) as [v|e0] eqn:E; [done|].
      injection Hrun as ->.
      unfold bridge_error_status.
      destruct (execute_command_error_class binding_error not_awaitable _ _ _ E)
        as [H|[H|H]]; [by rewrite H | by rewrite H | congruence].
    + destruct (_execute_command _ _ cmd args) as [v|e0] eqn:E; [done|].
      injection Hrun as ->.
      unfold bridge_error_status.
      destruct (execute_command_error_class binding_error not_awaitable _ _ _ E)
        as [H|[H|H]]; [by rewrite H | by rewrite H | congruence].
    + by injection Hrun as <-.
  - intros [= <-] _. by left.
Qed.

Lemma X19_execute_command_statuses_witness :
  (get_command "add_one" (fst (register add_one_command empty_registry)) = None
   /\ bridge_error_status
        (mkExn KValidationError
           "Invalid arguments: unsupported operand type(s) for +: 'int' and 'str'")
      = 404)
  \/ (is_Some (get_command "add_one"
                 (fst (register add_one_command empty_registry)))
      /\ bridge_error_status
           (mkExn KValidationError
              "Invalid arguments: unsupported operand type(s) for +: 'int' and 'str'")
         = 400).
Proof.
  apply (X19_execute_command_statuses (fun _ _ => "binding") (fun _ => "await")
           (fun n => "Command not found: " +:+ n)
           (fst (register add_one_command empty_registry)) "add_one"
           (BodyObject [("x", VInt 1)]));
    reflexivity.
Defined.

(** X20: the two listings agree and list only commands that can be
    called: for a registry in the shape [register] keeps, the names of the
    [/commands] entries are the names the [root] endpoint lists, in the
    same order, and each entry describes the command that [get_command]
    returns for its name, so neither endpoint answers a listed name with
    [CommandNotFoundError]. *)
Theorem X20_listed_commands_are_registered
  (registry : CommandRegistry) (entry : CommandEntry) :
  registry_wf registry ->
  entry ∈ list_commands registry ->
  map entry_name (list_commands registry) = root_commands registry
  /\ exists cmd, get_command (entry_name entry) registry = Some cmd
                 /\ entry = entry_of cmd.
Proof.
  intros (Hnd & Hnames & _) Hin. rewrite list_commands_values in *.
  unfold root_commands, get_all_commands, get_command, PyDict.values, PyDict.keys in *.
  split.
  - rewrite <- !list_fmap_compose. apply list_fmap_ext.
    intros i [k cmd] Hi. simpl.
    apply list_elem_of_lookup_2 in Hi.
    by apply (proj1 (Forall_forall _ _) Hnames) in Hi.
  - apply list_elem_of_fmap in Hin as (cmd & -> & Hin).
    apply list_elem_of_fmap in Hin as ([k cmd'] & -> & Hin).
    exists cmd'. split; [|done]. simpl.
    pose proof (proj1 (Forall_forall _ _) Hnames _ Hin) as Hk. simpl in Hk.
    rewrite Hk. by apply dict_elem_of_get.
Qed.

Lemma X20_listed_commands_are_registered_witness :
  map entry_name (list_commands points_registry) = root_commands points_registry
  /\ exists cmd,
       get_command
         (entry_name
            (entry_of (default (noop_command "x" "y")
                         (get_command "get_points" points_registry))))
         points_registry = Some cmd
       /\ entry_of (default (noop_command "x" "y")
                      (get_command "get_points" points_registry))
          = entry_of cmd.
Proof.
  apply X20_listed_commands_are_registered.
  - split; [|split].
    + apply NoDup_ListNoDup. vm_compute. repeat constructor; simpl; tauto.
    + vm_compute. repeat constructor.
    + apply NoDup_ListNoDup. vm_compute. repeat constructor; simpl; tauto.
  - vm_compute. left.
Defined.

(** ** Event types of a WebSocket events class *)

Lemma add_hints_get hints acc name :
  NoDup (PyDict.keys hints) ->
  PyDict.get name (add_hints hints acc)
  = if startswith_underscore name then PyDict.get name acc
    else match PyDict.get name hints with
         | Some t => Some t
         | None => PyDict.get name acc
         end.
Proof.
  unfold add_hints. revert acc.
  induction hints as [|[k h] hints IH]; intros acc Hnd.
  - simpl. by destruct (startswith_underscore name).
  - apply NoDup_cons in Hnd as [Hk Hnd]. cbn [fold_left fst snd].
    rewrite (IH _ Hnd). cbn [PyDict.get].
    destruct (String.eqb_spec name k) as [->|Hne].
    + change (k ∉ PyDict.keys hints) in Hk.
      apply dict_get_None_keys in Hk. rewrite Hk.
      destruct (startswith_underscore k); simpl; [done|].
      by rewrite dict_get_set_eq.
    + destruct (startswith_underscore k); simpl; [done|].
      by rewrite (dict_get_set_ne _ _ _ _ Hne).
Qed.

Lemma add_annotations_get annotations acc name :
  PyDict.get name (add_annotations annotations acc)
  = match PyDict.get name acc with
    | Some t => Some t
    | None => if startswith_underscore name then None
              else PyDict.get name annotations
    end.
Proof.
  unfold add_annotations. revert acc.
  induction annotations as [|[k h] annotations IH]; intros acc.
  - simpl. by destruct (PyDict.get name acc), (startswith_underscore name).
  - cbn [fold_left fst snd]. rewrite IH. cbn [PyDict.get].
    unfold PyDict.mem.
    destruct (String.eqb_spec name k) as [->|Hne].
    + destruct (startswith_underscore k) eqn:Hus; simpl.
      * by destruct (PyDict.get k acc).
      * destruct (PyDict.get k acc) eqn:Hacc; simpl; [by rewrite Hacc|].
        by rewrite dict_get_set_eq.
    + destruct (negb (startswith_underscore k)
                && negb match PyDict.get k acc with
                        | Some _ => true
                        | None => false
                        end); [|done].
      by rewrite (dict_get_set_ne _ _ _ _ Hne).
Qed.

Lemma add_hints_NoDup hints acc :
  NoDup (PyDict.keys acc) -> NoDup (PyDict.keys (add_hints hints acc)).
Proof.
  unfold add_hints. revert acc.
  induction hints as [|[k h] hints IH]; intros acc Hnd; [done|].
  cbn [fold_left fst snd]. apply IH.
  destruct (negb _); [by apply dict_keys_set_NoDup | done].
Qed.

Lemma add_annotations_NoDup annotations acc :
  NoDup (PyDict.keys acc) ->
  NoDup (PyDict.keys (add_annotations annotations acc)).
Proof.
  unfold add_annotations. revert acc.
  induction annotations as [|[k h] annotations IH]; intros acc Hnd; [done|].
  cbn [fold_left fst snd]. apply IH.
  destruct (_ && _); [by apply dict_keys_set_NoDup | done].
Qed.

(** X21: the event types [_extract_event_types] returns for a class hold
    no name that starts with an underscore; a public name is mapped to the
    type [get_type_hints] gives it, and to its [__annotations__] entry only
    when [get_type_hints] has none for it (or raised); no name occurs
    twice. *)
Theorem X21_event_types_prefer_type_hints
  (cls : EventsClass) (name : string) :
  NoDup (PyDict.keys (default [] (ec_hints cls))) ->
  NoDup (PyDict.keys (_extract_event_types (Some cls)))
  /\ PyDict.get name (_extract_event_types (Some cls))
     = if startswith_underscore name then None
       else match PyDict.get name (default [] (ec_hints cls)) with
            | Some t => Some t
            | None => PyDict.get name (default [] (ec_annotations cls))
            end.
Proof.
  intros Hnd. unfold _extract_event_types.
  assert (Hfirst :
    PyDict.get name
      match ec_hints cls with Some hints => add_hints hints [] | None => [] end
    = if startswith_underscore name then None
      else PyDict.get name (default [] (ec_hints cls))).
  { destruct (ec_hints cls) as [hints|]; simpl in *.
    - rewrite (add_hints_get _ _ _ Hnd). simpl.
      by destruct (startswith_underscore name), (PyDict.get name hints).
    - by destruct (startswith_underscore name). }
  assert (Hnd1 :
    NoDup (PyDict.keys
      match ec_hints cls with Some hints => add_hints hints [] | None => [] end)).
  { destruct (ec_hints cls); [apply add_hints_NoDup|]; apply NoDup_nil_2. }
  destruct (ec_annotations cls) as [annotations|]; simpl.
  - split; [by apply add_annotations_NoDup|].
    rewrite add_annotations_get, Hfirst.
    destruct (startswith_underscore name); [done|].
    by destruct (PyDict.get name (default [] (ec_hints cls))).
  - split; [done|]. rewrite Hfirst.
    destruct (startswith_underscore name); [done|].
    by destruct (PyDict.get name (default [] (ec_hints cls))).
Qed.

Lemma X21_event_types_prefer_type_hints_witness :
  NoDup (PyDict.keys (_extract_event_types (Some chat_events)))
  /\ PyDict.get "typing" (_extract_event_types (Some chat_events))
     = if startswith_underscore "typing" then None
       else match PyDict.get "typing" (default [] (ec_hints chat_events)) with
            | Some t => Some t
            | None =>
                PyDict.get "typing" (default [] (ec_annotations chat_events))
            end.
Proof.
  apply X21_event_types_prefer_type_hints.
  apply NoDup_ListNoDup. vm_compute.
  repeat constructor; simpl; intuition discriminate.
Defined.
